(** * Ps_Mangment: session billing and daily summaries

    A shallow embedding of the billing logic of the PlayStation-venue
    management application:

    - [calculateSessionCost], [startSession], [endSession],
      [updateExtraControllers], the cost-update interval, the loaders
      ([loadInitialData], [fetchDevices], [fetchActiveSessions]) and the
      duration formatters of the [DeviceManagement] component;
    - the cart operations, [calculateTotal] and [handleCheckout] of
      [SalesManagement];
    - the PL/pgSQL functions [calculate_daily_summary],
      [update_daily_summary] and [update_device_status] of the
      migrations, with the triggers that run them;
    - the counters of the dashboard.

    Numbers.  JavaScript [number]s and PostgreSQL [numeric]s are modelled
    as exact rationals ([Q]); equalities between amounts are stated with
    [==].  PostgreSQL computes exactly; JavaScript computes in double
    precision, so an amount of the model is the exact value of which the
    code holds a floating-point approximation.  The statements about
    JavaScript amounts are therefore about what both share (orders,
    bounds, statuses, whole counts, and equalities between results of
    the same computation) or carry the tolerance [up_to_rounding].
    Timestamps are integers (milliseconds since the epoch, the value of
    [Date.getTime()]).

    Effects.  A component operation is a function on pairs of a storage
    state and a component state.  What the outside world contributes to
    one run, that is clock readings, generated ids and whether each
    storage request is answered without error, is an argument of the
    operation.

    Layout.  The model comes first, then the notions the statements
    need (the rules in the words of the specification, invariants,
    concrete data), then the properties. *)

From Stdlib Require Import ZArith QArith Qround Qabs Lia Lqa.
From stdpp Require Import gmap strings list pretty.

Local Open Scope Q_scope.

(** ** JavaScript arithmetic on exact rationals *)

Module JS.

(** [Math.floor]. *)
Definition floor (x : Q) : Q := inject_Z (Qfloor x).

(** Truncation toward zero, the integer quotient behind [%]. *)
Definition trunc (x : Q) : Z :=
  if Qlt_le_dec x 0 then Qceiling x else Qfloor x.

(** [a % n]: the remainder takes the sign of the dividend. *)
Definition rem (a n : Q) : Q := a - n * inject_Z (trunc (a / n)).

(** [Math.round]: nearest integer, halves go toward plus infinity. *)
Definition round (x : Q) : Q := inject_Z (Qfloor (x + (1 # 2))).

(** The time values of a [Date] lie within 8.64e15 milliseconds of the
    epoch; a [Date] built from any other number, or from [NaN], is
    invalid, and its [toISOString] throws. *)
Definition max_time : Z := 8640000000000000.

Definition valid_time (t : Z) : bool := (Z.abs t <=? max_time)%Z.

End JS.

(** ** Data model (lib/supabase.ts and the schema migrations) *)

Inductive DeviceType := external | internal | vip.
Inductive DeviceStatus := available | occupied | maintenance.
Inductive SessionStatus := active | completed.

#[global] Instance DeviceStatus_eq_dec : EqDecision DeviceStatus.
Proof. solve_decision. Defined.
#[global] Instance SessionStatus_eq_dec : EqDecision SessionStatus.
Proof. solve_decision. Defined.

Module Device.
Record t := mk {
  id : string;
  name : string;
  type : DeviceType;
  status : DeviceStatus;
  hourly_rate : Q;
  extra_controller_rate : Q;
  location : string
}.

(** [{ ...d, status: st }] *)
Definition with_status (st : DeviceStatus) (d : t) : t :=
  mk (id d) (name d) (type d) st (hourly_rate d)
     (extra_controller_rate d) (location d).
End Device.

Module Session.
(** [start_time] and [end_time] hold the instant the ISO string denotes;
    [None] is the falsy value ([null], or the empty string for
    [start_time]).  [created_at] exists in the table only (it is not
    part of the TypeScript type); [None] is SQL [NULL]. *)
Record t := mk {
  id : string;
  device_id : string;
  start_time : option Z;
  end_time : option Z;
  extra_controllers : Z;
  status : SessionStatus;
  total_cost : Q;
  discount_amount : Q;
  final_amount : Q;
  customer_name : option string;
  created_at : option Z
}.

(** [{ ...s, extra_controllers: n }] *)
Definition with_extra_controllers (n : Z) (s : t) : t :=
  mk (id s) (device_id s) (start_time s) (end_time s) n (status s)
     (total_cost s) (discount_amount s) (final_amount s)
     (customer_name s) (created_at s).

(** [{ ...s, end_time: e }] *)
Definition with_end_time (e : option Z) (s : t) : t :=
  mk (id s) (device_id s) (start_time s) e (extra_controllers s)
     (status s) (total_cost s) (discount_amount s) (final_amount s)
     (customer_name s) (created_at s).

(** [{ ...s, total_cost: c, final_amount: f }] *)
Definition with_cost (c f : Q) (s : t) : t :=
  mk (id s) (device_id s) (start_time s) (end_time s)
     (extra_controllers s) (status s) c (discount_amount s) f
     (customer_name s) (created_at s).
End Session.

(** ** The session cost calculator (DeviceManagement.calculateSessionCost)

    The function closes over two pieces of component state,
    [isOpenSession] (the check box of the start dialog) and
    [expiredSessions], and reads the clock; all three are parameters
    here.  The clock is read at most once per call: by [new Date()] when
    [end_time] is null, or by the expiry test when it is not.

    Arithmetic is exact here.  In the double-precision arithmetic of
    the code a product can fall just below the tie that [Math.round]
    rounds up, and the code then returns a hundredth less than this
    function: 0.03 for 0.04 after 84 seconds, 2.17 for 2.18 after 87
    minutes with the box unticked. *)

Section Cost.

Variable isOpenSession : bool.
Variable expiredSessions : gset string.
Variable now : Z.

(** The instant up to which the session is billed. *)
Definition effective_end (session : Session.t) : Z :=
  match Session.end_time session with
  | Some e =>
      (* [session.end_time] is truthy *)
      if negb isOpenSession && bool_decide (Session.id session ∈ expiredSessions)
      then e
      else
        let end_ := e in
        if negb isOpenSession && (now >? e)%Z then e else end_
  | None =>
      (* both tests on [session.end_time] fail: [end = new Date()] *)
      now
  end.

(** Base cost of [totalMinutes] minutes of play. *)
Definition baseCost (totalMinutes : Q) : Q :=
  if isOpenSession then totalMinutes * (25 # 1000)
  else
    let hours := JS.floor (totalMinutes / 60) in
    let remainingMinutes := JS.rem totalMinutes 60 in
    hours * (15 # 10) + remainingMinutes * (25 # 1000).

(** Surcharge for the extra controllers over [totalMinutes] minutes. *)
Definition extraControllersCost
    (session : Session.t) (device : Device.t) (totalMinutes : Q) : Q :=
  let hours := totalMinutes / 60 in
  inject_Z (Session.extra_controllers session)
    * Device.extra_controller_rate device * hours.

Definition calculateSessionCost (session : Session.t) (device : Device.t) : Q :=
  match Session.start_time session with
  | None => 0
  | Some start =>
      let end_ := effective_end session in
      let totalMinutes := inject_Z (end_ - start) / 60000 in
      JS.round ((baseCost totalMinutes
                 + extraControllersCost session device totalMinutes) * 100)
        / 100
  end.

End Cost.

(** ** Storage: the [devices] and [sessions] tables

    Rows are keyed by their primary key.  The requests below are the ones
    [DeviceManagement] sends; each is applied atomically by the backend. *)

Module DB.

Record t := mk {
  devices : gmap string Device.t;
  sessions : gmap string Session.t
}.

(** [from('devices').update({ status: st }).eq('id', deviceId)]; a
    missing row is not an error, the update then touches no row. *)
Definition set_device_status (deviceId : string) (st : DeviceStatus) (db : t) : t :=
  mk (alter (Device.with_status st) deviceId (devices db)) (sessions db).

(** Trigger function [update_device_status] of the policies migration,
    for the row [new] just inserted ([inserted = true]) or just updated
    to a new [status]. *)
Definition update_device_status (inserted : bool) (new : Session.t) (db : t) : t :=
  if inserted then set_device_status (Session.device_id new) occupied db
  else if decide (Session.status new = completed)
       then set_device_status (Session.device_id new) available db
       else db.

Section Requests.

(** Whether the trigger [update_device_status_trigger] is installed. *)
Variable device_status_trigger : bool.

Definition fire (inserted : bool) (new : Session.t) (db : t) : t :=
  if device_status_trigger then update_device_status inserted new db else db.

(** [from('sessions').insert([row]).select().single()].  The primary
    key must be new and the device must exist (foreign key); the
    stored row is returned. *)
Definition insert_session (row : Session.t) (db : t) : option (Session.t * t) :=
  match sessions db !! Session.id row, devices db !! Session.device_id row with
  | None, Some _ =>
      Some (row, fire true row (mk (devices db) (<[Session.id row := row]> (sessions db))))
  | _, _ => None
  end.

(** [from('sessions').update({ end_time, status: 'completed',
    total_cost, discount_amount, final_amount }).eq('id', sid)] *)
Definition complete (endTime : Z) (totalCost discountAmount finalAmount : Q)
    (s : Session.t) : Session.t :=
  Session.mk (Session.id s) (Session.device_id s) (Session.start_time s)
    (Some endTime) (Session.extra_controllers s) completed
    totalCost discountAmount finalAmount
    (Session.customer_name s) (Session.created_at s).

Definition complete_session (sid : string) (endTime : Z)
    (totalCost discountAmount finalAmount : Q) (db : t) : t :=
  match sessions db !! sid with
  | Some s =>
      let new := complete endTime totalCost discountAmount finalAmount s in
      fire false new (mk (devices db) (<[sid := new]> (sessions db)))
  | None => db
  end.

(** [from('sessions').update({ total_cost, final_amount }).eq('id', sid)];
    [status] is not assigned, so the trigger does not fire. *)
Definition set_session_cost (sid : string) (totalCost finalAmount : Q) (db : t) : t :=
  mk (devices db) (alter (Session.with_cost totalCost finalAmount) sid (sessions db)).

(** [from('sessions').update({ extra_controllers, total_cost,
    final_amount }).eq('id', sid)] *)
Definition set_session_controllers (sid : string) (n : Z)
    (totalCost finalAmount : Q) (db : t) : t :=
  mk (devices db)
     (alter (fun s => Session.with_cost totalCost finalAmount
                        (Session.with_extra_controllers n s))
            sid (sessions db)).

End Requests.

End DB.

(** ** The DeviceManagement component

    The component keeps a snapshot of the devices and of the active
    sessions (keyed by device id) next to the dialog state.  An operation
    runs against the snapshot of the render that started it and against
    the storage; what the outside world contributes to one run (clock
    readings, the generated row id, whether each request is answered
    without error) is collected in a record. *)

Inductive ErrorMessage := err_load | err_start | err_controllers | err_end.

Module View.
Record t := mk {
  devices : list Device.t;
  activeSessions : gmap string Session.t;
  showEndSessionModal : option string;
  showStartSessionModal : option string;
  discount : Q;
  sessionDuration : option Z;   (* [None]: [NaN] or an infinity *)
  isOpenSession : bool;
  customerName : string;
  error : option ErrorMessage;
  isStartingSession : bool;
  isEndingSession : bool;
  expiredSessions : gset string;
  extraTime : gmap string Z
}.
End View.

(** [devices.find(d => d.id === deviceId)] *)
Definition find_device (deviceId : string) (devices : list Device.t) : option Device.t :=
  List.find (fun d => bool_decide (Device.id d = deviceId)) devices.

(** [prev.map(d => d.id === deviceId ? { ...d, status: st } : d)] *)
Definition mark_device (deviceId : string) (st : DeviceStatus)
    (devices : list Device.t) : list Device.t :=
  List.map (fun d => if bool_decide (Device.id d = deviceId)
                     then Device.with_status st d else d) devices.

(** [customerName || null] *)
Definition or_null (s : string) : option string :=
  if decide (s = EmptyString) then None else Some s.

Module Start.
(** What one run of [startSession] receives from outside. *)
Record env := mk {
  startTime : Z;          (* [new Date()] at the start of the run *)
  clock : Z;              (* the clock when the initial cost is computed *)
  uuid : string;          (* [gen_random_uuid()] for the new row *)
  created : Z;            (* [now()] for [created_at] *)
  device_ok : bool;       (* the request marking the device occupied *)
  insert_ok : bool;       (* the request inserting the session *)
  revert_ok : bool        (* the compensating request of the handler *)
}.
End Start.

Module End_.
(** What one run of [endSession] receives from outside. *)
Record env := mk {
  endTime : Z;            (* [new Date()] *)
  clock : Z;              (* the clock at the expiry test of the calculator *)
  session_ok : bool;      (* the request completing the session *)
  device_ok : bool        (* the request releasing the device *)
}.
End End_.

Module Tick.
(** What one pass of the cost-update interval over one session receives. *)
Record env := mk {
  now : Z;                (* [new Date()] of the expiry test *)
  clock : Z;              (* the clock inside the calculator *)
  shown : Z;              (* the clock inside [formatDuration] *)
  update_ok : bool        (* the request storing the new cost *)
}.
End Tick.

Section Operations.

Variable device_status_trigger : bool.

(** The [catch] and [finally] blocks of [startSession]: the error is
    shown and the device is set back to [available]; the outcome of
    that request is not inspected. *)
Definition startSession_failed (e : Start.env) (deviceId : string)
    (db : DB.t) (v : View.t) : DB.t * View.t :=
  (if Start.revert_ok e then DB.set_device_status deviceId available db else db,
   View.mk (View.devices v) (View.activeSessions v)
     (View.showEndSessionModal v) (View.showStartSessionModal v)
     (View.discount v) (View.sessionDuration v) (View.isOpenSession v)
     (View.customerName v) (Some err_start) false (View.isEndingSession v)
     (View.expiredSessions v) (View.extraTime v)).

(** [endTime] as [startSession] passes it on: [Some None] is [null] (an
    open-ended session), [Some (Some t)] a valid date, and [None] an
    invalid date, on which [endTime?.toISOString()] throws.  The
    duration field holds [Math.max(1, parseInt(value))], which is [NaN]
    once the field is emptied. *)
Definition scheduled_end (e : Start.env) (v : View.t) : option (option Z) :=
  if View.isOpenSession v then Some None
  else
    match View.sessionDuration v with
    | Some sessionDuration =>
        let t := (Start.startTime e + sessionDuration * 60 * 1000)%Z in
        if JS.valid_time t then Some (Some t) else None
    | None => None
    end.

(** The row [startSession] inserts: the session starts now, ends at
    [endTime] unless it is open-ended, and carries the cost computed for
    it at this moment. *)
Definition new_session (e : Start.env) (v : View.t) (deviceId : string)
    (device : Device.t) (endTime : option Z) : Session.t :=
  let startTime := Start.startTime e in
  let initialCost :=
    calculateSessionCost (View.isOpenSession v) (View.expiredSessions v)
      (Start.clock e)
      (Session.mk EmptyString deviceId (Some startTime) endTime 0
         active 0 0 0 (or_null (View.customerName v)) None)
      device in
  Session.mk (Start.uuid e) deviceId (Some startTime) endTime 0
    active initialCost 0 initialCost
    (or_null (View.customerName v)) (Some (Start.created e)).

(** [startSession].  The end time is computed first; the device is
    marked occupied; then the arguments of [calculateSessionCost] are
    built, where an invalid end time throws; then the session is
    inserted. *)
Definition startSession (e : Start.env) (deviceId : string)
    (w : DB.t * View.t) : DB.t * View.t :=
  let (db, v) := w in
  if View.isStartingSession v then w
  else
    match find_device deviceId (View.devices v) with
    | None => startSession_failed e deviceId db v
    | Some device =>
        if negb (bool_decide (Device.status device = available))
        then startSession_failed e deviceId db v
        else if negb (Start.device_ok e) then startSession_failed e deviceId db v
        else
          let db1 := DB.set_device_status deviceId occupied db in
          match scheduled_end e v with
          | None => startSession_failed e deviceId db1 v
          | Some endTime =>
              match (if Start.insert_ok e
                     then DB.insert_session device_status_trigger
                            (new_session e v deviceId device endTime) db1
                     else None) with
              | None => startSession_failed e deviceId db1 v
              | Some (sessionData, db2) =>
                  (db2,
                   View.mk (mark_device deviceId occupied (View.devices v))
                     (<[deviceId := sessionData]> (View.activeSessions v))
                     (View.showEndSessionModal v) None
                     (View.discount v) (Some 60%Z) true EmptyString None false
                     (View.isEndingSession v)
                     (View.expiredSessions v) (View.extraTime v))
              end
          end
    end.

(** The [catch] and [finally] blocks of [endSession]. *)
Definition endSession_failed (db : DB.t) (v : View.t) : DB.t * View.t :=
  (db,
   View.mk (View.devices v) (View.activeSessions v)
     (View.showEndSessionModal v) (View.showStartSessionModal v)
     (View.discount v) (View.sessionDuration v) (View.isOpenSession v)
     (View.customerName v) (Some err_end) (View.isStartingSession v) false
     (View.expiredSessions v) (View.extraTime v)).

(** The amounts [endSession] stores: [(totalCost, discountAmount,
    finalAmount)], as exact values; the code holds their double-precision
    approximations (0.9450000000000001 for a total of 1.05 at 10%). *)
Definition endSession_amounts (e : End_.env) (v : View.t)
    (session : Session.t) (device : Device.t) : Q * Q * Q :=
  let totalCost :=
    calculateSessionCost (View.isOpenSession v) (View.expiredSessions v)
      (End_.clock e)
      (Session.with_end_time (Some (End_.endTime e)) session) device in
  let discountAmount := (View.discount v / 100) * totalCost in
  let finalAmount := totalCost - discountAmount in
  (totalCost, discountAmount, finalAmount).

Definition endSession (e : End_.env) (deviceId : string)
    (w : DB.t * View.t) : DB.t * View.t :=
  let (db, v) := w in
  if View.isEndingSession v then w
  else
    match View.activeSessions v !! deviceId, find_device deviceId (View.devices v) with
    | Some session, Some device =>
        let '(totalCost, discountAmount, finalAmount) :=
          endSession_amounts e v session device in
        if negb (End_.session_ok e) then endSession_failed db v
        else
          let db1 :=
            DB.complete_session device_status_trigger (Session.id session)
              (End_.endTime e) totalCost discountAmount finalAmount db in
          if negb (End_.device_ok e) then endSession_failed db1 v
          else
            let db2 := DB.set_device_status deviceId available db1 in
            (db2,
             View.mk (mark_device deviceId available (View.devices v))
               (delete deviceId (View.activeSessions v))
               None (View.showStartSessionModal v)
               0 (View.sessionDuration v) (View.isOpenSession v)
               (View.customerName v) (View.error v)
               (View.isStartingSession v) false
               (View.expiredSessions v ∖ {[Session.id session]})
               (delete (Session.id session) (View.extraTime v)))
    | _, _ => w
    end.

(** [{ ...v, activeSessions: m }] *)
Definition with_activeSessions (m : gmap string Session.t) (v : View.t) : View.t :=
  View.mk (View.devices v) m
    (View.showEndSessionModal v) (View.showStartSessionModal v)
    (View.discount v) (View.sessionDuration v) (View.isOpenSession v)
    (View.customerName v) (View.error v)
    (View.isStartingSession v) (View.isEndingSession v)
    (View.expiredSessions v) (View.extraTime v).

(** [updateExtraControllers]; [ok] tells whether the request succeeds. *)
Definition updateExtraControllers (clock : Z) (ok : bool)
    (deviceId : string) (increment : bool) (w : DB.t * View.t) : DB.t * View.t :=
  let (db, v) := w in
  match View.activeSessions v !! deviceId, find_device deviceId (View.devices v) with
  | Some session, Some device =>
      if bool_decide (Session.id session ∈ View.expiredSessions v) then w
      else
        let newCount :=
          if increment then (Session.extra_controllers session + 1)%Z
          else Z.max 0 (Session.extra_controllers session - 1) in
        let newCost :=
          calculateSessionCost (View.isOpenSession v) (View.expiredSessions v)
            clock (Session.with_extra_controllers newCount session) device in
        let finalAmount := newCost * (1 - Session.discount_amount session / 100) in
        if negb ok then
          (db,
           View.mk (View.devices v) (View.activeSessions v)
             (View.showEndSessionModal v) (View.showStartSessionModal v)
             (View.discount v) (View.sessionDuration v) (View.isOpenSession v)
             (View.customerName v) (Some err_controllers)
             (View.isStartingSession v) (View.isEndingSession v)
             (View.expiredSessions v) (View.extraTime v))
        else
          (DB.set_session_controllers (Session.id session) newCount
             newCost finalAmount db,
           with_activeSessions
             (<[deviceId :=
                  Session.with_cost newCost finalAmount
                    (Session.with_extra_controllers newCount session)]>
                (View.activeSessions v)) v)
  | _, _ => w
  end.

(** The expiry test of the cost-update interval: the scheduled end, when
    this pass is the one that finds the session expired. *)
Definition expires_now (e : Tick.env) (v : View.t) (session : Session.t) : option Z :=
  if negb (View.isOpenSession v) then
    match Session.end_time session with
    | Some endTime =>
        if (Tick.now e >=? endTime)%Z
           && negb (bool_decide (Session.id session ∈ View.expiredSessions v))
        then Some endTime else None
    | None => None
    end
  else None.

(** The body of the cost-update interval for one entry
    [(deviceId, session)] of the [activeSessions] snapshot.  The time
    shown for an expired session is kept in milliseconds (the component
    formats it as a string). *)
Definition tick_entry (e : Tick.env) (deviceId : string) (session : Session.t)
    (w : DB.t * View.t) : DB.t * View.t :=
  let (db, v) := w in
  if negb (bool_decide (Session.status session = active)) then w
  else
    match find_device deviceId (View.devices v) with
    | None => w
    | Some device =>
        match expires_now e v session with
        | Some endTime =>
            (db,
             View.mk (View.devices v) (View.activeSessions v)
               (View.showEndSessionModal v) (View.showStartSessionModal v)
               (View.discount v) (View.sessionDuration v) (View.isOpenSession v)
               (View.customerName v) (View.error v)
               (View.isStartingSession v) (View.isEndingSession v)
               ({[Session.id session]} ∪ View.expiredSessions v)
               (<[Session.id session := (Tick.shown e - endTime)%Z]> (View.extraTime v)))
        | None =>
            if bool_decide (Session.id session ∈ View.expiredSessions v) then w
            else
              let newCost :=
                calculateSessionCost (View.isOpenSession v) (View.expiredSessions v)
                  (Tick.clock e) session device in
              if Qeq_bool newCost (Session.total_cost session) then w
              else
                let finalAmount :=
                  newCost * (1 - Session.discount_amount session / 100) in
                ((if Tick.update_ok e
                  then DB.set_session_cost (Session.id session) newCost finalAmount db
                  else db),
                 with_activeSessions
                   (<[deviceId := Session.with_cost newCost finalAmount session]>
                      (View.activeSessions v)) v)
        end
    end.

End Operations.

(** ** The till (SalesManagement) *)

Inductive ProductCategory := market | coffee.

Module Product.
Record t := mk {
  id : string;
  name : string;
  price : Q;
  stock : Z;
  category : ProductCategory
}.
End Product.

Module CartItem.
Record t := mk { product : Product.t; quantity : Z }.
End CartItem.

Module Sale.
(** A row of [sales]; [None] is SQL [NULL]. *)
Record t := mk {
  id : string;
  product_id : option string;
  quantity : Z;
  unit_price : Q;
  total_price : Q;
  discount_amount : Q;
  final_amount : Q;
  created_at : option Z
}.
End Sale.

Module NewSale.
(** The object [handleCheckout] passes to [insert].  [discount_amount]
    is the quotient [discountAmount / subtotal] times the line total;
    with [subtotal = 0] JavaScript yields [NaN], written [None]. *)
Record t := mk {
  product_id : string;
  quantity : Z;
  unit_price : Q;
  total_price : Q;
  discount_amount : option Q;
  final_amount : Q
}.
End NewSale.

Section Till.

Variable cart : list CartItem.t.
Variable discount : Q.

Definition line_total (item : CartItem.t) : Q :=
  Product.price (CartItem.product item) * inject_Z (CartItem.quantity item).

(** [calculateTotal]: [(subtotal, discountAmount, total)], as exact
    values; the code adds and multiplies in double precision (six times
    0.1 gives 0.6000000000000001). *)
Definition calculateTotal : Q * Q * Q :=
  let subtotal := fold_left (fun sum item => sum + line_total item) cart 0 in
  let discountAmount := (discount / 100) * subtotal in
  (subtotal, discountAmount, subtotal - discountAmount).

(** The sales records [handleCheckout] creates, one per cart line. *)
Definition handleCheckout_sales : list NewSale.t :=
  let '(subtotal, discountAmount, total) := calculateTotal in
  List.map (fun item =>
    NewSale.mk (Product.id (CartItem.product item))
      (CartItem.quantity item)
      (Product.price (CartItem.product item))
      (line_total item)
      (if Qeq_bool subtotal 0 then None
       else Some ((discountAmount / subtotal) * line_total item))
      (line_total item * (1 - discount / 100))) cart.

(** The stock each product is set to, one request per cart line. *)
Definition handleCheckout_stock : list (string * Z) :=
  List.map (fun item =>
    (Product.id (CartItem.product item),
     (Product.stock (CartItem.product item) - CartItem.quantity item)%Z)) cart.

End Till.

(** ** The daily summary (calculate_daily_summary, PL/pgSQL) *)

Inductive ExpenseCategory := rent | electricity | water | other.

Module Expense.
Record t := mk {
  id : string;
  description : string;
  amount : Q;
  category : ExpenseCategory;
  date : Z;
  created_at : option Z
}.
End Expense.

Module DailySummary.
Record t := mk {
  id : string;
  date : Z;
  sessions_revenue : Q;
  sales_revenue : Q;
  expenses_total : Q;
  discounts_total : Q;
  net_income : Q;
  created_at : option Z
}.
End DailySummary.

(** SQL values may be [NULL] ([None]); a comparison with [NULL] is not
    true, and aggregates skip [NULL] inputs. *)
Module SQL.

(** [a = b] as a [WHERE] or [ON] condition. *)
Definition eqb (a b : option Z) : bool :=
  match a, b with
  | Some x, Some y => (x =? y)%Z
  | _, _ => false
  end.

(** [SUM]: [NULL] when there is no non-null input. *)
Fixpoint SUM (xs : list (option Q)) : option Q :=
  match xs with
  | [] => None
  | None :: xs => SUM xs
  | Some x :: xs =>
      Some (match SUM xs with Some y => x + y | None => x end)
  end.

(** [COALESCE(a, b)] *)
Definition COALESCE {A} (a : option A) (b : option A) : option A :=
  match a with Some _ => a | None => b end.

(** [COALESCE(a, 0)] for a numeric [a]. *)
Definition COALESCE0 (a : option Q) : Q :=
  match a with Some x => x | None => 0 end.

(** [l FULL OUTER JOIN r ON on]: every matching pair, then the rows of
    either side that match nothing, extended with [NULL]s. *)
Definition full_outer_join {A B} (on : A -> B -> bool)
    (l : list A) (r : list B) : list (option A * option B) :=
  flat_map (fun a => List.map (fun b => (Some a, Some b)) (List.filter (on a) r)) l
  ++ List.map (fun a => (Some a, None))
       (List.filter (fun a => forallb (fun b => negb (on a b)) r) l)
  ++ List.map (fun b => (None, Some b))
       (List.filter (fun b => forallb (fun a => negb (on a b)) l) r).

End SQL.

Module Ledger.
(** The tables the aggregation reads and the one it writes;
    [daily_summaries] is keyed by its unique [date]. *)
Record t := mk {
  sessions : list Session.t;
  sales : list Sale.t;
  expenses : list Expense.t;
  daily_summaries : gmap Z DailySummary.t
}.
End Ledger.

Section Aggregator.

(** [DATE(ts)]: the calendar day of a timestamp in the time zone of the
    database session. *)
Variable DATE : Z -> Z.

Definition DATE_ (ts : option Z) : option Z := DATE <$> ts.

Definition sessions_rev (summary_date : Z) (L : Ledger.t) : Q :=
  SQL.COALESCE0 (SQL.SUM
    (List.map (fun s => Some (Session.final_amount s))
      (List.filter
         (fun s => SQL.eqb (DATE_ (Session.created_at s)) (Some summary_date)
                   && bool_decide (Session.status s = completed))
         (Ledger.sessions L)))).

Definition sales_rev (summary_date : Z) (L : Ledger.t) : Q :=
  SQL.COALESCE0 (SQL.SUM
    (List.map (fun s => Some (Sale.final_amount s))
      (List.filter
         (fun s => SQL.eqb (DATE_ (Sale.created_at s)) (Some summary_date))
         (Ledger.sales L)))).

Definition expenses_tot (summary_date : Z) (L : Ledger.t) : Q :=
  SQL.COALESCE0 (SQL.SUM
    (List.map (fun x => Some (Expense.amount x))
      (List.filter
         (fun x => (Expense.date x =? summary_date)%Z)
         (Ledger.expenses L)))).

(** The rows of [sales s FULL OUTER JOIN sessions sess ON DATE(sess.created_at)
    = DATE(s.created_at) WHERE DATE(COALESCE(s.created_at, sess.created_at))
    = summary_date]. *)
Definition discount_rows (summary_date : Z) (L : Ledger.t)
    : list (option Sale.t * option Session.t) :=
  List.filter
    (fun row : option Sale.t * option Session.t =>
       SQL.eqb
         (DATE_ (SQL.COALESCE (fst row ≫= Sale.created_at)
                              (snd row ≫= Session.created_at)))
         (Some summary_date))
    (SQL.full_outer_join
       (fun s sess => SQL.eqb (DATE_ (Session.created_at sess))
                              (DATE_ (Sale.created_at s)))
       (Ledger.sales L) (Ledger.sessions L)).

Definition discounts_tot (summary_date : Z) (L : Ledger.t) : Q :=
  let rows := discount_rows summary_date L in
  SQL.COALESCE0 (SQL.SUM
    (List.map (fun row : option Sale.t * option Session.t =>
                 (fun s => Sale.total_price s - Sale.final_amount s) <$> fst row)
              rows))
  + SQL.COALESCE0 (SQL.SUM
    (List.map (fun row : option Sale.t * option Session.t =>
                 (fun sess => Session.total_cost sess - Session.final_amount sess)
                   <$> snd row)
              rows)).

(** [uuid] and [now] are the defaults of [id] and [created_at] when the
    row is inserted; on a conflict only the five derived columns are
    replaced. *)
Definition calculate_daily_summary (uuid : string) (now : Z)
    (summary_date : Z) (L : Ledger.t) : Ledger.t :=
  let sessions_rev := sessions_rev summary_date L in
  let sales_rev := sales_rev summary_date L in
  let expenses_tot := expenses_tot summary_date L in
  let discounts_tot := discounts_tot summary_date L in
  let net_inc := sessions_rev + sales_rev - expenses_tot in
  let row :=
    match Ledger.daily_summaries L !! summary_date with
    | None =>
        DailySummary.mk uuid summary_date sessions_rev sales_rev
          expenses_tot discounts_tot net_inc (Some now)
    | Some old =>
        DailySummary.mk (DailySummary.id old) (DailySummary.date old)
          sessions_rev sales_rev expenses_tot discounts_tot net_inc
          (DailySummary.created_at old)
    end in
  Ledger.mk (Ledger.sessions L) (Ledger.sales L) (Ledger.expenses L)
    (<[summary_date := row]> (Ledger.daily_summaries L)).

End Aggregator.

(** ** Loading the snapshot (fetchDevices, fetchActiveSessions, loadInitialData)

    A response is the list of rows the request returned, or [None] when
    the request failed. *)

(** The rows of [devices], and the rows of [sessions] with status
    [active], as storage holds them (in no particular order). *)
Module Query.

Definition devices (db : DB.t) : list Device.t :=
  (map_to_list (DB.devices db)).*2.

Definition active_sessions (db : DB.t) : list Session.t :=
  filter (fun s => Session.status s = active) (map_to_list (DB.sessions db)).*2.

End Query.

(** The [forEach] of [fetchActiveSessions]:
    [sessionsMap[session.device_id] = session]. *)
Definition sessions_by_device (data : list Session.t) : gmap string Session.t :=
  fold_left (fun sessionsMap session =>
               <[Session.device_id session := session]> sessionsMap) data ∅.

(** [{ ...v, devices: l }] and [{ ...v, error: e }] *)
Definition with_devices (l : list Device.t) (v : View.t) : View.t :=
  View.mk l (View.activeSessions v)
    (View.showEndSessionModal v) (View.showStartSessionModal v)
    (View.discount v) (View.sessionDuration v) (View.isOpenSession v)
    (View.customerName v) (View.error v)
    (View.isStartingSession v) (View.isEndingSession v)
    (View.expiredSessions v) (View.extraTime v).

Definition with_error (e : option ErrorMessage) (v : View.t) : View.t :=
  View.mk (View.devices v) (View.activeSessions v)
    (View.showEndSessionModal v) (View.showStartSessionModal v)
    (View.discount v) (View.sessionDuration v) (View.isOpenSession v)
    (View.customerName v) e
    (View.isStartingSession v) (View.isEndingSession v)
    (View.expiredSessions v) (View.extraTime v).

(** [fetchDevices] and [fetchActiveSessions]: the state is replaced when
    the request succeeds; [None] tells the caller that it threw. *)
Definition fetchDevices (response : option (list Device.t)) (v : View.t)
    : option View.t :=
  match response with
  | Some data => Some (with_devices data v)
  | None => None
  end.

Definition fetchActiveSessions (response : option (list Session.t)) (v : View.t)
    : option View.t :=
  match response with
  | Some data => Some (with_activeSessions (sessions_by_device data) v)
  | None => None
  end.

(** [loadInitialData]: both loaders run ([Promise.all]); each one that
    succeeds replaces its part of the state, and the error is shown when
    one of them threw.  (The [isLoading] flag is not part of the model.) *)
Definition loadInitialData (devices : option (list Device.t))
    (sessions : option (list Session.t)) (v : View.t) : View.t :=
  let v0 := with_error None v in
  let v1 := default v0 (fetchDevices devices v0) in
  let v2 := default v1 (fetchActiveSessions sessions v1) in
  match devices, sessions with
  | Some _, Some _ => v2
  | _, _ => with_error (Some err_load) v2
  end.

(** ** Durations as text (formatCountdown, formatDuration)

    Differences of timestamps are whole milliseconds, so [Math.floor] of
    a quotient is [Z.div] and [%] is [Z.rem]. *)

(** [s.padStart(2, '0')] *)
Definition padStart2 (s : string) : string :=
  match String.length s with
  | O => "00"
  | S O => "0" +:+ s
  | _ => s
  end.

(** Hours, minutes and seconds of a difference in milliseconds. *)
Definition hms (diff : Z) : Z * Z * Z :=
  let hours := (diff / (1000 * 60 * 60))%Z in
  let minutes := (Z.rem diff (1000 * 60 * 60) / (1000 * 60))%Z in
  let seconds := (Z.rem diff (1000 * 60) / 1000)%Z in
  (hours, minutes, seconds).

(** [`${hours...padStart(2,'0')}:${minutes...}:${seconds...}`] *)
Definition hms_string (diff : Z) : string :=
  let '(hours, minutes, seconds) := hms diff in
  padStart2 (pretty hours) +:+ ":" +:+ padStart2 (pretty minutes)
    +:+ ":" +:+ padStart2 (pretty seconds).

Definition formatCountdown (now endTime : Z) : string :=
  let diff := (endTime - now)%Z in
  if (diff <=? 0)%Z then "00:00:00" else hms_string diff.

Definition formatDuration (now startTime : Z) : string :=
  let diff := (now - startTime)%Z in
  hms_string diff.

(** ** The cart (SalesManagement.addToCart, removeFromCart, updateQuantity) *)

Definition same_product (productId : string) (item : CartItem.t) : bool :=
  bool_decide (Product.id (CartItem.product item) = productId).

Definition addToCart (product : Product.t) (prev : list CartItem.t)
    : list CartItem.t :=
  match List.find (same_product (Product.id product)) prev with
  | Some existingItem =>
      List.map (fun item =>
                  if same_product (Product.id product) item
                  then CartItem.mk (CartItem.product item)
                         (CartItem.quantity item + 1)
                  else item) prev
  | None => prev ++ [CartItem.mk product 1]
  end.

Definition removeFromCart (productId : string) (prev : list CartItem.t)
    : list CartItem.t :=
  List.filter (fun item => negb (same_product productId item)) prev.

Definition updateQuantity (productId : string) (increment : bool)
    (prev : list CartItem.t) : list CartItem.t :=
  List.map (fun item =>
              if same_product productId item then
                let newQuantity :=
                  if increment then (CartItem.quantity item + 1)%Z
                  else Z.max 1 (CartItem.quantity item - 1) in
                CartItem.mk (CartItem.product item) newQuantity
              else item) prev.

(** ** Row changes and the summary trigger (update_daily_summary)

    The triggers [update_summary_after_sale], [..._session] and
    [..._expense] run [update_daily_summary] after every inserted,
    updated or deleted row. *)

(** [TG_OP] with the rows it provides. *)
Inductive Change (Row : Type) :=
| Inserted (NEW : Row)
| Updated (OLD NEW : Row)
| Deleted (OLD : Row).

Arguments Inserted {Row} NEW.
Arguments Updated {Row} OLD NEW.
Arguments Deleted {Row} OLD.

(** [CASE WHEN TG_OP = 'DELETE' THEN OLD ELSE NEW END] *)
Definition trigger_row {Row} (c : Change Row) : Row :=
  match c with
  | Deleted OLD => OLD
  | Inserted NEW => NEW
  | Updated _ NEW => NEW
  end.

(** The table once the row change is applied; rows are identified by
    their primary key. *)
Definition apply_change {Row} (key : Row -> string) (c : Change Row)
    (rows : list Row) : list Row :=
  match c with
  | Inserted NEW => rows ++ [NEW]
  | Updated OLD NEW =>
      List.map (fun r => if bool_decide (key r = key OLD) then NEW else r) rows
  | Deleted OLD =>
      List.filter (fun r => negb (bool_decide (key r = key OLD))) rows
  end.

(** [TG_TABLE_NAME] with the change of the row. *)
Inductive TableChange :=
| on_sales (c : Change Sale.t)
| on_sessions (c : Change Session.t)
| on_expenses (c : Change Expense.t).

Section SummaryTrigger.

Variable DATE : Z -> Z.

(** The argument [update_daily_summary] passes on.  It is one [CASE]
    expression that names [OLD.date] and [NEW.date] next to
    [OLD.created_at] and [NEW.created_at]; only the rows of [expenses]
    have a [date] column, so for a row of [sales] or [sessions] the
    expression cannot be evaluated and the function raises an error
    ([None]). *)
Definition summary_date (t : TableChange) : option Z :=
  match t with
  | on_expenses c => Some (Expense.date (trigger_row c))
  | on_sales _ => None
  | on_sessions _ => None
  end.

(** The tables after the row change, before the trigger runs. *)
Definition row_change (t : TableChange) (L : Ledger.t) : Ledger.t :=
  match t with
  | on_sales c =>
      Ledger.mk (Ledger.sessions L) (apply_change Sale.id c (Ledger.sales L))
        (Ledger.expenses L) (Ledger.daily_summaries L)
  | on_sessions c =>
      Ledger.mk (apply_change Session.id c (Ledger.sessions L)) (Ledger.sales L)
        (Ledger.expenses L) (Ledger.daily_summaries L)
  | on_expenses c =>
      Ledger.mk (Ledger.sessions L) (Ledger.sales L)
        (apply_change Expense.id c (Ledger.expenses L)) (Ledger.daily_summaries L)
  end.

(** [update_daily_summary], run after the row change; [None] when it
    raises an error. *)
Definition update_daily_summary (uuid : string) (now : Z) (t : TableChange)
    (L : Ledger.t) : option Ledger.t :=
  match summary_date t with
  | Some d => Some (calculate_daily_summary DATE uuid now d L)
  | None => None
  end.

(** A row change together with its trigger; when the trigger raises,
    the statement is rolled back ([None]). *)
Definition change_row (uuid : string) (now : Z) (t : TableChange)
    (L : Ledger.t) : option Ledger.t :=
  update_daily_summary uuid now t (row_change t L).

End SummaryTrigger.

(** ** Dashboard counters (Home.fetchDeviceStats, fetchSessionStats) *)

Module DeviceStats.
Record t := mk { active : Z; total : Z }.
End DeviceStats.

Module SessionStats.
Record t := mk { external : Z; internal : Z; vip : Z; total : Z }.
End SessionStats.

(** The [reduce] over the [status] column of [devices]. *)
Definition fetchDeviceStats (devices : list DeviceStatus) : DeviceStats.t :=
  fold_left
    (fun acc status =>
       DeviceStats.mk
         (DeviceStats.active acc + (if decide (status = occupied) then 1 else 0))
         (DeviceStats.total acc + 1))
    devices (DeviceStats.mk 0 0).

(** The [reduce] over the device type of today's sessions. *)
Definition fetchSessionStats (sessions : list DeviceType) : SessionStats.t :=
  fold_left
    (fun acc type =>
       SessionStats.mk
         (SessionStats.external acc
          + (match type with external => 1 | _ => 0 end))
         (SessionStats.internal acc
          + (match type with internal => 1 | _ => 0 end))
         (SessionStats.vip acc + (match type with vip => 1 | _ => 0 end))
         (SessionStats.total acc + 1))
    sessions (SessionStats.mk 0 0 0 0).

(** ** Auxiliary notions for the statements *)

(** The amount before rounding, as a function of the billed minutes. *)
Definition raw_cost (isOpenSession : bool) (s : Session.t) (d : Device.t) (m : Q) : Q :=
  baseCost isOpenSession m + extraControllersCost s d m.

(** The billing rules in the words of the specification, over the rate
    card of the owning device. *)
Module Spec.

(** Rounding to two decimals. *)
Definition round2 (x : Q) : Q := JS.round (x * 100) / 100.

(** [extra_controllers × extra_controller_rate × elapsed_hours] *)
Definition surcharge (s : Session.t) (d : Device.t) (elapsed_minutes : Q) : Q :=
  inject_Z (Session.extra_controllers s) * Device.extra_controller_rate d
  * (elapsed_minutes / 60).

(** Open-ended: [elapsed_minutes × (hourly_rate / 60)] plus the surcharge. *)
Definition open_cost (s : Session.t) (d : Device.t) (elapsed_minutes : Q) : Q :=
  round2 (elapsed_minutes * (Device.hourly_rate d / 60)
          + surcharge s d elapsed_minutes).

(** Fixed-duration base cost: [floor(elapsed_minutes/60) × hourly_rate
    + (elapsed_minutes mod 60) × (hourly_rate/60)]. *)
Definition fixed_base (d : Device.t) (elapsed_minutes : Q) : Q :=
  let whole_hours := inject_Z (Qfloor (elapsed_minutes / 60)) in
  whole_hours * Device.hourly_rate d
  + (elapsed_minutes - 60 * whole_hours) * (Device.hourly_rate d / 60).

Definition fixed_cost (s : Session.t) (d : Device.t) (elapsed_minutes : Q) : Q :=
  round2 (fixed_base d elapsed_minutes + surcharge s d elapsed_minutes).

(** [round(total_cost × (1 − discount/100), 2)] *)
Definition final_amount (total_cost discount : Q) : Q :=
  round2 (total_cost * (1 - discount / 100)).

End Spec.

(** Concrete data: the seeded devices and sessions on them, with times in
    milliseconds from the start of the session. *)
Module Sample.

Definition minutes (n : Z) : Z := (n * 60000)%Z.

(** The seeded internal device: 2 per hour, 0.25 per extra controller. *)
Definition internal_device (st : DeviceStatus) : Device.t :=
  Device.mk "internal-1" "internal" internal st 2 (25 # 100) "internal".

(** A seeded external device: 1.5 per hour, 0.25 per extra controller. *)
Definition external_device (st : DeviceStatus) : Device.t :=
  Device.mk "external-1" "external 1" external st (15 # 10) (25 # 100) "external".

(** An open-ended session started at time 0. *)
Definition open_session (deviceId : string) (controllers : Z) : Session.t :=
  Session.mk "session-1" deviceId (Some 0%Z) None controllers active
    0 0 0 None (Some 0%Z).

(** A session of [n] minutes started at time 0. *)
Definition timed_session (deviceId : string) (n : Z) : Session.t :=
  Session.mk "session-1" deviceId (Some 0%Z) (Some (minutes n)) 0 active
    0 0 0 None (Some 0%Z).

End Sample.

(** The sum of a list of amounts. *)
Definition total (xs : list Q) : Q := fold_right Qplus 0 xs.

(** The non-null values among the inputs of an aggregate. *)
Definition nonnull (xs : list (option Q)) : list Q := omap id xs.

(** The daily figures in the words of the specification. *)
Section SummarySpec.

Variable DATE : Z -> Z.

(** A row was created on day [d]. *)
Definition created_on (d : Z) (ts : option Z) : Prop := DATE <$> ts = Some d.

#[global] Instance created_on_dec d ts : Decision (created_on d ts).
Proof. unfold created_on. apply _. Defined.

Definition sessions_on (d : Z) (L : Ledger.t) : list Session.t :=
  filter (fun s => created_on d (Session.created_at s)) (Ledger.sessions L).

Definition completed_sessions_on (d : Z) (L : Ledger.t) : list Session.t :=
  filter (fun s => created_on d (Session.created_at s)
                   /\ Session.status s = completed) (Ledger.sessions L).

Definition sales_on (d : Z) (L : Ledger.t) : list Sale.t :=
  filter (fun s => created_on d (Sale.created_at s)) (Ledger.sales L).

Definition expenses_on (d : Z) (L : Ledger.t) : list Expense.t :=
  filter (fun x => Expense.date x = d) (Ledger.expenses L).

Definition sale_discount (s : Sale.t) : Q := Sale.total_price s - Sale.final_amount s.

Definition session_discount (s : Session.t) : Q :=
  Session.total_cost s - Session.final_amount s.

(** Every sale and every session of the day counted once. *)
Definition spec_discounts_total (d : Z) (L : Ledger.t) : Q :=
  total (sale_discount <$> sales_on d L)
  + total (session_discount <$> sessions_on d L).

End SummarySpec.

(** A day with two discounted sales and one discounted session.  Days are
    numbered from the epoch and timestamps are in seconds. *)
Module SampleDay.

Definition DATE (ts : Z) : Z := (ts / 86400)%Z.

Definition sale (id : string) (ts : Z) : Sale.t :=
  Sale.mk id (Some "cola") 10 1 10 1 9 (Some ts).

Definition session (id : string) (ts : Z) : Session.t :=
  Session.mk id "external-1" (Some (ts * 1000)%Z) (Some (ts * 1000 + 3600000)%Z)
    0 completed 5 1 4 None (Some ts).

Definition ledger : Ledger.t :=
  Ledger.mk [session "session-1" 86400]
            [sale "sale-1" 86400; sale "sale-2" 90000]
            [] ∅.

End SampleDay.

(** The conditions of the discount query of [calculate_daily_summary]. *)
Section JoinConditions.

Variable DATE : Z -> Z.
Variable d : Z.

(** The sale, respectively the session, was created on day [d]. *)
Definition sale_on_day (a : Sale.t) : bool :=
  SQL.eqb (DATE_ DATE (Sale.created_at a)) (Some d).

Definition session_on_day (b : Session.t) : bool :=
  SQL.eqb (DATE_ DATE (Session.created_at b)) (Some d).

(** [ON DATE(sess.created_at) = DATE(s.created_at)] *)
Definition join_on (a : Sale.t) (b : Session.t) : bool :=
  SQL.eqb (DATE_ DATE (Session.created_at b)) (DATE_ DATE (Sale.created_at a)).

(** [WHERE DATE(COALESCE(s.created_at, sess.created_at)) = d] *)
Definition where_day (row : option Sale.t * option Session.t) : bool :=
  SQL.eqb (DATE_ DATE (SQL.COALESCE (fst row ≫= Sale.created_at)
                                     (snd row ≫= Session.created_at)))
          (Some d).

End JoinConditions.

(** The two summands of the discount query, per joined row. *)
Definition row_sale_discount (row : option Sale.t * option Session.t) : option Q :=
  sale_discount <$> fst row.

Definition row_session_discount (row : option Sale.t * option Session.t) : option Q :=
  session_discount <$> snd row.

(** How often a row is counted when the other table has [n] rows of the day. *)
Definition weight (n : nat) : Q := inject_Z (Z.max 1 (Z.of_nat n)).

(** ** Devices and their active sessions *)

(** [s] is an active session of the device [deviceId]. *)
Definition active_on (deviceId : string) (s : Session.t) : Prop :=
  Session.device_id s = deviceId /\ Session.status s = active.

(** In storage an occupied device has exactly one active session and any
    other device has none. *)
Definition one_active_session (db : DB.t) : Prop :=
  forall deviceId d, DB.devices db !! deviceId = Some d ->
    if decide (Device.status d = occupied)
    then exists sid s,
           DB.sessions db !! sid = Some s /\ active_on deviceId s
           /\ forall sid' s', DB.sessions db !! sid' = Some s' ->
                active_on deviceId s' -> sid' = sid
    else forall sid s, DB.sessions db !! sid = Some s -> ~ active_on deviceId s.

(** The component's snapshot agrees with storage: every listed device
    has its stored status, every session of the snapshot is a stored
    active session of the device it is filed under, and every stored
    active session is filed in the snapshot. *)
Definition in_sync (db : DB.t) (v : View.t) : Prop :=
  (forall d, d ∈ View.devices v ->
     exists d', DB.devices db !! Device.id d = Some d'
                /\ Device.status d' = Device.status d)
  /\ (forall deviceId s, View.activeSessions v !! deviceId = Some s ->
        exists s', DB.sessions db !! Session.id s = Some s' /\ active_on deviceId s')
  /\ (forall sid s', DB.sessions db !! sid = Some s' -> Session.status s' = active ->
        exists s, View.activeSessions v !! Session.device_id s' = Some s
                  /\ Session.id s = sid).

(** [x] is [y] up to the error of double-precision arithmetic on
    amounts of the size of [scale]: the amounts of the model are the
    exact values of which the code computes and stores floating-point
    approximations, and these differ from them by far less than one part
    in 10^9 of the operands. *)
Definition up_to_rounding (scale x y : Q) : Prop :=
  Qabs (x - y) <= (Qabs scale + 1) / 1000000000.

(** Worlds used as concrete inputs. *)
Module Scenario.

Definition view (devices : list Device.t) (sessions : gmap string Session.t)
    (discount : Q) (isOpenSession : bool) : View.t :=
  View.mk devices sessions None None discount (Some 60%Z) isOpenSession
    EmptyString None
    false false ∅ ∅.

(** An idle venue: the external device is available. *)
Definition idle_db : DB.t :=
  DB.mk {[ "external-1" := Sample.external_device available ]} ∅.

Definition idle_view : View.t :=
  view [Sample.external_device available] ∅ 0 true.

(** The external device runs an open-ended session with one extra
    controller, started at time 0. *)
Definition running : Session.t := Sample.open_session "external-1" 1.

Definition busy_db : DB.t :=
  DB.mk {[ "external-1" := Sample.external_device occupied ]}
        {[ "session-1" := running ]}.

Definition busy_view (discount : Q) : View.t :=
  view [Sample.external_device occupied] {[ "external-1" := running ]}
    discount true.

(** The idle venue with the start dialog set to a fixed session and its
    duration field emptied. *)
Definition no_duration : View.t :=
  View.mk [Sample.external_device available] ∅ None None 0 None false
    EmptyString None false false ∅ ∅.

(** The external device runs a session that its starting client stamped
    with a clock 120 minutes ahead. *)
Definition ahead : Session.t :=
  Session.mk "session-1" "external-1" (Some (Sample.minutes 120)) None 1 active
    0 0 0 None (Some 0%Z).

Definition ahead_db : DB.t :=
  DB.mk {[ "external-1" := Sample.external_device occupied ]}
        {[ "session-1" := ahead ]}.

Definition ahead_view (discount : Q) : View.t :=
  view [Sample.external_device occupied] {[ "external-1" := ahead ]}
    discount true.

(** A start at time 0 with every request answered. *)
Definition start_env : Start.env :=
  Start.mk 0 0 "session-2" 0 true true true.

(** An end after 90 minutes; [released] tells whether the request
    releasing the device is answered. *)
Definition end_env (released : bool) : End_.env :=
  End_.mk (Sample.minutes 90) (Sample.minutes 90) true released.

(** A quarter-priced item bought once. *)
Definition cart : list CartItem.t :=
  [CartItem.mk (Product.mk "chips" "chips" (25 # 100) 50 market) 1].

End Scenario.

(** Unfolds the concrete worlds down to their tables. *)
Ltac open_world :=
  unfold one_active_session, in_sync,
    Scenario.idle_db, Scenario.busy_db, Scenario.idle_view,
    Scenario.busy_view, Scenario.view;
  cbn [DB.devices DB.sessions View.devices View.activeSessions].

(** Rows are stored under their own id and every session refers to a
    stored device (primary and foreign keys). *)
Definition well_keyed (db : DB.t) : Prop :=
  (forall k d, DB.devices db !! k = Some d -> Device.id d = k)
  /\ (forall sid s, DB.sessions db !! sid = Some s -> Session.id s = sid)
  /\ (forall sid s, DB.sessions db !! sid = Some s ->
        is_Some (DB.devices db !! Session.device_id s)).

(** The columns of a session that say who plays where and since when. *)
Definition same_booking (s s' : Session.t) : Prop :=
  Session.id s' = Session.id s
  /\ Session.device_id s' = Session.device_id s
  /\ Session.start_time s' = Session.start_time s
  /\ Session.customer_name s' = Session.customer_name s
  /\ Session.created_at s' = Session.created_at s.

(** The device but for its status. *)
Definition rate_card (d : Device.t) : Device.t := Device.with_status available d.

(** A session carries no discount: its [discount_amount] is 0 and its
    final amount is its total cost. *)
Definition undiscounted (s : Session.t) : Prop :=
  Session.discount_amount s == 0 /\ Session.final_amount s == Session.total_cost s.

(** No active session carries a discount, in storage or on the page. *)
Definition no_discount_while_active (w : DB.t * View.t) : Prop :=
  (forall sid s, DB.sessions w.1 !! sid = Some s -> Session.status s = active ->
     undiscounted s)
  /\ (forall deviceId s, View.activeSessions w.2 !! deviceId = Some s ->
        undiscounted s).

(** A fixed session of 60 minutes on the external device, its page (the
    box for open-ended sessions unticked) and its storage. *)
Module Timed.

Definition booked : Session.t := Sample.timed_session "external-1" 60.

Definition db : DB.t :=
  DB.mk {[ "external-1" := Sample.external_device occupied ]}
        {[ "session-1" := booked ]}.

Definition page : View.t :=
  Scenario.view [Sample.external_device occupied] {[ "external-1" := booked ]}
    0 false.

(** The pass of the interval 61 minutes after the start. *)
Definition late : Tick.env :=
  Tick.mk (Sample.minutes 61) (Sample.minutes 61) (Sample.minutes 61) true.

End Timed.

(** ** Carts *)

Definition product_ids (cart : list CartItem.t) : list string :=
  (fun item => Product.id (CartItem.product item)) <$> cart.

(** A cart holds each product once, with at least one unit. *)
Definition cart_ok (cart : list CartItem.t) : Prop :=
  NoDup (product_ids cart)
  /\ Forall (fun item => (1 <= CartItem.quantity item)%Z) cart.

(** The subtotal of [calculateTotal]. *)
Definition subtotal (cart : list CartItem.t) : Q := (calculateTotal cart 0).1.1.

(** ** Stored summaries and row changes *)

Section SummaryCurrent.

Variable DATE : Z -> Z.

(** The stored summary of day [d], if there is one, holds what
    [calculate_daily_summary] computes from the tables. *)
Definition current (d : Z) (L : Ledger.t) : Prop :=
  forall row, Ledger.daily_summaries L !! d = Some row ->
    DailySummary.sessions_revenue row == sessions_rev DATE d L
    /\ DailySummary.sales_revenue row == sales_rev DATE d L
    /\ DailySummary.expenses_total row == expenses_tot d L
    /\ DailySummary.discounts_total row == discounts_tot DATE d L
    /\ DailySummary.net_income row
       == sessions_rev DATE d L + sales_rev DATE d L - expenses_tot d L.

(** The rows of the table that a change replaces or removes. *)
Definition touched {Row} (key : Row -> string) (c : Change Row)
    (rows : list Row) : list Row :=
  match c with
  | Inserted _ => []
  | Updated OLD _ => filter (fun r => key r = key OLD) rows
  | Deleted OLD => filter (fun r => key r = key OLD) rows
  end.

(** The change of an expense stays on one date: the rows it replaces
    or removes are rows of the date the trigger recalculates. *)
Definition stays_on_day (c : Change Expense.t) (L : Ledger.t) : Prop :=
  forall r, r ∈ touched Expense.id c (Ledger.expenses L) ->
    Expense.date r = Expense.date (trigger_row c).

End SummaryCurrent.

(** A ledger with one expense of 7 on day 1 and the summary of that day. *)
Module SampleExpense.

Definition rent_paid (d : Z) : Expense.t :=
  Expense.mk "expense-1" "rent" 7 rent d (Some 90000%Z).

Definition books : Ledger.t :=
  calculate_daily_summary SampleDay.DATE "summary-1" 90000 1
    (Ledger.mk [] [] [rent_paid 1] ∅).

End SampleExpense.

(** * Properties *)

(** ** Rational arithmetic *)

Lemma round_mono (x y : Q) : x <= y -> JS.round x <= JS.round y.
Proof.
  intros Hxy. unfold JS.round. rewrite <- Zle_Qle.
  apply Qfloor_resp_le. lra.
Qed.

Lemma round_cents_mono (x y : Q) :
  x <= y -> JS.round (x * 100) / 100 <= JS.round (y * 100) / 100.
Proof.
  intros Hxy. apply Qmult_le_compat_r; [ | discriminate ].
  apply round_mono. lra.
Qed.

Lemma trunc_nonneg (x : Q) : 0 <= x -> JS.trunc x = Qfloor x.
Proof.
  intros Hx. unfold JS.trunc. destruct (Qlt_le_dec x 0); [ lra | reflexivity ].
Qed.


Lemma minutes_nonneg (start t : Z) :
  (start <= t)%Z -> 0 <= inject_Z (t - start) / 60000.
Proof.
  intros H. apply Qmult_le_0_compat; [ | discriminate ].
  change 0 with (inject_Z 0). rewrite <- Zle_Qle. lia.
Qed.

Lemma round_comp (x y : Q) : x == y -> JS.round x == JS.round y.
Proof.
  intros Hxy. unfold JS.round.
  assert (Qfloor (x + (1 # 2)) = Qfloor (y + (1 # 2))) as ->; [ | reflexivity ].
  apply Qfloor_comp. rewrite Hxy. reflexivity.
Qed.

(** ** The cost calculator *)

Lemma effective_end_fixed isOpenSession expired now s e :
  Session.end_time s = Some e ->
  effective_end isOpenSession expired now s = e.
Proof.
  intros He. unfold effective_end. rewrite He.
  destruct (negb isOpenSession && bool_decide (Session.id s ∈ expired));
    [ reflexivity | ].
  destruct (negb isOpenSession && (now >? e)%Z); reflexivity.
Qed.

Lemma effective_end_open isOpenSession expired now s :
  Session.end_time s = None ->
  effective_end isOpenSession expired now s = now.
Proof. intros He. unfold effective_end. rewrite He. reflexivity. Qed.

(** With the box left unticked the hour-and-remainder formula is used;
    on a duration that is not negative it is the per-minute price. *)
Lemma baseCost_nonneg (isOpenSession : bool) (m : Q) :
  0 <= m -> baseCost isOpenSession m == m * (25 # 1000).
Proof.
  intros Hm. destruct isOpenSession; simpl; [ reflexivity | ].
  unfold JS.floor, JS.rem.
  rewrite trunc_nonneg.
  - set (f := inject_Z (Qfloor (m / 60))). ring.
  - apply Qmult_le_0_compat; [ exact Hm | discriminate ].
Qed.

Lemma calculateSessionCost_unfold isOpenSession expired now s d start :
  Session.start_time s = Some start ->
  calculateSessionCost isOpenSession expired now s d
  = JS.round (raw_cost isOpenSession s d
                (inject_Z (effective_end isOpenSession expired now s - start) / 60000)
              * 100) / 100.
Proof. intros Hs. unfold calculateSessionCost. rewrite Hs. reflexivity. Qed.


(** The device's [hourly_rate] has no influence on the result. *)
Lemma calculateSessionCost_rate_card isOpenSession expired now s d d' :
  Device.extra_controller_rate d = Device.extra_controller_rate d' ->
  calculateSessionCost isOpenSession expired now s d
  = calculateSessionCost isOpenSession expired now s d'.
Proof.
  intros Hr. unfold calculateSessionCost, extraControllersCost.
  rewrite Hr. reflexivity.
Qed.

(** On the seeded rate of 1.5 per hour the calculator and the rule of the
    specification agree for an open-ended session. *)
Lemma open_cost_at_seed_rate expired now s d start :
  Session.start_time s = Some start ->
  Session.end_time s = None ->
  Device.hourly_rate d == 15 # 10 ->
  calculateSessionCost true expired now s d
  == Spec.open_cost s d (inject_Z (now - start) / 60000).
Proof.
  intros Hs He Hr.
  rewrite (calculateSessionCost_unfold _ _ _ _ _ _ Hs), effective_end_open by exact He.
  unfold Spec.open_cost, Spec.round2, Spec.surcharge.
  apply Qmult_comp; [ | reflexivity ].
  apply round_comp. unfold raw_cost, extraControllersCost, baseCost.
  rewrite Hr. field.
Qed.

(** C1 (defect). An open-ended hour on the internal device (rate card: 2
    per hour) is charged 1.50 by [calculateSessionCost], where
    elapsed_minutes × (hourly_rate / 60) is 2.00: the per-minute price is
    the constant 0.025, not the device's [hourly_rate / 60]. *)
Theorem open_session_charged_flat_rate :
  calculateSessionCost true ∅ (Sample.minutes 60)
    (Sample.open_session "internal-1" 0) (Sample.internal_device occupied)
  == 15 # 10
  /\ Spec.open_cost (Sample.open_session "internal-1" 0)
       (Sample.internal_device occupied) 60 == 2.
Proof. split; vm_compute; reflexivity. Qed.

(** C2 (defect). A fixed session of 60 minutes without extra controllers
    on the internal device (rate card: 2 per hour) is charged 1.50 by
    [calculateSessionCost], before and after its scheduled end, where the
    rule floor(m/60) × hourly_rate + (m mod 60) × (hourly_rate/60) gives
    2.00: the hour price is the constant 1.5. *)
Theorem fixed_session_charged_flat_rate :
  (forall now expired,
     calculateSessionCost false expired now
       (Sample.timed_session "internal-1" 60) (Sample.internal_device occupied)
     == 15 # 10)
  /\ Spec.fixed_cost (Sample.timed_session "internal-1" 60)
       (Sample.internal_device occupied) 60 == 2.
Proof.
  split; [ | vm_compute; reflexivity ].
  intros now expired.
  erewrite calculateSessionCost_unfold by reflexivity.
  rewrite (effective_end_fixed _ _ _ _ (Sample.minutes 60)) by reflexivity.
  vm_compute; reflexivity.
Qed.

(** C7. For a session with a scheduled end, the cost computed at any time
    at or after that end is the cost computed at exactly the end, whatever
    the state of the component. *)
Theorem fixed_session_cost_frozen isOpenSession expired s d e now :
  Session.end_time s = Some e ->
  (e <= now)%Z ->
  calculateSessionCost isOpenSession expired now s d
  = calculateSessionCost isOpenSession expired e s d.
Proof.
  intros He _. unfold calculateSessionCost.
  rewrite !(effective_end_fixed _ _ _ _ _ He). reflexivity.
Qed.

(** An hour on an external device, read a quarter of an hour late. *)
Lemma fixed_session_cost_frozen_witness :
  calculateSessionCost false ∅ (Sample.minutes 75)
    (Sample.timed_session "external-1" 60) (Sample.external_device occupied)
  = calculateSessionCost false ∅ (Sample.minutes 60)
    (Sample.timed_session "external-1" 60) (Sample.external_device occupied).
Proof.
  apply (fixed_session_cost_frozen false ∅ _ _ (Sample.minutes 60));
    [ reflexivity | vm_compute; discriminate ].
Defined.



(** C10. When [end_time] is set, [calculateSessionCost] bills up to that
    stored instant whatever the clock shows, also before it: the result
    is the rounded price of the whole scheduled duration and is the same
    at every reading of the clock, from the start of the session on. *)
Theorem stored_end_time_is_billed isOpenSession expired s d start e now now' :
  Session.start_time s = Some start ->
  Session.end_time s = Some e ->
  effective_end isOpenSession expired now s = e
  /\ calculateSessionCost isOpenSession expired now s d
     = Spec.round2 (raw_cost isOpenSession s d (inject_Z (e - start) / 60000))
  /\ calculateSessionCost isOpenSession expired now s d
     = calculateSessionCost isOpenSession expired now' s d.
Proof.
  intros Hs He. split; [ apply effective_end_fixed, He | split ].
  - rewrite (calculateSessionCost_unfold _ _ _ _ _ _ Hs).
    rewrite (effective_end_fixed _ _ _ _ _ He). reflexivity.
  - unfold calculateSessionCost.
    rewrite !(effective_end_fixed _ _ _ _ _ He). reflexivity.
Qed.

(** An hour on an external device, read at its start and half-way. *)
Lemma stored_end_time_is_billed_witness :
  effective_end false ∅ 0
    (Sample.timed_session "external-1" 60) = Sample.minutes 60
  /\ calculateSessionCost false ∅ 0
       (Sample.timed_session "external-1" 60) (Sample.external_device occupied)
     = Spec.round2 (raw_cost false (Sample.timed_session "external-1" 60)
                      (Sample.external_device occupied)
                      (inject_Z (Sample.minutes 60 - 0) / 60000))
  /\ calculateSessionCost false ∅ 0
       (Sample.timed_session "external-1" 60) (Sample.external_device occupied)
     = calculateSessionCost false ∅ (Sample.minutes 30)
       (Sample.timed_session "external-1" 60) (Sample.external_device occupied).
Proof.
  apply (stored_end_time_is_billed false ∅ _ _ 0%Z (Sample.minutes 60));
    reflexivity.
Defined.

(** A session of 60 minutes is charged its full 1.50 at the very moment
    it starts. *)
Example timed_session_cost_at_start :
  calculateSessionCost false ∅ 0
    (Sample.timed_session "external-1" 60) (Sample.external_device occupied)
  == 15 # 10.
Proof. vm_compute; reflexivity. Qed.

(** The cost is not negative when the billed interval and the controller
    surcharge are not. *)
Lemma calculateSessionCost_nonneg isOpenSession expired now s d :
  (forall start, Session.start_time s = Some start ->
     (start <= effective_end isOpenSession expired now s)%Z) ->
  (0 <= Session.extra_controllers s)%Z ->
  0 <= Device.extra_controller_rate d ->
  0 <= calculateSessionCost isOpenSession expired now s d.
Proof.
  intros Hstart Hc Hr.
  destruct (Session.start_time s) as [start|] eqn:Hs;
    [ | unfold calculateSessionCost; rewrite Hs; apply Qle_refl ].
  rewrite (calculateSessionCost_unfold _ _ _ _ _ _ Hs).
  specialize (Hstart start eq_refl).
  set (m := inject_Z (effective_end isOpenSession expired now s - start) / 60000).
  assert (0 <= m) as Hm by (apply minutes_nonneg, Hstart).
  assert (0 <= raw_cost isOpenSession s d m) as Hraw.
  { unfold raw_cost, extraControllersCost. rewrite (baseCost_nonneg _ _ Hm).
    assert (0 <= inject_Z (Session.extra_controllers s)
                 * Device.extra_controller_rate d * (m / 60)); [ | lra ].
    apply Qmult_le_0_compat.
    - apply Qmult_le_0_compat; [ | exact Hr ].
      change 0 with (inject_Z 0). rewrite <- Zle_Qle. exact Hc.
    - apply Qmult_le_0_compat; [ exact Hm | discriminate ]. }
  apply Qmult_le_0_compat; [ | discriminate ].
  unfold JS.round. change 0 with (inject_Z 0). rewrite <- Zle_Qle.
  change 0%Z with (Qfloor 0). apply Qfloor_resp_le. lra.
Qed.

(** ** The daily summary *)

Lemma total_app (xs ys : list Q) : total (xs ++ ys) == total xs + total ys.
Proof.
  induction xs as [|x xs IH]; simpl; [ ring | rewrite IH; ring ].
Qed.

(** [COALESCE(SUM(..), 0)] adds up the non-null inputs. *)
Lemma coalesce_sum (xs : list (option Q)) :
  SQL.COALESCE0 (SQL.SUM xs) == total (nonnull xs).
Proof.
  induction xs as [|[x|] xs IH]; simpl; [ reflexivity | | exact IH ].
  unfold nonnull in *. simpl. fold (total (omap id xs)).
  destruct (SQL.SUM xs) as [y|]; simpl in *; rewrite <- IH; ring.
Qed.

Lemma nonnull_some {A} (f : A -> Q) (l : list A) :
  nonnull (List.map (fun a => Some (f a)) l) = f <$> l.
Proof.
  unfold nonnull. induction l as [|a l IH]; simpl; [ reflexivity | ].
  f_equal. exact IH.
Qed.

(** A boolean [WHERE] condition selects the rows its reading describes. *)
Lemma where_filter {A} (f : A -> bool) (P : A -> Prop) `{!forall x, Decision (P x)}
    (l : list A) :
  (forall x, f x = true <-> P x) -> List.filter f l = filter P l.
Proof.
  intros Hf. induction l as [|a l IH]; [ reflexivity | ].
  simpl. rewrite filter_cons, <- IH.
  destruct (f a) eqn:Ha, (decide (P a)) as [HP|HP]; try reflexivity.
  - exfalso. apply HP, Hf, Ha.
  - apply Hf in HP. congruence.
Qed.

Lemma eqb_created_on DATE (d : Z) (ts : option Z) :
  SQL.eqb (DATE_ DATE ts) (Some d) = true <-> created_on DATE d ts.
Proof.
  unfold created_on, DATE_. destruct ts as [t|]; simpl.
  - rewrite Z.eqb_eq. split; congruence.
  - split; discriminate.
Qed.

Lemma sessions_rev_spec DATE d L :
  sessions_rev DATE d L
  == total (Session.final_amount <$> completed_sessions_on DATE d L).
Proof.
  unfold sessions_rev, completed_sessions_on.
  rewrite coalesce_sum, nonnull_some.
  rewrite (where_filter _
    (fun s => created_on DATE d (Session.created_at s)
              /\ Session.status s = completed)); [ reflexivity | ].
  intros s. rewrite andb_true_iff, eqb_created_on, bool_decide_eq_true.
  reflexivity.
Qed.

Lemma sales_rev_spec DATE d L :
  sales_rev DATE d L == total (Sale.final_amount <$> sales_on DATE d L).
Proof.
  unfold sales_rev, sales_on.
  rewrite coalesce_sum, nonnull_some.
  rewrite (where_filter _ (fun s => created_on DATE d (Sale.created_at s)));
    [ reflexivity | ].
  intros s. apply eqb_created_on.
Qed.

Lemma expenses_tot_spec d L :
  expenses_tot d L == total (Expense.amount <$> expenses_on d L).
Proof.
  unfold expenses_tot, expenses_on.
  rewrite coalesce_sum, nonnull_some.
  rewrite (where_filter _ (fun x => Expense.date x = d)); [ reflexivity | ].
  intros x. apply Z.eqb_eq.
Qed.

(** C4. After the recomputation for a date the summary row of that date
    holds: as sessions revenue the sum of [final_amount] over the
    completed sessions created that date, as sales revenue the sum of
    [final_amount] over the sales created that date, as expenses total
    the sum of [amount] over the expenses dated that date, and as net
    income sessions revenue plus sales revenue minus expenses total,
    without the discounts. *)
Theorem daily_summary_revenues DATE uuid now d L :
  exists row,
    Ledger.daily_summaries (calculate_daily_summary DATE uuid now d L) !! d
    = Some row
    /\ DailySummary.sessions_revenue row
       == total (Session.final_amount <$> completed_sessions_on DATE d L)
    /\ DailySummary.sales_revenue row
       == total (Sale.final_amount <$> sales_on DATE d L)
    /\ DailySummary.expenses_total row
       == total (Expense.amount <$> expenses_on d L)
    /\ DailySummary.net_income row
       == DailySummary.sessions_revenue row + DailySummary.sales_revenue row
          - DailySummary.expenses_total row.
Proof.
  unfold calculate_daily_summary. simpl.
  eexists. split; [ apply lookup_insert_eq | ].
  destruct (Ledger.daily_summaries L !! d); simpl;
    (split; [ apply sessions_rev_spec | ]);
    (split; [ apply sales_rev_spec | ]);
    (split; [ apply expenses_tot_spec | reflexivity ]).
Qed.

(** *** The discount query: what the outer join adds up *)

Section Join.

Variable DATE : Z -> Z.
Variable d : Z.
Variable l : list Sale.t.
Variable r : list Session.t.

(** A matched row passes the [WHERE] clause when its sale is of the day. *)
Lemma where_matched a b :
  join_on DATE a b = true ->
  where_day DATE d (Some a, Some b) = sale_on_day DATE d a.
Proof.
  unfold join_on, where_day, sale_on_day. simpl.
  destruct (Sale.created_at a) as [t|]; simpl; [ reflexivity | ].
  destruct (DATE_ DATE (Session.created_at b)); discriminate.
Qed.

(** A sale of the day joins exactly the sessions of the day, and a
    session of the day exactly the sales of the day. *)
Lemma join_on_day a b :
  sale_on_day DATE d a = true ->
  join_on DATE a b = session_on_day DATE d b.
Proof.
  unfold join_on, sale_on_day, session_on_day.
  destruct (DATE_ DATE (Sale.created_at a)) as [x|]; simpl; [ | discriminate ].
  rewrite Z.eqb_eq. intros ->. reflexivity.
Qed.

Lemma join_on_day' a b :
  session_on_day DATE d b = true ->
  join_on DATE a b = sale_on_day DATE d a.
Proof.
  unfold join_on, sale_on_day, session_on_day.
  destruct (DATE_ DATE (Session.created_at b)) as [x|]; simpl; [ | discriminate ].
  rewrite Z.eqb_eq. intros ->.
  destruct (DATE_ DATE (Sale.created_at a)); simpl;
    [ apply Z.eqb_sym | reflexivity ].
Qed.

(** The matched rows of one sale that survive the [WHERE] clause. *)
Lemma matched_rows_of a (r' : list Session.t) :
  List.filter (where_day DATE d)
    (List.map (fun b => (Some a, Some b)) (List.filter (join_on DATE a) r'))
  = if sale_on_day DATE d a
    then List.map (fun b => (Some a, Some b))
           (List.filter (session_on_day DATE d) r')
    else [].
Proof.
  induction r' as [|b r' IH]; simpl;
    [ destruct (sale_on_day DATE d a); reflexivity | ].
  destruct (join_on DATE a b) eqn:Hab; simpl.
  - rewrite (where_matched _ _ Hab), IH.
    destruct (sale_on_day DATE d a) eqn:Ha; [ | reflexivity ].
    rewrite <- (join_on_day _ b Ha), Hab. reflexivity.
  - rewrite IH. destruct (sale_on_day DATE d a) eqn:Ha; [ | reflexivity ].
    rewrite <- (join_on_day _ b Ha), Hab. reflexivity.
Qed.

(** The matched rows: every sale of the day paired with every session of
    the day. *)
Lemma matched_rows (l' : list Sale.t) :
  List.filter (where_day DATE d)
    (flat_map (fun a => List.map (fun b => (Some a, Some b))
                          (List.filter (join_on DATE a) r)) l')
  = flat_map (fun a => List.map (fun b => (Some a, Some b))
                         (List.filter (session_on_day DATE d) r))
      (List.filter (sale_on_day DATE d) l').
Proof.
  induction l' as [|a l' IH]; simpl; [ reflexivity | ].
  rewrite List.filter_app, IH, matched_rows_of.
  destruct (sale_on_day DATE d a); reflexivity.
Qed.

Lemma none_matching a :
  sale_on_day DATE d a = true ->
  forallb (fun b => negb (join_on DATE a b)) r
  = forallb (fun b => negb (session_on_day DATE d b)) r.
Proof.
  intros Ha. induction r as [|b r' IH]; simpl; [ reflexivity | ].
  rewrite (join_on_day _ _ Ha), IH. reflexivity.
Qed.

Lemma none_matching' b :
  session_on_day DATE d b = true ->
  forallb (fun a => negb (join_on DATE a b)) l
  = forallb (fun a => negb (sale_on_day DATE d a)) l.
Proof.
  intros Hb. induction l as [|a l' IH]; simpl; [ reflexivity | ].
  rewrite (join_on_day' _ _ Hb), IH. reflexivity.
Qed.

(** The null-extended sales: the sales of the day, provided the day has
    no session. *)
Lemma unmatched_sales :
  List.filter (where_day DATE d)
    (List.map (fun a => (Some a, None))
       (List.filter (fun a => forallb (fun b => negb (join_on DATE a b)) r) l))
  = if forallb (fun b => negb (session_on_day DATE d b)) r
    then List.map (fun a => (Some a, None)) (List.filter (sale_on_day DATE d) l)
    else [].
Proof.
  induction l as [|a l' IH]; simpl.
  - destruct (forallb _ r); reflexivity.
  - assert (where_day DATE d (Some a, None) = sale_on_day DATE d a) as Hk.
    { unfold where_day, sale_on_day. simpl.
      destruct (Sale.created_at a); reflexivity. }
    destruct (sale_on_day DATE d a) eqn:Ha.
    + rewrite (none_matching _ Ha).
      destruct (forallb (fun b => negb (session_on_day DATE d b)) r) eqn:Hr;
        simpl; [ rewrite Hk, IH; reflexivity | exact IH ].
    + destruct (forallb (fun b => negb (join_on DATE a b)) r); simpl;
        [ rewrite Hk | ]; exact IH.
Qed.

(** The null-extended sessions: the sessions of the day, provided the day
    has no sale. *)
Lemma unmatched_sessions :
  List.filter (where_day DATE d)
    (List.map (fun b => (None, Some b))
       (List.filter (fun b => forallb (fun a => negb (join_on DATE a b)) l) r))
  = if forallb (fun a => negb (sale_on_day DATE d a)) l
    then List.map (fun b => (None, Some b))
           (List.filter (session_on_day DATE d) r)
    else [].
Proof.
  induction r as [|b r' IH]; simpl.
  - destruct (forallb _ l); reflexivity.
  - assert (where_day DATE d (None, Some b) = session_on_day DATE d b) as Hk
      by reflexivity.
    destruct (session_on_day DATE d b) eqn:Hb.
    + rewrite (none_matching' _ Hb).
      destruct (forallb (fun a => negb (sale_on_day DATE d a)) l) eqn:Hl;
        simpl; [ rewrite Hk, IH; reflexivity | exact IH ].
    + destruct (forallb (fun a => negb (join_on DATE a b)) l); simpl;
        [ rewrite Hk | ]; exact IH.
Qed.

End Join.

Lemma no_row_on_day {A} (f : A -> bool) (xs : list A) :
  forallb (fun x => negb (f x)) xs
  = match List.filter f xs with [] => true | _ => false end.
Proof.
  induction xs as [|x xs IH]; simpl; [ reflexivity | ].
  destruct (f x); simpl; [ reflexivity | exact IH ].
Qed.

Lemma nonnull_app (xs ys : list (option Q)) :
  nonnull (xs ++ ys) = nonnull xs ++ nonnull ys.
Proof. apply omap_app. Qed.

Lemma total_replicate (n : nat) (x : Q) :
  total (replicate n x) == inject_Z (Z.of_nat n) * x.
Proof.
  induction n as [|n IH]; [ simpl; ring | ].
  rewrite Nat2Z.inj_succ. unfold Z.succ. rewrite inject_Z_plus.
  simpl replicate. simpl total. fold (total (replicate n x)). rewrite IH. ring.
Qed.

(** In the matched rows every sale discount occurs once per session of
    the day, and every session discount once per sale of the day. *)
Lemma matched_sale_total (S : list Sale.t) (T : list Session.t) :
  total (nonnull (List.map row_sale_discount
           (flat_map (fun a => List.map (fun b => (Some a, Some b)) T) S)))
  == inject_Z (Z.of_nat (length T)) * total (sale_discount <$> S).
Proof.
  induction S as [|a S IH];
    [ change (0 == inject_Z (Z.of_nat (length T)) * 0); ring | ].
  simpl flat_map. rewrite List.map_app, nonnull_app, total_app, IH.
  assert (nonnull (List.map row_sale_discount
                     (List.map (fun b => (Some a, Some b)) T))
          = replicate (length T) (sale_discount a)) as ->.
  { clear. induction T as [|b T IH]; simpl; [ reflexivity | ].
    unfold nonnull in *. simpl. f_equal. exact IH. }
  rewrite total_replicate. rewrite fmap_cons. simpl total.
  fold (total (sale_discount <$> S)). ring.
Qed.

Lemma matched_session_total (S : list Sale.t) (T : list Session.t) :
  total (nonnull (List.map row_session_discount
           (flat_map (fun a => List.map (fun b => (Some a, Some b)) T) S)))
  == inject_Z (Z.of_nat (length S)) * total (session_discount <$> T).
Proof.
  induction S as [|a S IH];
    [ change (0 == 0 * total (session_discount <$> T)); ring | ].
  simpl flat_map. rewrite List.map_app, nonnull_app, total_app, IH.
  assert (nonnull (List.map row_session_discount
                     (List.map (fun b => (Some a, Some b)) T))
          = session_discount <$> T) as ->.
  { clear. induction T as [|b T IH]; simpl; [ reflexivity | ].
    unfold nonnull in *. simpl. f_equal. exact IH. }
  simpl length. rewrite Nat2Z.inj_succ. unfold Z.succ. rewrite inject_Z_plus.
  ring.
Qed.

Lemma unmatched_total {A B} (f : A -> Q) (g : B -> option Q) (mk : A -> B)
    (xs : list A) :
  (forall a, g (mk a) = Some (f a)) ->
  nonnull (List.map g (List.map mk xs)) = f <$> xs.
Proof.
  intros H. unfold nonnull. induction xs as [|a xs IH]; simpl; [ reflexivity | ].
  rewrite H. simpl. f_equal. exact IH.
Qed.

Lemma unmatched_null {A B} (g : B -> option Q) (mk : A -> B) (xs : list A) :
  (forall a, g (mk a) = None) ->
  nonnull (List.map g (List.map mk xs)) = [].
Proof.
  intros H. unfold nonnull. induction xs as [|a xs IH]; simpl; [ reflexivity | ].
  rewrite H. simpl. exact IH.
Qed.

Lemma weight_total {A} (f : A -> Q) (xs : list A) (n : nat) :
  inject_Z (Z.of_nat n) * total (f <$> xs)
  + (if match n with O => true | _ => false end then total (f <$> xs) else 0)
  == weight n * total (f <$> xs).
Proof.
  unfold weight. destruct n as [|n]; cbv iota.
  - change (inject_Z (Z.of_nat 0)) with 0.
    change (inject_Z (Z.max 1 (Z.of_nat 0))) with 1. ring.
  - rewrite Z.max_r by lia. ring.
Qed.

(** What the discount query returns: the sale discounts of the day once
    per session of the day (once if there is none), plus the session
    discounts of the day once per sale of the day (once if there is
    none). *)
Lemma discounts_tot_join DATE d L :
  discounts_tot DATE d L
  == weight (length (sessions_on DATE d L))
       * total (sale_discount <$> sales_on DATE d L)
     + weight (length (sales_on DATE d L))
       * total (session_discount <$> sessions_on DATE d L).
Proof.
  unfold discounts_tot, discount_rows, SQL.full_outer_join.
  change (fun row : option Sale.t * option Session.t =>
            SQL.eqb (DATE_ DATE (SQL.COALESCE (fst row ≫= Sale.created_at)
                                              (snd row ≫= Session.created_at)))
                    (Some d)) with (where_day DATE d).
  change (fun s sess => SQL.eqb (DATE_ DATE (Session.created_at sess))
                                (DATE_ DATE (Sale.created_at s)))
    with (join_on DATE).
  rewrite !List.filter_app, matched_rows, unmatched_sales, unmatched_sessions.
  rewrite !coalesce_sum, !List.map_app, !nonnull_app, !total_app.
  change (fun row : option Sale.t * option Session.t => sale_discount <$> fst row)
    with row_sale_discount.
  change (fun row : option Sale.t * option Session.t =>
            session_discount <$> snd row)
    with row_session_discount.
  rewrite matched_sale_total, matched_session_total.
  rewrite !no_row_on_day.
  assert (List.filter (sale_on_day DATE d) (Ledger.sales L) = sales_on DATE d L)
    as -> by (apply where_filter; intros s; apply eqb_created_on).
  assert (List.filter (session_on_day DATE d) (Ledger.sessions L)
          = sessions_on DATE d L)
    as -> by (apply where_filter; intros s; apply eqb_created_on).
  set (S := sales_on DATE d L). set (T := sessions_on DATE d L).
  rewrite <- (weight_total sale_discount S (length T)).
  rewrite <- (weight_total session_discount T (length S)).
  destruct T as [|t T], S as [|s S]; simpl length; cbv iota.
  all: rewrite ?(unmatched_total sale_discount row_sale_discount
                   (fun a => (Some a, None))) by reflexivity.
  all: rewrite ?(unmatched_total session_discount row_session_discount
                   (fun b => (None, Some b))) by reflexivity.
  all: rewrite ?(unmatched_null row_session_discount
                   (fun a : Sale.t => (Some a, None))) by reflexivity.
  all: rewrite ?(unmatched_null row_sale_discount
                   (fun b : Session.t => (None, Some b))) by reflexivity.
  all: repeat match goal with
       | |- context [total (nonnull (List.map ?g []))] =>
           change (total (nonnull (List.map g []))) with 0
       end.
  all: change (total []) with 0; ring.
Qed.

(** With at most one sale and at most one session on the day the query
    counts every discount once. *)
Lemma discounts_tot_single DATE d L :
  (length (sales_on DATE d L) <= 1)%nat ->
  (length (sessions_on DATE d L) <= 1)%nat ->
  discounts_tot DATE d L == spec_discounts_total DATE d L.
Proof.
  intros Hs Ht. rewrite discounts_tot_join. unfold spec_discounts_total, weight.
  rewrite !Z.max_l by lia. ring.
Qed.

(** C3 (defect). On a day with two sales (discount 1 each) and one
    session (discount 1) the recomputed summary stores 4 as
    [discounts_total], where the discounts of the day add up to 3: the
    outer join pairs the session with each of the two sales, so the
    session's discount is counted twice. *)
Theorem discounts_total_counts_joined_rows :
  (exists row,
     Ledger.daily_summaries
       (calculate_daily_summary SampleDay.DATE "summary-1" 90000 1 SampleDay.ledger)
       !! 1%Z = Some row
     /\ DailySummary.discounts_total row == 4)
  /\ spec_discounts_total SampleDay.DATE 1 SampleDay.ledger == 3.
Proof.
  split; [ | vm_compute; reflexivity ].
  unfold calculate_daily_summary. cbn [Ledger.daily_summaries].
  rewrite lookup_insert_eq. eexists. split; [ reflexivity | ].
  vm_compute. reflexivity.
Qed.

(** ** Storage requests *)

Lemma sessions_fire trig inserted new db :
  DB.sessions (DB.fire trig inserted new db) = DB.sessions db.
Proof.
  unfold DB.fire, DB.update_device_status.
  destruct trig, inserted; try reflexivity.
  destruct (decide (Session.status new = completed)); reflexivity.
Qed.

Lemma sessions_complete_session trig sid endTime t da f db :
  DB.sessions (DB.complete_session trig sid endTime t da f db)
  = alter (DB.complete endTime t da f) sid (DB.sessions db).
Proof.
  unfold DB.complete_session.
  destruct (DB.sessions db !! sid) as [s|] eqn:Hs.
  - rewrite sessions_fire. simpl. apply map_eq. intros k.
    rewrite lookup_alter. destruct (decide (sid = k)) as [<-|Hk].
    + rewrite lookup_insert_eq, Hs. reflexivity.
    + rewrite lookup_insert_ne by exact Hk. reflexivity.
  - apply map_eq. intros k. rewrite lookup_alter.
    destruct (decide (sid = k)) as [<-|Hk]; [ rewrite Hs | ]; reflexivity.
Qed.

(** ** Discounts *)

Lemma discounted_bounds (t disc : Q) :
  0 <= disc -> disc <= 100 -> 0 <= t ->
  0 <= t - disc / 100 * t /\ t - disc / 100 * t <= t.
Proof.
  intros Hd Hd' Ht.
  assert (0 <= disc / 100 * t) as Hlow.
  { apply Qmult_le_0_compat; [ | exact Ht ].
    apply Qmult_le_0_compat; [ exact Hd | discriminate ]. }
  assert (disc / 100 * t <= 1 * t) as Hhigh.
  { apply Qmult_le_compat_r; [ | exact Ht ].
    apply Qle_shift_div_r; [ reflexivity | lra ]. }
  split; lra.
Qed.

Lemma same_amount_up_to_rounding (scale x y : Q) :
  x == y -> up_to_rounding scale x y.
Proof.
  intros H. unfold up_to_rounding.
  assert (x - y == 0) as Hzero by (rewrite H; ring).
  rewrite (Qabs_wd _ _ Hzero). change (Qabs 0) with 0.
  pose proof (Qabs_nonneg scale). apply Qle_shift_div_l; [ reflexivity | lra ].
Qed.

(** The rows [endSession] leaves in [sessions] once its first request
    is answered. *)
Lemma endSession_sessions trig e deviceId db v session device :
  View.isEndingSession v = false ->
  View.activeSessions v !! deviceId = Some session ->
  find_device deviceId (View.devices v) = Some device ->
  End_.session_ok e = true ->
  DB.sessions (endSession trig e deviceId (db, v)).1
  = alter (DB.complete (End_.endTime e)
             (endSession_amounts e v session device).1.1
             (endSession_amounts e v session device).1.2
             (endSession_amounts e v session device).2)
          (Session.id session) (DB.sessions db).
Proof.
  intros Hg Hs Hd Hok. unfold endSession. rewrite Hg, Hs, Hd.
  destruct (endSession_amounts e v session device) as [[t da] f].
  rewrite Hok. cbn [negb fst snd].
  destruct (End_.device_ok e); cbn [negb fst snd];
    unfold endSession_failed; cbn [fst DB.set_device_status DB.sessions];
    apply sessions_complete_session.
Qed.

(** C5 (amended). For the session it completes [endSession] stores, and
    for every sale [handleCheckout] records, as [final_amount] the amount
    total × (1 − discount/100) as it is computed, not rounded to two
    decimals: the stored amount is that product up to the error of the
    floating-point arithmetic (less than a billionth of the total), it
    is the total at a discount of 0 and 0 at a discount of 100, and it
    lies between 0 and the total whenever the discount percentage lies
    in [0,100] and the total is not negative. *)
Theorem final_amount_is_unrounded
    trig e deviceId db v session device row cart discount :
  View.isEndingSession v = false ->
  View.activeSessions v !! deviceId = Some session ->
  find_device deviceId (View.devices v) = Some device ->
  End_.session_ok e = true ->
  DB.sessions db !! Session.id session = Some row ->
  (exists row',
     DB.sessions (endSession trig e deviceId (db, v)).1 !! Session.id session
     = Some row'
     /\ Session.status row' = completed
     /\ up_to_rounding (Session.total_cost row') (Session.final_amount row')
          (Session.total_cost row' * (1 - View.discount v / 100))
     /\ (View.discount v == 0 ->
         Session.final_amount row' == Session.total_cost row')
     /\ (View.discount v == 100 -> Session.final_amount row' == 0)
     /\ (0 <= View.discount v -> View.discount v <= 100 ->
         0 <= Session.total_cost row' ->
         0 <= Session.final_amount row'
         /\ Session.final_amount row' <= Session.total_cost row'))
  /\ Forall (fun sale =>
       up_to_rounding (NewSale.total_price sale) (NewSale.final_amount sale)
         (NewSale.total_price sale * (1 - discount / 100))
       /\ (discount == 0 -> NewSale.final_amount sale == NewSale.total_price sale)
       /\ (discount == 100 -> NewSale.final_amount sale == 0)
       /\ (0 <= discount -> discount <= 100 ->
           0 <= NewSale.total_price sale ->
           0 <= NewSale.final_amount sale
           /\ NewSale.final_amount sale <= NewSale.total_price sale))
      (handleCheckout_sales cart discount).
Proof.
  intros Hg Hs Hd Hok Hrow. split.
  - rewrite (endSession_sessions _ _ _ _ _ _ _ Hg Hs Hd Hok).
    rewrite lookup_alter_eq, Hrow. eexists. split; [ reflexivity | ].
    unfold endSession_amounts.
    cbn [fmap option_fmap option_map DB.complete Session.status
         Session.final_amount Session.total_cost fst snd].
    set (t := calculateSessionCost _ _ _ _ _).
    split; [ reflexivity | ].
    split; [ apply same_amount_up_to_rounding; ring | ].
    split; [ intros ->; field | ].
    split; [ intros ->; field | ].
    apply discounted_bounds.
  - unfold handleCheckout_sales.
    destruct (calculateTotal cart discount) as [[subtotal discountAmount] tot].
    apply Forall_forall. intros sale Hin.
    apply list_elem_of_In, in_map_iff in Hin. destruct Hin as (item & <- & _).
    cbn [NewSale.final_amount NewSale.total_price].
    split; [ apply same_amount_up_to_rounding; reflexivity | ].
    split; [ intros ->; field | ].
    split; [ intros ->; field | ].
    intros H0 H1 Ht.
    destruct (discounted_bounds (line_total item) discount H0 H1 Ht).
    split; lra.
Qed.

(** ** The device list *)

Lemma find_device_Some deviceId devices device :
  find_device deviceId devices = Some device ->
  device ∈ devices /\ Device.id device = deviceId.
Proof.
  intros H. apply find_some in H. destruct H as [Hin Hid].
  split; [ apply list_elem_of_In, Hin | ].
  apply bool_decide_eq_true in Hid. exact Hid.
Qed.

Lemma elem_of_mark_device deviceId st devices d :
  d ∈ mark_device deviceId st devices ->
  exists d0, d0 ∈ devices
    /\ ((Device.id d0 = deviceId /\ d = Device.with_status st d0)
        \/ (Device.id d0 <> deviceId /\ d = d0)).
Proof.
  intros H. apply list_elem_of_In, in_map_iff in H.
  destruct H as (d0 & Hd & Hin). exists d0.
  split; [ apply list_elem_of_In, Hin | ].
  destruct (bool_decide (Device.id d0 = deviceId)) eqn:Hb.
  - apply bool_decide_eq_true in Hb. left. auto.
  - apply bool_decide_eq_false in Hb. right. auto.
Qed.

Lemma mark_device_status deviceId st devices d :
  d ∈ mark_device deviceId st devices -> Device.id d = deviceId ->
  Device.status d = st.
Proof.
  intros H Hid. apply elem_of_mark_device in H.
  destruct H as (d0 & _ & [[_ ->] | [Hne ->]]); [ reflexivity | contradiction ].
Qed.

(** ** What a start and an end do when every request is answered *)

Lemma startSession_done trig e deviceId db v device d0 endTime :
  View.isStartingSession v = false ->
  find_device deviceId (View.devices v) = Some device ->
  Device.status device = available ->
  scheduled_end e v = Some endTime ->
  Start.device_ok e = true ->
  Start.insert_ok e = true ->
  DB.sessions db !! Start.uuid e = None ->
  DB.devices db !! deviceId = Some d0 ->
  startSession trig e deviceId (db, v)
  = (DB.mk (<[deviceId := Device.with_status occupied d0]> (DB.devices db))
           (<[Start.uuid e := new_session e v deviceId device endTime]>
              (DB.sessions db)),
     View.mk (mark_device deviceId occupied (View.devices v))
       (<[deviceId := new_session e v deviceId device endTime]>
          (View.activeSessions v))
       (View.showEndSessionModal v) None
       (View.discount v) (Some 60%Z) true EmptyString None false
       (View.isEndingSession v)
       (View.expiredSessions v) (View.extraTime v)).
Proof.
  intros Hg Hfind Hav Hend Hok1 Hok2 Hfresh Hdev.
  unfold startSession. rewrite Hg, Hfind, Hav, Hend, Hok1, Hok2.
  rewrite bool_decide_eq_true_2 by reflexivity. cbn [negb].
  unfold DB.insert_session.
  assert (Session.id (new_session e v deviceId device endTime) = Start.uuid e) as Hid
    by reflexivity.
  assert (Session.device_id (new_session e v deviceId device endTime) = deviceId)
    as Hdid by reflexivity.
  rewrite Hid, Hdid.
  cbn [DB.set_device_status DB.sessions DB.devices].
  rewrite Hfresh, lookup_alter_eq, Hdev. cbn [fmap option_fmap option_map].
  f_equal.
  unfold DB.fire, DB.update_device_status. rewrite Hdid.
  assert (alter (Device.with_status occupied) deviceId (DB.devices db)
          = <[deviceId := Device.with_status occupied d0]> (DB.devices db)) as Ha.
  { apply map_eq. intros k. rewrite lookup_alter, lookup_insert.
    destruct (decide (deviceId = k)) as [<-|]; [ rewrite Hdev | ]; reflexivity. }
  destruct trig; unfold DB.set_device_status; cbn [DB.devices DB.sessions];
    rewrite Ha; [ | reflexivity ].
  f_equal. apply map_eq. intros k.
  destruct (decide (deviceId = k)) as [<-|Hne].
  - rewrite lookup_alter_eq, !lookup_insert_eq. reflexivity.
  - rewrite lookup_alter_ne by exact Hne. reflexivity.
Qed.

Lemma endSession_done trig e deviceId db v session device row :
  View.isEndingSession v = false ->
  View.activeSessions v !! deviceId = Some session ->
  find_device deviceId (View.devices v) = Some device ->
  End_.session_ok e = true ->
  End_.device_ok e = true ->
  DB.sessions db !! Session.id session = Some row ->
  Session.device_id row = deviceId ->
  endSession trig e deviceId (db, v)
  = (DB.mk (alter (Device.with_status available) deviceId (DB.devices db))
           (<[Session.id session :=
                DB.complete (End_.endTime e)
                  (endSession_amounts e v session device).1.1
                  (endSession_amounts e v session device).1.2
                  (endSession_amounts e v session device).2 row]>
              (DB.sessions db)),
     View.mk (mark_device deviceId available (View.devices v))
       (delete deviceId (View.activeSessions v))
       None (View.showStartSessionModal v)
       0 (View.sessionDuration v) (View.isOpenSession v)
       (View.customerName v) (View.error v)
       (View.isStartingSession v) false
       (View.expiredSessions v ∖ {[Session.id session]})
       (delete (Session.id session) (View.extraTime v))).
Proof.
  intros Hg Hs Hfind Hok1 Hok2 Hrow Hdid.
  unfold endSession. rewrite Hg, Hs, Hfind.
  destruct (endSession_amounts e v session device) as [[t da] f].
  rewrite Hok1, Hok2. cbn [negb fst snd]. f_equal.
  unfold DB.complete_session. rewrite Hrow.
  unfold DB.fire, DB.update_device_status.
  assert (Session.status (DB.complete (End_.endTime e) t da f row) = completed)
    as Hst by reflexivity.
  assert (Session.device_id (DB.complete (End_.endTime e) t da f row) = deviceId)
    as Hd by exact Hdid.
  rewrite Hd. rewrite decide_True by exact Hst.
  destruct trig; unfold DB.set_device_status; cbn [DB.devices DB.sessions];
    [ | reflexivity ].
  f_equal. apply map_eq. intros k.
  destruct (decide (deviceId = k)) as [<-|Hne].
  - rewrite !lookup_alter_eq. destruct (DB.devices db !! deviceId); reflexivity.
  - rewrite !lookup_alter_ne by exact Hne. reflexivity.
Qed.

(** ** One active session per occupied device *)

Lemma one_active_session_insert db deviceId d0 uuid row :
  one_active_session db ->
  DB.devices db !! deviceId = Some d0 ->
  Device.status d0 <> occupied ->
  DB.sessions db !! uuid = None ->
  active_on deviceId row ->
  one_active_session
    (DB.mk (<[deviceId := Device.with_status occupied d0]> (DB.devices db))
           (<[uuid := row]> (DB.sessions db))).
Proof.
  intros Hinv Hdev Hfree Hfresh Hrow k d. cbn [DB.devices DB.sessions].
  specialize (Hinv k).
  destruct (decide (deviceId = k)) as [<-|Hne].
  - rewrite lookup_insert_eq. intros [= <-]. cbn [Device.with_status Device.status].
    rewrite decide_True by reflexivity.
    exists uuid, row. split; [ apply lookup_insert_eq | ]. split; [ exact Hrow | ].
    intros sid' s' Hs' Hact.
    destruct (decide (uuid = sid')) as [<-|Hsid]; [ reflexivity | exfalso ].
    rewrite lookup_insert_ne in Hs' by exact Hsid.
    specialize (Hinv d0 Hdev). rewrite decide_False in Hinv by exact Hfree.
    exact (Hinv sid' s' Hs' Hact).
  - rewrite lookup_insert_ne by exact Hne. intros Hd. specialize (Hinv d Hd).
    assert (~ active_on k row) as Hother.
    { destruct Hrow as [Hk _]. intros [Hk' _]. congruence. }
    destruct (decide (Device.status d = occupied)).
    + destruct Hinv as (sid & s & Hs & Hact & Huniq).
      exists sid, s. split.
      { rewrite lookup_insert_ne; [ exact Hs | congruence ]. }
      split; [ exact Hact | ].
      intros sid' s' Hs' Hact'.
      destruct (decide (uuid = sid')) as [<-|Hsid].
      * rewrite lookup_insert_eq in Hs'. injection Hs' as <-. contradiction.
      * rewrite lookup_insert_ne in Hs' by exact Hsid. eauto.
    + intros sid' s' Hs'.
      destruct (decide (uuid = sid')) as [<-|Hsid].
      * rewrite lookup_insert_eq in Hs'. injection Hs' as <-. exact Hother.
      * rewrite lookup_insert_ne in Hs' by exact Hsid. eauto.
Qed.

Lemma one_active_session_complete db deviceId sid row row' :
  one_active_session db ->
  DB.sessions db !! sid = Some row ->
  active_on deviceId row ->
  Session.status row' = completed ->
  one_active_session
    (DB.mk (alter (Device.with_status available) deviceId (DB.devices db))
           (<[sid := row']> (DB.sessions db))).
Proof.
  intros Hinv Hsid Hrow Hdone k d. cbn [DB.devices DB.sessions].
  specialize (Hinv k).
  assert (forall k', ~ active_on k' row') as Hnot.
  { intros k' [_ Hact]. congruence. }
  destruct (decide (deviceId = k)) as [<-|Hne].
  - rewrite lookup_alter_eq.
    destruct (DB.devices db !! deviceId) as [d0|] eqn:Hdev; [ | discriminate ].
    intros [= <-]. cbn [Device.with_status Device.status].
    rewrite decide_False by discriminate.
    intros sid' s' Hs' Hact.
    destruct (decide (sid = sid')) as [<-|Hsid'].
    + rewrite lookup_insert_eq in Hs'. injection Hs' as <-. exact (Hnot _ Hact).
    + rewrite lookup_insert_ne in Hs' by exact Hsid'.
      specialize (Hinv d0 eq_refl).
      destruct (decide (Device.status d0 = occupied)).
      * destruct Hinv as (sid0 & s0 & _ & _ & Huniq).
        apply Hsid'. transitivity sid0; [ | symmetry ]; eauto.
      * exact (Hinv sid' s' Hs' Hact).
  - rewrite lookup_alter_ne by exact Hne. intros Hd. specialize (Hinv d Hd).
    assert (~ active_on k row) as Hother.
    { destruct Hrow as [Hk _]. intros [Hk' _]. congruence. }
    destruct (decide (Device.status d = occupied)).
    + destruct Hinv as (sid0 & s0 & Hs0 & Hact & Huniq).
      exists sid0, s0. split.
      { rewrite lookup_insert_ne; [ exact Hs0 | ]. intros <-.
        rewrite Hsid in Hs0. injection Hs0 as <-. contradiction. }
      split; [ exact Hact | ].
      intros sid' s' Hs' Hact'.
      destruct (decide (sid = sid')) as [<-|Hsid'].
      * rewrite lookup_insert_eq in Hs'. injection Hs' as <-.
        exfalso. exact (Hnot _ Hact').
      * rewrite lookup_insert_ne in Hs' by exact Hsid'. eauto.
    + intros sid' s' Hs'.
      destruct (decide (sid = sid')) as [<-|Hsid'].
      * rewrite lookup_insert_eq in Hs'. injection Hs' as <-. apply Hnot.
      * rewrite lookup_insert_ne in Hs' by exact Hsid'. eauto.
Qed.

(** ** Agreement of the snapshot with storage *)

Lemma in_sync_insert db v v' deviceId d0 uuid row :
  in_sync db v ->
  one_active_session db ->
  DB.devices db !! deviceId = Some d0 ->
  Device.status d0 <> occupied ->
  DB.sessions db !! uuid = None ->
  Session.id row = uuid ->
  active_on deviceId row ->
  View.devices v' = mark_device deviceId occupied (View.devices v) ->
  View.activeSessions v' = <[deviceId := row]> (View.activeSessions v) ->
  in_sync
    (DB.mk (<[deviceId := Device.with_status occupied d0]> (DB.devices db))
           (<[uuid := row]> (DB.sessions db)))
    v'.
Proof.
  intros (Hdevs & Hview & Hstored) Hinv Hdev Hfree Hfresh Hid Hrow Hv1 Hv2.
  unfold in_sync. rewrite Hv1, Hv2. cbn [DB.devices DB.sessions].
  split; [ | split ].
  - intros d Hd. apply elem_of_mark_device in Hd.
    destruct Hd as (x & Hx & [[Hk ->] | [Hk ->]]).
    + cbn [Device.with_status Device.id Device.status]. rewrite Hk.
      rewrite lookup_insert_eq. eexists. split; reflexivity.
    + rewrite lookup_insert_ne by congruence. apply Hdevs, Hx.
  - intros k s Hs.
    destruct (decide (deviceId = k)) as [<-|Hne].
    + rewrite lookup_insert_eq in Hs. injection Hs as <-.
      rewrite Hid, lookup_insert_eq. eauto.
    + rewrite lookup_insert_ne in Hs by exact Hne.
      destruct (Hview k s Hs) as (s' & Hs' & Hact).
      exists s'. split; [ | exact Hact ].
      rewrite lookup_insert_ne; [ exact Hs' | congruence ].
  - intros sid s' Hs' Hact.
    destruct (decide (uuid = sid)) as [<-|Hsid].
    + rewrite lookup_insert_eq in Hs'. injection Hs' as <-.
      destruct Hrow as [-> _]. rewrite lookup_insert_eq. eauto.
    + rewrite lookup_insert_ne in Hs' by exact Hsid.
      destruct (Hstored sid s' Hs' Hact) as (s & Hs & Hsid').
      exists s. split; [ | exact Hsid' ].
      rewrite lookup_insert_ne; [ exact Hs | ].
      intros Hk. specialize (Hinv deviceId d0 Hdev).
      rewrite decide_False in Hinv by exact Hfree.
      apply (Hinv sid s' Hs'). split; [ symmetry; exact Hk | exact Hact ].
Qed.

Lemma in_sync_complete db v v' deviceId session row row' :
  in_sync db v ->
  one_active_session db ->
  View.activeSessions v !! deviceId = Some session ->
  DB.sessions db !! Session.id session = Some row ->
  active_on deviceId row ->
  Session.status row' = completed ->
  View.devices v' = mark_device deviceId available (View.devices v) ->
  View.activeSessions v' = delete deviceId (View.activeSessions v) ->
  in_sync
    (DB.mk (alter (Device.with_status available) deviceId (DB.devices db))
           (<[Session.id session := row']> (DB.sessions db)))
    v'.
Proof.
  intros (Hdevs & Hview & Hstored) Hinv Hs Hsid Hrow Hdone Hv1 Hv2.
  unfold in_sync. rewrite Hv1, Hv2. cbn [DB.devices DB.sessions].
  split; [ | split ].
  - intros d Hd. apply elem_of_mark_device in Hd.
    destruct Hd as (x & Hx & [[Hk ->] | [Hk ->]]).
    + cbn [Device.with_status Device.id Device.status]. rewrite Hk.
      rewrite lookup_alter_eq.
      destruct (Hdevs x Hx) as (d' & Hd' & _). rewrite Hk in Hd'. rewrite Hd'.
      eexists. split; reflexivity.
    + rewrite lookup_alter_ne by congruence. apply Hdevs, Hx.
  - intros k s Hks.
    destruct (decide (deviceId = k)) as [<-|Hne].
    + rewrite lookup_delete_eq in Hks. discriminate.
    + rewrite lookup_delete_ne in Hks by exact Hne.
      destruct (Hview k s Hks) as (s' & Hs' & Hact).
      exists s'. split; [ | exact Hact ].
      rewrite lookup_insert_ne; [ exact Hs' | ].
      intros Heq. rewrite <- Heq, Hsid in Hs'. injection Hs' as <-.
      destruct Hrow as [Hk _]. destruct Hact as [Hk' _]. congruence.
  - intros sid s' Hs' Hact.
    destruct (decide (Session.id session = sid)) as [<-|Hne].
    + rewrite lookup_insert_eq in Hs'. injection Hs' as <-. congruence.
    + rewrite lookup_insert_ne in Hs' by exact Hne.
      destruct (Hstored sid s' Hs' Hact) as (s & Hks & Hid).
      exists s. split; [ | exact Hid ].
      rewrite lookup_delete_ne; [ exact Hks | ].
      intros Hk. rewrite <- Hk, Hs in Hks. injection Hks as <-.
      apply Hne. exact Hid.
Qed.

(** ** Starting and ending a session *)

Lemma devices_complete_session trig sid endTime t da f db k :
  Device.with_status available <$>
    DB.devices (DB.complete_session trig sid endTime t da f db) !! k
  = Device.with_status available <$> DB.devices db !! k.
Proof.
  unfold DB.complete_session.
  destruct (DB.sessions db !! sid) as [row|]; [ | reflexivity ].
  unfold DB.fire, DB.update_device_status.
  destruct trig; [ | reflexivity ].
  rewrite decide_True by reflexivity.
  unfold DB.set_device_status. cbn [DB.devices].
  destruct (decide (Session.device_id (DB.complete endTime t da f row) = k))
    as [<-|Hne].
  - rewrite lookup_alter_eq.
    destruct (DB.devices db !! _); reflexivity.
  - rewrite lookup_alter_ne by exact Hne. reflexivity.
Qed.

(** C6 (amended). Starting a session on a device that the component
    lists with a status other than [available] is rejected: an error is
    shown and no session is created, in storage or in the snapshot.  An
    end whose two requests are answered sets the device to [available],
    in storage and in the snapshot, and drops the session from the
    snapshot. *)
Theorem start_rejected_end_releases trig deviceId db v :
  (forall e device,
     View.isStartingSession v = false ->
     find_device deviceId (View.devices v) = Some device ->
     Device.status device <> available ->
     DB.sessions (startSession trig e deviceId (db, v)).1 = DB.sessions db
     /\ View.activeSessions (startSession trig e deviceId (db, v)).2
        = View.activeSessions v
     /\ View.error (startSession trig e deviceId (db, v)).2 = Some err_start)
  /\ (forall e session device,
        View.isEndingSession v = false ->
        View.activeSessions v !! deviceId = Some session ->
        find_device deviceId (View.devices v) = Some device ->
        End_.session_ok e = true ->
        End_.device_ok e = true ->
        DB.devices (endSession trig e deviceId (db, v)).1 !! deviceId
        = Device.with_status available <$> DB.devices db !! deviceId
        /\ (forall d, d ∈ View.devices (endSession trig e deviceId (db, v)).2 ->
              Device.id d = deviceId -> Device.status d = available)
        /\ View.activeSessions (endSession trig e deviceId (db, v)).2 !! deviceId
           = None).
Proof.
  split.
  - intros e device Hg Hfind Hst. unfold startSession.
    rewrite Hg, Hfind. rewrite bool_decide_eq_false_2 by exact Hst.
    cbn [negb]. unfold startSession_failed. cbn [fst snd View.activeSessions View.error].
    split; [ | split; reflexivity ].
    destruct (Start.revert_ok e); reflexivity.
  - intros e session device Hg Hs Hfind Hok1 Hok2. unfold endSession.
    rewrite Hg, Hs, Hfind.
    destruct (endSession_amounts e v session device) as [[t da] f].
    rewrite Hok1, Hok2. cbn [negb fst snd View.devices View.activeSessions].
    split; [ | split ].
    + unfold DB.set_device_status at 1. cbn [DB.devices].
      rewrite lookup_alter_eq. apply devices_complete_session.
    + intros d Hd Hid. exact (mark_device_status _ _ _ _ Hd Hid).
    + apply lookup_delete_eq.
Qed.

(** C8 (amended). Let storage satisfy "an occupied device has exactly
    one active session, any other device has none" and let the
    component's snapshot agree with storage.  Then a start on a device
    listed as [available], open-ended or with a duration that gives a
    valid end date, whose requests are answered inserts the device's
    single active session and marks the device occupied, an end whose
    requests are answered marks that session completed and the device
    available, and both leave the invariant and the agreement in
    place. *)
Theorem lifecycle_keeps_one_active_session trig deviceId db v :
  one_active_session db ->
  in_sync db v ->
  (forall e device endTime,
     View.isStartingSession v = false ->
     find_device deviceId (View.devices v) = Some device ->
     Device.status device = available ->
     scheduled_end e v = Some endTime ->
     Start.device_ok e = true ->
     Start.insert_ok e = true ->
     DB.sessions db !! Start.uuid e = None ->
     one_active_session (startSession trig e deviceId (db, v)).1
     /\ in_sync (startSession trig e deviceId (db, v)).1
                (startSession trig e deviceId (db, v)).2
     /\ Device.status <$> DB.devices (startSession trig e deviceId (db, v)).1 !! deviceId
        = Some occupied
     /\ DB.sessions (startSession trig e deviceId (db, v)).1 !! Start.uuid e
        = Some (new_session e v deviceId device endTime)
     /\ active_on deviceId (new_session e v deviceId device endTime))
  /\ (forall e session device,
        View.isEndingSession v = false ->
        View.activeSessions v !! deviceId = Some session ->
        find_device deviceId (View.devices v) = Some device ->
        End_.session_ok e = true ->
        End_.device_ok e = true ->
        one_active_session (endSession trig e deviceId (db, v)).1
        /\ in_sync (endSession trig e deviceId (db, v)).1
                   (endSession trig e deviceId (db, v)).2
        /\ Device.status <$> DB.devices (endSession trig e deviceId (db, v)).1 !! deviceId
           = Some available
        /\ Session.status <$>
             DB.sessions (endSession trig e deviceId (db, v)).1 !! Session.id session
           = Some completed
        /\ View.activeSessions (endSession trig e deviceId (db, v)).2 !! deviceId
           = None).
Proof.
  intros Hinv Hsync. split.
  - intros e device endTime Hg Hfind Hav Hend Hok1 Hok2 Hfresh.
    destruct (find_device_Some _ _ _ Hfind) as [Hin Hid].
    destruct Hsync as (Hdevs & Hview & Hstored).
    destruct (Hdevs device Hin) as (d0 & Hd0 & Hst0).
    rewrite Hid in Hd0. rewrite Hav in Hst0.
    assert (Device.status d0 <> occupied) as Hfree by (rewrite Hst0; discriminate).
    assert (active_on deviceId (new_session e v deviceId device endTime)) as Hact
      by (split; reflexivity).
    rewrite (startSession_done trig e deviceId db v device d0 endTime) by assumption.
    cbn [fst snd].
    split; [ apply one_active_session_insert; assumption | ].
    split; [ eapply in_sync_insert; try eassumption; try reflexivity;
             repeat split; assumption | ].
    cbn [DB.devices DB.sessions]. rewrite !lookup_insert_eq.
    repeat split; reflexivity.
  - intros e session device Hg Hs Hfind Hok1 Hok2.
    destruct (find_device_Some _ _ _ Hfind) as [Hin Hid].
    pose proof Hsync as (Hdevs & Hview & Hstored).
    destruct (Hview deviceId session Hs) as (row & Hrow & Hact).
    destruct (Hdevs device Hin) as (d0 & Hd0 & _). rewrite Hid in Hd0.
    rewrite (endSession_done trig e deviceId db v session device row)
      by (try assumption; apply Hact).
    cbn [fst snd].
    split; [ eapply one_active_session_complete; try eassumption; reflexivity | ].
    split; [ eapply in_sync_complete; try eassumption; reflexivity | ].
    cbn [DB.devices DB.sessions View.activeSessions].
    rewrite lookup_alter_eq, Hd0, lookup_insert_eq, lookup_delete_eq.
    repeat split; reflexivity.
Qed.

(** ** Concrete runs *)

(** The idle and the busy venue satisfy the invariant, and their
    snapshots agree with storage. *)

Lemma idle_world_consistent :
  one_active_session Scenario.idle_db
  /\ in_sync Scenario.idle_db Scenario.idle_view.
Proof.
  open_world. split.
  - intros k d Hd. apply lookup_singleton_Some in Hd. destruct Hd as [<- <-].
    rewrite decide_False by discriminate.
    intros sid s Hs. rewrite lookup_empty in Hs. discriminate.
  - split; [ | split ].
    + intros d Hd. apply list_elem_of_singleton in Hd. subst d.
      eexists. split; reflexivity.
    + intros k s Hs. rewrite lookup_empty in Hs. discriminate.
    + intros sid s Hs. rewrite lookup_empty in Hs. discriminate.
Qed.

Lemma busy_world_consistent discount :
  one_active_session Scenario.busy_db
  /\ in_sync Scenario.busy_db (Scenario.busy_view discount).
Proof.
  open_world. split.
  - intros k d Hd. apply lookup_singleton_Some in Hd. destruct Hd as [<- <-].
    rewrite decide_True by reflexivity.
    exists "session-1", Scenario.running.
    split; [ reflexivity | ]. split; [ split; reflexivity | ].
    intros sid s Hs _. apply lookup_singleton_Some in Hs. symmetry. apply Hs.
  - split; [ | split ].
    + intros d Hd. apply list_elem_of_singleton in Hd. subst d.
      eexists. split; reflexivity.
    + intros k s Hs. apply lookup_singleton_Some in Hs. destruct Hs as [<- <-].
      exists Scenario.running. split; [ reflexivity | split; reflexivity ].
    + intros sid s Hs _. apply lookup_singleton_Some in Hs. destruct Hs as [<- <-].
      exists Scenario.running. split; reflexivity.
Qed.

(** The busy venue ends its session at a discount of 10%, and the till
    sells one item at 10%. *)
Lemma final_amount_is_unrounded_witness :
  (exists row',
     DB.sessions (endSession false (Scenario.end_env true) "external-1"
                    (Scenario.busy_db, Scenario.busy_view 10)).1
       !! "session-1" = Some row'
     /\ Session.status row' = completed
     /\ up_to_rounding (Session.total_cost row') (Session.final_amount row')
          (Session.total_cost row' * (1 - 10 / 100))
     /\ (10 == 0 -> Session.final_amount row' == Session.total_cost row')
     /\ (10 == 100 -> Session.final_amount row' == 0)
     /\ (0 <= 10 -> 10 <= 100 -> 0 <= Session.total_cost row' ->
         0 <= Session.final_amount row'
         /\ Session.final_amount row' <= Session.total_cost row'))
  /\ Forall (fun sale =>
       up_to_rounding (NewSale.total_price sale) (NewSale.final_amount sale)
         (NewSale.total_price sale * (1 - 10 / 100))
       /\ (10 == 0 -> NewSale.final_amount sale == NewSale.total_price sale)
       /\ (10 == 100 -> NewSale.final_amount sale == 0)
       /\ (0 <= 10 -> 10 <= 100 -> 0 <= NewSale.total_price sale ->
           0 <= NewSale.final_amount sale
           /\ NewSale.final_amount sale <= NewSale.total_price sale))
      (handleCheckout_sales Scenario.cart 10).
Proof.
  apply (final_amount_is_unrounded false (Scenario.end_env true) "external-1"
           Scenario.busy_db (Scenario.busy_view 10) Scenario.running
           (Sample.external_device occupied) Scenario.running Scenario.cart 10);
    reflexivity.
Defined.

(** C5 (counterexample). Ending the 90-minute session with one extra
    controller at a discount of 10% stores 2.63 as total and 2.367 as
    final amount, where rounding to two decimals gives 2.37; a sale of
    0.25 at 10% is recorded with 0.225, not 0.23.  And a session whose
    stored start lies 30 minutes after the moment it is ended gets the
    total -0.87 and, at 10%, the final amount -0.783, which is above the
    total although the discount lies in [0,100]. *)
Lemma final_amount_not_rounded :
  (exists row,
     DB.sessions (endSession false (Scenario.end_env true) "external-1"
                    (Scenario.busy_db, Scenario.busy_view 10)).1
       !! "session-1" = Some row
     /\ Session.status row = completed
     /\ Session.total_cost row == 263 # 100
     /\ Session.final_amount row == 2367 # 1000
     /\ Spec.final_amount (Session.total_cost row) 10 == 237 # 100
     /\ ~ Session.final_amount row == Spec.final_amount (Session.total_cost row) 10)
  /\ (exists sale,
        handleCheckout_sales Scenario.cart 10 = [sale]
        /\ NewSale.total_price sale == 25 # 100
        /\ NewSale.final_amount sale == 225 # 1000
        /\ Spec.final_amount (NewSale.total_price sale) 10 == 23 # 100
        /\ ~ NewSale.final_amount sale
             == Spec.final_amount (NewSale.total_price sale) 10)
  /\ (exists row,
        DB.sessions (endSession false (Scenario.end_env true) "external-1"
                       (Scenario.ahead_db, Scenario.ahead_view 10)).1
          !! "session-1" = Some row
        /\ Session.status row = completed
        /\ Session.total_cost row == - (87 # 100)
        /\ Session.final_amount row == - (783 # 1000)
        /\ ~ Session.final_amount row <= Session.total_cost row).
Proof.
  split; [ | split ].
  - eexists. split; [ vm_compute; reflexivity | ].
    repeat split; try (vm_compute; reflexivity).
    vm_compute. discriminate.
  - eexists. split; [ reflexivity | ].
    repeat split; try (vm_compute; reflexivity).
    vm_compute. discriminate.
  - eexists. split; [ vm_compute; reflexivity | ].
    repeat split; try (vm_compute; reflexivity).
    vm_compute. intros H. apply H. reflexivity.
Qed.

(** At the busy venue a start on the occupied device creates nothing,
    and an end releases the device. *)
Lemma start_rejected_end_releases_witness :
  DB.sessions (startSession false Scenario.start_env "external-1"
                 (Scenario.busy_db, Scenario.busy_view 0)).1
  = DB.sessions Scenario.busy_db
  /\ Device.status <$>
       DB.devices (endSession false (Scenario.end_env true) "external-1"
                     (Scenario.busy_db, Scenario.busy_view 0)).1 !! "external-1"
     = Some available.
Proof.
  split.
  - apply (proj1 (start_rejected_end_releases false "external-1"
                    Scenario.busy_db (Scenario.busy_view 0))
             Scenario.start_env (Sample.external_device occupied));
      [ reflexivity | reflexivity | discriminate ].
  - rewrite (proj1 (proj2 (start_rejected_end_releases false "external-1"
                             Scenario.busy_db (Scenario.busy_view 0))
                      (Scenario.end_env true) Scenario.running
                      (Sample.external_device occupied)
                      eq_refl eq_refl eq_refl eq_refl eq_refl)).
    reflexivity.
Defined.

(** C6 (counterexample). When the request releasing the device fails,
    the session is stored as completed while the device keeps the status
    [occupied]: in storage and in the snapshot without the trigger, in
    the snapshot with it. *)
Lemma release_failure_leaves_device_occupied :
  (let w := endSession false (Scenario.end_env false) "external-1"
              (Scenario.busy_db, Scenario.busy_view 0) in
   Session.status <$> DB.sessions w.1 !! "session-1" = Some completed
   /\ Device.status <$> DB.devices w.1 !! "external-1" = Some occupied
   /\ Device.status <$> View.devices w.2 = [occupied])
  /\ (let w := endSession true (Scenario.end_env false) "external-1"
                 (Scenario.busy_db, Scenario.busy_view 0) in
      Session.status <$> DB.sessions w.1 !! "session-1" = Some completed
      /\ Device.status <$> View.devices w.2 = [occupied]).
Proof. repeat split; vm_compute; reflexivity. Qed.

(** A start at the idle venue and an end at the busy venue. *)
Lemma lifecycle_keeps_one_active_session_witness :
  one_active_session
    (startSession false Scenario.start_env "external-1"
       (Scenario.idle_db, Scenario.idle_view)).1
  /\ one_active_session
       (endSession false (Scenario.end_env true) "external-1"
          (Scenario.busy_db, Scenario.busy_view 0)).1.
Proof.
  split.
  - apply (proj1 (lifecycle_keeps_one_active_session false "external-1"
                    Scenario.idle_db Scenario.idle_view
                    (proj1 idle_world_consistent) (proj2 idle_world_consistent))
             Scenario.start_env (Sample.external_device available) None);
      reflexivity.
  - apply (proj2 (lifecycle_keeps_one_active_session false "external-1"
                    Scenario.busy_db (Scenario.busy_view 0)
                    (proj1 (busy_world_consistent 0))
                    (proj2 (busy_world_consistent 0)))
             (Scenario.end_env true) Scenario.running
             (Sample.external_device occupied));
      reflexivity.
Defined.

(** Two ways to break the invariant: a device with an active session
    that is not occupied or has a second active session, and an occupied
    device without any. *)
Lemma not_one_active_session db deviceId d sid1 s1 :
  DB.devices db !! deviceId = Some d ->
  DB.sessions db !! sid1 = Some s1 ->
  active_on deviceId s1 ->
  (Device.status d <> occupied
   \/ exists sid2 s2, sid2 <> sid1 /\ DB.sessions db !! sid2 = Some s2
                      /\ active_on deviceId s2) ->
  ~ one_active_session db.
Proof.
  intros Hd Hs1 Hact1 Hbad Hinv. specialize (Hinv deviceId d Hd).
  destruct (decide (Device.status d = occupied)) as [Hocc|Hfree].
  - destruct Hbad as [Hbad | (sid2 & s2 & Hne & Hs2 & Hact2)]; [ contradiction | ].
    destruct Hinv as (sid & s & _ & _ & Huniq).
    apply Hne. transitivity sid; [ | symmetry ]; eauto.
  - exact (Hinv sid1 s1 Hs1 Hact1).
Qed.

Lemma not_one_active_session_idle db deviceId d :
  DB.devices db !! deviceId = Some d ->
  Device.status d = occupied ->
  (forall sid s, DB.sessions db !! sid = Some s -> ~ active_on deviceId s) ->
  ~ one_active_session db.
Proof.
  intros Hd Hocc Hnone Hinv. specialize (Hinv deviceId d Hd).
  rewrite decide_True in Hinv by exact Hocc.
  destruct Hinv as (sid & s & Hs & Hact & _). exact (Hnone sid s Hs Hact).
Qed.

(** C8 (counterexample). A start from a snapshot that still lists the
    device as available, while storage holds it occupied with an active
    session, is accepted and leaves two active sessions on the device; an
    end whose second request fails leaves the device occupied without an
    active session; and a start on an available device with the box for
    open-ended sessions unticked and the duration field emptied creates
    no session although every request is answered. *)
Lemma lifecycle_can_break_one_active_session :
  (one_active_session Scenario.busy_db
   /\ find_device "external-1" (View.devices Scenario.idle_view)
      = Some (Sample.external_device available)
   /\ ~ one_active_session
         (startSession false Scenario.start_env "external-1"
            (Scenario.busy_db, Scenario.idle_view)).1)
  /\ (one_active_session Scenario.busy_db
      /\ in_sync Scenario.busy_db (Scenario.busy_view 0)
      /\ ~ one_active_session
            (endSession false (Scenario.end_env false) "external-1"
               (Scenario.busy_db, Scenario.busy_view 0)).1)
  /\ (let w := startSession false Scenario.start_env "external-1"
                 (Scenario.idle_db, Scenario.no_duration) in
      in_sync Scenario.idle_db Scenario.no_duration
      /\ find_device "external-1" (View.devices Scenario.no_duration)
         = Some (Sample.external_device available)
      /\ DB.sessions w.1 = ∅
      /\ View.activeSessions w.2 = ∅
      /\ View.error w.2 = Some err_start).
Proof.
  pose proof (busy_world_consistent 0) as [Hinv Hsync].
  split; [ | split ]; [ split; [ exact Hinv | ] | split; [ exact Hinv | ] | ].
  3: { cbv zeta. split; [ exact (proj2 idle_world_consistent) | ].
       repeat split; reflexivity. }
  - split; [ reflexivity | ].
    eapply (not_one_active_session _ "external-1" _ "session-1" Scenario.running).
    + vm_compute. reflexivity.
    + vm_compute. reflexivity.
    + split; reflexivity.
    + right. exists "session-2". eexists.
      split; [ discriminate | ].
      split; [ vm_compute; reflexivity | split; reflexivity ].
  - split; [ exact Hsync | ].
    eapply (not_one_active_session_idle _ "external-1").
    + vm_compute. reflexivity.
    + reflexivity.
    + intros sid s Hs [_ Hact].
      rewrite (endSession_sessions false (Scenario.end_env false) "external-1"
                 Scenario.busy_db (Scenario.busy_view 0) Scenario.running
                 (Sample.external_device occupied)) in Hs by reflexivity.
      unfold Scenario.busy_db in Hs. cbn [DB.sessions] in Hs.
      destruct (decide (Session.id Scenario.running = sid)) as [<-|Hne].
      * rewrite lookup_alter_eq in Hs.
        change (Session.id Scenario.running) with "session-1" in Hs.
        rewrite lookup_singleton_eq in Hs. injection Hs as <-. discriminate.
      * rewrite lookup_alter_ne in Hs by exact Hne.
        rewrite lookup_singleton_ne in Hs by exact Hne. discriminate.
Qed.

(** The handler of a rejected start sets the stored status to
    [available] all the same: a device that is occupied with an active
    session is afterwards stored as available, its session still active. *)
Lemma rejected_start_releases_device :
  let w := startSession false Scenario.start_env "external-1"
             (Scenario.busy_db, Scenario.busy_view 0) in
  View.error w.2 = Some err_start
  /\ Device.status <$> DB.devices w.1 !! "external-1" = Some available
  /\ Session.status <$> DB.sessions w.1 !! "session-1" = Some active
  /\ ~ one_active_session w.1.
Proof.
  cbv zeta. split; [ reflexivity | ].
  split; [ vm_compute; reflexivity | ].
  split; [ vm_compute; reflexivity | ].
  eapply (not_one_active_session _ "external-1" _ "session-1" Scenario.running).
  - vm_compute. reflexivity.
  - vm_compute. reflexivity.
  - split; reflexivity.
  - left. discriminate.
Qed.

(** ** The cost-update interval *)

(** One pass of the interval over a session with a scheduled end leaves
    its snapshot entry alone or stores the cost of the whole scheduled
    duration, whatever the clock shows. *)
Lemma tick_entry_frozen e deviceId session db v endTime :
  Session.end_time session = Some endTime ->
  View.activeSessions v !! deviceId = Some session ->
  exists s',
    View.activeSessions (tick_entry e deviceId session (db, v)).2 !! deviceId
    = Some s'
    /\ (s' = session
        \/ exists device,
             find_device deviceId (View.devices v) = Some device
             /\ Session.total_cost s'
                = calculateSessionCost (View.isOpenSession v) (View.expiredSessions v)
                    endTime session device).
Proof.
  intros Hend Hs. unfold tick_entry.
  destruct (negb (bool_decide (Session.status session = active)));
    [ eauto | ].
  destruct (find_device deviceId (View.devices v)) as [device|] eqn:Hfind;
    [ | eauto ].
  destruct (expires_now e v session); [ cbn; eauto | ].
  destruct (bool_decide (Session.id session ∈ View.expiredSessions v));
    [ eauto | ].
  destruct (Qeq_bool _ _); [ eauto | ].
  cbn [snd with_activeSessions View.activeSessions].
  rewrite lookup_insert_eq. eexists. split; [ reflexivity | ].
  right. exists device. split; [ reflexivity | ].
  cbn [Session.with_cost Session.total_cost].
  unfold calculateSessionCost.
  rewrite !(effective_end_fixed _ _ _ _ _ Hend). reflexivity.
Qed.

(** Once a session is in [expiredSessions] a pass of the interval changes
    nothing. *)
Lemma tick_entry_expired e deviceId session db v :
  Session.id session ∈ View.expiredSessions v ->
  tick_entry e deviceId session (db, v) = (db, v).
Proof.
  intros Hexp. unfold tick_entry, expires_now.
  rewrite (bool_decide_eq_true_2 _ Hexp).
  destruct (negb (bool_decide (Session.status session = active)));
    [ reflexivity | ].
  destruct (find_device deviceId (View.devices v)); [ | reflexivity ].
  destruct (negb (View.isOpenSession v)), (Session.end_time session);
    cbn [negb]; rewrite ?andb_false_r; reflexivity.
Qed.

(** [endSession] bills up to the moment of the call: a session of 60
    minutes that is ended after 90 minutes is stored with the price of 90
    minutes, 2.25, not with the 1.50 of its scheduled hour. *)
Example endSession_bills_until_now :
  let timed := Sample.timed_session "external-1" 60 in
  let w := endSession false (Scenario.end_env true) "external-1"
             (DB.mk {[ "external-1" := Sample.external_device occupied ]}
                    {[ "session-1" := timed ]},
              View.mk [Sample.external_device occupied]
                {[ "external-1" := timed ]} None None 0 (Some 60%Z) false EmptyString
                None false false {[ "session-1" ]} ∅) in
  exists row, DB.sessions w.1 !! "session-1" = Some row
              /\ Session.total_cost row == 225 # 100.
Proof. cbv zeta. eexists. split; vm_compute; reflexivity. Qed.

(** ** Cost updates leave the sessions of a device alone *)

Lemma one_active_session_alter db (f : Session.t -> Session.t) sid :
  (forall s, Session.device_id (f s) = Session.device_id s
             /\ Session.status (f s) = Session.status s) ->
  one_active_session db ->
  one_active_session (DB.mk (DB.devices db) (alter f sid (DB.sessions db))).
Proof.
  intros Hf Hinv k d Hd. cbn [DB.devices DB.sessions] in *.
  assert (forall s, active_on k (f s) <-> active_on k s) as Hact.
  { intros s. unfold active_on. destruct (Hf s) as [-> ->]. reflexivity. }
  assert (forall sid' s', alter f sid (DB.sessions db) !! sid' = Some s' ->
            active_on k s' ->
            exists s0, DB.sessions db !! sid' = Some s0 /\ active_on k s0) as Hback.
  { intros sid' s' Hs' Ha. rewrite lookup_alter in Hs'.
    destruct (decide (sid = sid')) as [<-|Hne]; [ | eauto ].
    destruct (DB.sessions db !! sid) as [s0|]; [ | discriminate ].
    injection Hs' as <-. exists s0. split; [ reflexivity | apply Hact, Ha ]. }
  specialize (Hinv k d Hd).
  destruct (decide (Device.status d = occupied)).
  - destruct Hinv as (sid0 & s0 & Hs0 & Ha0 & Huniq).
    exists sid0. destruct (decide (sid = sid0)) as [<-|Hne].
    + exists (f s0). rewrite lookup_alter_eq, Hs0.
      split; [ reflexivity | ]. split; [ apply Hact, Ha0 | ].
      intros sid' s' Hs' Ha. destruct (Hback sid' s' Hs' Ha) as (s1 & Hs1 & Ha1).
      eauto.
    + exists s0. rewrite lookup_alter_ne by exact Hne.
      split; [ exact Hs0 | ]. split; [ exact Ha0 | ].
      intros sid' s' Hs' Ha. destruct (Hback sid' s' Hs' Ha) as (s1 & Hs1 & Ha1).
      eauto.
  - intros sid' s' Hs' Ha. destruct (Hback sid' s' Hs' Ha) as (s1 & Hs1 & Ha1).
    exact (Hinv sid' s1 Hs1 Ha1).
Qed.

(** A pass of the interval and a change of the controller count keep
    every device's status and every session's device and status: the
    invariant on storage is untouched. *)
Lemma cost_updates_keep_one_active_session db v deviceId session :
  one_active_session db ->
  (forall e, one_active_session (tick_entry e deviceId session (db, v)).1)
  /\ (forall clock ok increment,
        one_active_session
          (updateExtraControllers clock ok deviceId increment (db, v)).1).
Proof.
  intros Hinv. split.
  - intros e. unfold tick_entry.
    destruct (negb (bool_decide (Session.status session = active)));
      [ exact Hinv | ].
    destruct (find_device deviceId (View.devices v)); [ | exact Hinv ].
    destruct (expires_now e v session); [ exact Hinv | ].
    destruct (bool_decide (Session.id session ∈ View.expiredSessions v));
      [ exact Hinv | ].
    destruct (Qeq_bool _ _); [ exact Hinv | ].
    cbn [fst]. destruct (Tick.update_ok e); [ | exact Hinv ].
    apply one_active_session_alter; [ | exact Hinv ].
    intros s. split; reflexivity.
  - intros clock ok increment. unfold updateExtraControllers.
    destruct (View.activeSessions v !! deviceId) as [s|]; [ | exact Hinv ].
    destruct (find_device deviceId (View.devices v)); [ | exact Hinv ].
    destruct (bool_decide (Session.id s ∈ View.expiredSessions v));
      [ exact Hinv | ].
    destruct ok; cbn [negb fst]; [ | exact Hinv ].
    apply one_active_session_alter; [ | exact Hinv ].
    intros s0. split; reflexivity.
Qed.

(** With the trigger installed the stored device is released as soon as
    the request completing the session is answered. *)
Lemma trigger_releases_device e deviceId db v session device row :
  View.isEndingSession v = false ->
  View.activeSessions v !! deviceId = Some session ->
  find_device deviceId (View.devices v) = Some device ->
  End_.session_ok e = true ->
  DB.sessions db !! Session.id session = Some row ->
  Session.device_id row = deviceId ->
  DB.devices (endSession true e deviceId (db, v)).1 !! deviceId
  = Device.with_status available <$> DB.devices db !! deviceId.
Proof.
  intros Hg Hs Hfind Hok Hrow Hdid. unfold endSession.
  rewrite Hg, Hs, Hfind.
  destruct (endSession_amounts e v session device) as [[t da] f].
  rewrite Hok. cbn [negb].
  assert (DB.devices
            (DB.complete_session true (Session.id session) (End_.endTime e)
               t da f db) !! deviceId
          = Device.with_status available <$> DB.devices db !! deviceId) as Hdev.
  { unfold DB.complete_session. rewrite Hrow.
    unfold DB.fire, DB.update_device_status.
    rewrite decide_True by reflexivity.
    change (Session.device_id (DB.complete (End_.endTime e) t da f row))
      with (Session.device_id row).
    rewrite Hdid. unfold DB.set_device_status. cbn [DB.devices].
    apply lookup_alter_eq. }
  destruct (End_.device_ok e); cbn [negb fst endSession_failed].
  - unfold DB.set_device_status at 1. cbn [DB.devices].
    rewrite lookup_alter_eq. apply devices_complete_session.
  - exact Hdev.
Qed.
(** * Further properties *)

(** ** The cost calculator *)

(** X3. An extra controller never lowers the cost: for a controller rate
    that is not negative and an interval that does not end before it
    starts, the cost grows with the number of extra controllers. *)
Theorem more_controllers_cost_more isOpenSession expired now s d (n1 n2 : Z) :
  (forall start, Session.start_time s = Some start ->
     (start <= effective_end isOpenSession expired now s)%Z) ->
  0 <= Device.extra_controller_rate d ->
  (n1 <= n2)%Z ->
  calculateSessionCost isOpenSession expired now
    (Session.with_extra_controllers n1 s) d
  <= calculateSessionCost isOpenSession expired now
       (Session.with_extra_controllers n2 s) d.
Proof.
  intros Hstart Hr Hn.
  destruct (Session.start_time s) as [start|] eqn:Hs;
    [ | unfold calculateSessionCost; cbn; rewrite Hs; apply Qle_refl ].
  specialize (Hstart start eq_refl).
  assert (forall n, Session.start_time (Session.with_extra_controllers n s)
                    = Some start) as Hs' by (intros n; exact Hs).
  rewrite !(calculateSessionCost_unfold _ _ _ _ _ _ (Hs' _)).
  change (effective_end isOpenSession expired now
            (Session.with_extra_controllers n1 s))
    with (effective_end isOpenSession expired now s).
  change (effective_end isOpenSession expired now
            (Session.with_extra_controllers n2 s))
    with (effective_end isOpenSession expired now s).
  set (m := inject_Z (effective_end isOpenSession expired now s - start) / 60000).
  assert (0 <= m) as Hm by (apply minutes_nonneg, Hstart).
  apply round_cents_mono. unfold raw_cost, extraControllersCost.
  cbn [Session.with_extra_controllers Session.extra_controllers].
  assert (0 <= Device.extra_controller_rate d * (m / 60)) as Hx.
  { apply Qmult_le_0_compat; [ exact Hr | ].
    apply Qmult_le_0_compat; [ exact Hm | discriminate ]. }
  assert (inject_Z n1 <= inject_Z n2) as Hn' by (rewrite <- Zle_Qle; exact Hn).
  assert (inject_Z n1 * (Device.extra_controller_rate d * (m / 60))
          <= inject_Z n2 * (Device.extra_controller_rate d * (m / 60)))
    by (apply Qmult_le_compat_r; assumption).
  lra.
Qed.

Lemma more_controllers_cost_more_witness :
  calculateSessionCost true ∅ (Sample.minutes 90)
    (Session.with_extra_controllers 1 (Sample.open_session "external-1" 0))
    (Sample.external_device occupied)
  <= calculateSessionCost true ∅ (Sample.minutes 90)
       (Session.with_extra_controllers 2 (Sample.open_session "external-1" 0))
       (Sample.external_device occupied).
Proof.
  apply more_controllers_cost_more;
    [ intros start [= <-]; vm_compute; discriminate
    | discriminate | lia ].
Defined.

(** ** Loading the snapshot *)

Lemma elem_of_query_devices db d :
  d ∈ Query.devices db <-> exists k, DB.devices db !! k = Some d.
Proof.
  unfold Query.devices. rewrite list_elem_of_fmap. split.
  - intros ([k d'] & -> & Hin). exists k. apply elem_of_map_to_list, Hin.
  - intros (k & Hk). exists (k, d). split; [ reflexivity | ].
    apply elem_of_map_to_list, Hk.
Qed.

Lemma elem_of_query_active_sessions db s :
  s ∈ Query.active_sessions db
  <-> Session.status s = active /\ exists sid, DB.sessions db !! sid = Some s.
Proof.
  unfold Query.active_sessions. rewrite list_elem_of_filter, list_elem_of_fmap.
  split; intros [Hact Hin]; (split; [ exact Hact | ]).
  - destruct Hin as ([sid s'] & -> & Hin). exists sid.
    apply elem_of_map_to_list, Hin.
  - destruct Hin as (sid & Hsid). exists (sid, s). split; [ reflexivity | ].
    apply elem_of_map_to_list, Hsid.
Qed.

Lemma sessions_by_device_snoc data s :
  sessions_by_device (data ++ [s])
  = <[Session.device_id s := s]> (sessions_by_device data).
Proof. unfold sessions_by_device. rewrite fold_left_app. reflexivity. Qed.

(** An entry of the map built by [fetchActiveSessions] is a returned row,
    filed under its device. *)
Lemma sessions_by_device_Some data k s :
  sessions_by_device data !! k = Some s ->
  s ∈ data /\ Session.device_id s = k.
Proof.
  induction data as [|x data IH] using rev_ind.
  - unfold sessions_by_device. simpl. rewrite lookup_empty. discriminate.
  - rewrite sessions_by_device_snoc, elem_of_app, list_elem_of_singleton.
    destruct (decide (Session.device_id x = k)) as [<-|Hne].
    + rewrite lookup_insert_eq. intros [= <-]. auto.
    + rewrite lookup_insert_ne by exact Hne. intros H.
      destruct (IH H). auto.
Qed.

(** A returned row is found under its device when no other returned row
    is on the same device. *)
Lemma sessions_by_device_lookup data s :
  s ∈ data ->
  (forall s', s' ∈ data -> Session.device_id s' = Session.device_id s -> s' = s) ->
  sessions_by_device data !! Session.device_id s = Some s.
Proof.
  induction data as [|x data IH] using rev_ind.
  - intros H. inversion H.
  - rewrite sessions_by_device_snoc. intros Hin Huniq.
    destruct (decide (Session.device_id x = Session.device_id s)) as [Heq|Hne].
    + rewrite Heq, lookup_insert_eq. f_equal. apply Huniq; [ | exact Heq ].
      apply elem_of_app. right. apply list_elem_of_singleton. reflexivity.
    + rewrite lookup_insert_ne by exact Hne.
      apply elem_of_app in Hin. destruct Hin as [Hin|Hin].
      * apply IH; [ exact Hin | ]. intros s' Hs'. apply Huniq.
        apply elem_of_app. left. exact Hs'.
      * apply list_elem_of_singleton in Hin. subst. contradiction.
Qed.

(** X4. Loading a snapshot from storage that is well keyed and has one
    active session per occupied device gives a snapshot that agrees with
    storage, in whatever order the rows are returned. *)
Theorem loadInitialData_in_sync db v devices sessions :
  well_keyed db ->
  one_active_session db ->
  devices ≡ₚ Query.devices db ->
  sessions ≡ₚ Query.active_sessions db ->
  in_sync db (loadInitialData (Some devices) (Some sessions) v)
  /\ View.error (loadInitialData (Some devices) (Some sessions) v) = None.
Proof.
  intros (Hdk & Hsk & Hfk) Hinv Hdevs Hsess. split; [ | reflexivity ].
  unfold in_sync, loadInitialData. cbn.
  assert (forall s, s ∈ sessions ->
            Session.status s = active /\ DB.sessions db !! Session.id s = Some s)
    as Hrow.
  { intros s Hs. rewrite Hsess in Hs.
    apply elem_of_query_active_sessions in Hs. destruct Hs as [Hact (sid & Hsid)].
    split; [ exact Hact | ]. rewrite (Hsk _ _ Hsid). exact Hsid. }
  split; [ | split ].
  - intros d Hd. rewrite Hdevs in Hd. apply elem_of_query_devices in Hd.
    destruct Hd as (k & Hk). exists d. rewrite (Hdk _ _ Hk). auto.
  - intros k s Hs. apply sessions_by_device_Some in Hs. destruct Hs as [Hin Hk].
    destruct (Hrow s Hin) as [Hact Hsid]. exists s. repeat split; assumption.
  - intros sid s' Hs' Hact. exists s'. split; [ | apply (Hsk _ _ Hs') ].
    apply sessions_by_device_lookup.
    + rewrite Hsess. apply elem_of_query_active_sessions. eauto.
    + intros s'' Hin Hdev. destruct (Hrow s'' Hin) as [Hact'' Hsid''].
      destruct (Hfk _ _ Hs') as [d Hd]. specialize (Hinv _ _ Hd).
      destruct (decide (Device.status d = occupied)).
      * destruct Hinv as (sid0 & s0 & _ & _ & Huniq).
        assert (Session.id s'' = sid0) as H1
          by (apply (Huniq _ s''); [ exact Hsid'' | split; assumption ]).
        assert (sid = sid0) as H2
          by (apply (Huniq _ s'); [ exact Hs' | split; [ reflexivity | assumption ] ]).
        rewrite H1, <- H2, Hs' in Hsid''. congruence.
      * exfalso. apply (Hinv sid s' Hs'). split; [ reflexivity | exact Hact ].
Qed.

Lemma busy_db_well_keyed : well_keyed Scenario.busy_db.
Proof.
  unfold well_keyed, Scenario.busy_db. cbn [DB.devices DB.sessions].
  split; [ | split ].
  - intros k d Hd. apply lookup_singleton_Some in Hd. destruct Hd as [<- <-].
    reflexivity.
  - intros sid s Hs. apply lookup_singleton_Some in Hs. destruct Hs as [<- <-].
    reflexivity.
  - intros sid s Hs. apply lookup_singleton_Some in Hs. destruct Hs as [<- <-].
    eexists. reflexivity.
Qed.

(** The busy venue is loaded into an empty page. *)
Lemma loadInitialData_in_sync_witness :
  in_sync Scenario.busy_db
    (loadInitialData (Some [Sample.external_device occupied])
       (Some [Scenario.running]) Scenario.idle_view)
  /\ View.error
       (loadInitialData (Some [Sample.external_device occupied])
          (Some [Scenario.running]) Scenario.idle_view) = None.
Proof.
  apply (loadInitialData_in_sync Scenario.busy_db Scenario.idle_view
           [Sample.external_device occupied] [Scenario.running]
           busy_db_well_keyed (proj1 (busy_world_consistent 0))).
  - unfold Query.devices, Scenario.busy_db. cbn [DB.devices].
    rewrite map_to_list_singleton. reflexivity.
  - unfold Query.active_sessions, Scenario.busy_db. cbn [DB.sessions].
    rewrite map_to_list_singleton. reflexivity.
Defined.

(** X5. [fetchActiveSessions] files under each device the last returned
    row of that device: of two active rows on one device only the later
    one reaches the page. *)
Theorem sessions_by_device_last_wins data k :
  sessions_by_device data !! k
  = last (filter (fun s => Session.device_id s = k) data).
Proof.
  induction data as [|x data IH] using rev_ind.
  - reflexivity.
  - rewrite sessions_by_device_snoc, filter_app, filter_cons, filter_nil.
    destruct (decide (Session.device_id x = k)) as [<-|Hne].
    + rewrite lookup_insert_eq, last_snoc. reflexivity.
    + rewrite lookup_insert_ne by exact Hne. rewrite app_nil_r. exact IH.
Qed.

(** ** A session from start to end *)

Lemma find_device_mark_device deviceId st devices :
  find_device deviceId (mark_device deviceId st devices)
  = Device.with_status st <$> find_device deviceId devices.
Proof.
  unfold find_device, mark_device.
  induction devices as [|d l IH]; [ reflexivity | ].
  cbn [List.map List.find].
  destruct (bool_decide (Device.id d = deviceId)) eqn:Hd.
  - cbn [Device.with_status Device.id]. rewrite Hd. reflexivity.
  - rewrite Hd. exact IH.
Qed.

Lemma mark_device_undo deviceId st st' devices :
  (forall d, d ∈ devices -> Device.id d = deviceId -> Device.status d = st) ->
  mark_device deviceId st (mark_device deviceId st' devices) = devices.
Proof.
  unfold mark_device. induction devices as [|d l IH]; intros H; [ reflexivity | ].
  cbn [List.map]. f_equal.
  - destruct (bool_decide (Device.id d = deviceId)) eqn:Hd.
    + cbn [Device.with_status Device.id]. rewrite Hd.
      apply bool_decide_eq_true_1 in Hd.
      assert (Device.status d = st) as Hst by (apply H; [ left | exact Hd ]).
      destruct d; cbn in *. subst. reflexivity.
    + rewrite Hd. reflexivity.
  - apply IH. intros d' Hd'. apply H. right. exact Hd'.
Qed.

(** X6. A session that is started on an available device, open-ended or
    with a duration that gives a valid end date, and then ended, with
    every request answered, leaves the devices as they were, in storage
    and on the page, and the page without the session; storage gains one
    completed row that runs from the start to the end. *)
Theorem start_then_end_restores trig deviceId db v e1 e2 device endTime :
  one_active_session db ->
  in_sync db v ->
  View.isStartingSession v = false ->
  View.isEndingSession v = false ->
  find_device deviceId (View.devices v) = Some device ->
  Device.status device = available ->
  scheduled_end e1 v = Some endTime ->
  Start.device_ok e1 = true ->
  Start.insert_ok e1 = true ->
  DB.sessions db !! Start.uuid e1 = None ->
  End_.session_ok e2 = true ->
  End_.device_ok e2 = true ->
  DB.devices (endSession trig e2 deviceId (startSession trig e1 deviceId (db, v))).1
  = DB.devices db
  /\ View.devices (endSession trig e2 deviceId (startSession trig e1 deviceId (db, v))).2
     = View.devices v
  /\ View.activeSessions
       (endSession trig e2 deviceId (startSession trig e1 deviceId (db, v))).2
     = View.activeSessions v
  /\ exists row,
       DB.sessions (endSession trig e2 deviceId (startSession trig e1 deviceId (db, v))).1
       = <[Start.uuid e1 := row]> (DB.sessions db)
       /\ Session.status row = completed
       /\ Session.device_id row = deviceId
       /\ Session.start_time row = Some (Start.startTime e1)
       /\ Session.end_time row = Some (End_.endTime e2).
Proof.
  intros Hinv Hsync Hg1 Hg2 Hfind Hav Hend Hok1 Hok2 Hfresh Hok3 Hok4.
  destruct (find_device_Some _ _ _ Hfind) as [Hin Hid].
  pose proof Hsync as (Hdevs & Hview & Hstored).
  destruct (Hdevs device Hin) as (d0 & Hd0 & Hst0).
  rewrite Hid in Hd0. rewrite Hav in Hst0.
  rewrite (startSession_done trig e1 deviceId db v device d0 endTime) by assumption.
  set (new := new_session e1 v deviceId device endTime).
  erewrite (endSession_done trig e2 deviceId _ _ new
              (Device.with_status occupied device) new).
  2: exact Hg2.
  2: cbn [View.activeSessions]; apply lookup_insert_eq.
  2: cbn [View.devices]; rewrite find_device_mark_device, Hfind; reflexivity.
  2: exact Hok3.
  2: exact Hok4.
  2: cbn [DB.sessions]; apply lookup_insert_eq.
  2: reflexivity.
  cbn [fst snd DB.devices DB.sessions View.devices View.activeSessions].
  split; [ | split; [ | split ] ].
  - apply map_eq. intros k. destruct (decide (deviceId = k)) as [<-|Hne].
    + rewrite lookup_alter_eq, lookup_insert_eq, Hd0. cbn. f_equal.
      rewrite <- Hst0. destruct d0. reflexivity.
    + rewrite lookup_alter_ne, lookup_insert_ne by exact Hne. reflexivity.
  - apply mark_device_undo. intros d Hd Hk.
    destruct (Hdevs d Hd) as (d' & Hd' & Hst'). rewrite Hk, Hd0 in Hd'.
    injection Hd' as <-. congruence.
  - rewrite delete_insert_eq. apply delete_id.
    destruct (View.activeSessions v !! deviceId) as [s|] eqn:Hs; [ exfalso | reflexivity ].
    destruct (Hview deviceId s Hs) as (s' & Hs' & Hact).
    specialize (Hinv deviceId d0 Hd0).
    rewrite decide_False in Hinv by (rewrite Hst0; discriminate).
    exact (Hinv _ _ Hs' Hact).
  - eexists. split; [ apply insert_insert_eq | ].
    repeat split; reflexivity.
Qed.

(** A start at time 0 at the idle venue, ended after 90 minutes. *)
Lemma start_then_end_restores_witness :
  let w := endSession false (Scenario.end_env true) "external-1"
             (startSession false Scenario.start_env "external-1"
                (Scenario.idle_db, Scenario.idle_view)) in
  DB.devices w.1 = DB.devices Scenario.idle_db
  /\ View.devices w.2 = View.devices Scenario.idle_view
  /\ View.activeSessions w.2 = View.activeSessions Scenario.idle_view
  /\ exists row,
       DB.sessions w.1 = <[ "session-2" := row ]> (DB.sessions Scenario.idle_db)
       /\ Session.status row = completed
       /\ Session.device_id row = "external-1"
       /\ Session.start_time row = Some 0%Z
       /\ Session.end_time row = Some (Sample.minutes 90).
Proof.
  apply (start_then_end_restores false "external-1" Scenario.idle_db
           Scenario.idle_view Scenario.start_env (Scenario.end_env true)
           (Sample.external_device available) None
           (proj1 idle_world_consistent) (proj2 idle_world_consistent));
    reflexivity.
Defined.

(** A start that gets as far as marking the device occupied and then
    fails, on an invalid end date or on the insert, ends in the handler. *)
Lemma startSession_handled trig e deviceId db v device :
  View.isStartingSession v = false ->
  find_device deviceId (View.devices v) = Some device ->
  Device.status device = available ->
  Start.device_ok e = true ->
  scheduled_end e v = None \/ Start.insert_ok e = false ->
  startSession trig e deviceId (db, v)
  = startSession_failed e deviceId (DB.set_device_status deviceId occupied db) v.
Proof.
  intros Hg Hfind Hav Hok Hfails. unfold startSession.
  rewrite Hg, Hfind, Hav, Hok.
  rewrite bool_decide_eq_true_2 by reflexivity. cbn [negb].
  destruct (scheduled_end e v) as [endTime|]; [ | reflexivity ].
  destruct Hfails as [Hfails | ->]; [ discriminate | reflexivity ].
Qed.

(** A start on an available device with the box for open-ended sessions
    unticked and a duration that is not a number, or that leads past the
    last valid date, creates no session although every request is
    answered: the device is marked occupied, the end date cannot be
    written out, and the handler shows the error and releases the
    device. *)
Lemma start_with_invalid_duration_creates_no_session trig e deviceId db v device :
  in_sync db v ->
  View.isStartingSession v = false ->
  find_device deviceId (View.devices v) = Some device ->
  Device.status device = available ->
  View.isOpenSession v = false ->
  (View.sessionDuration v = None
   \/ exists d, View.sessionDuration v = Some d
                /\ JS.valid_time (Start.startTime e + d * 60 * 1000) = false) ->
  Start.device_ok e = true ->
  Start.revert_ok e = true ->
  (startSession trig e deviceId (db, v)).1 = db
  /\ View.activeSessions (startSession trig e deviceId (db, v)).2
     = View.activeSessions v
  /\ View.error (startSession trig e deviceId (db, v)).2 = Some err_start.
Proof.
  intros (Hdevs & _ & _) Hg Hfind Hav Hbox Hbad Hok Hrev.
  destruct (find_device_Some _ _ _ Hfind) as [Hin Hid].
  destruct (Hdevs device Hin) as (d0 & Hd0 & Hst0).
  rewrite Hid in Hd0. rewrite Hav in Hst0.
  rewrite (startSession_handled trig e deviceId db v device); try assumption.
  - unfold startSession_failed. rewrite Hrev. cbn [fst snd View.activeSessions View.error].
    split; [ | split; reflexivity ].
    destruct db as [devices sessions]. unfold DB.set_device_status.
    cbn [DB.devices DB.sessions] in *. f_equal.
    apply map_eq. intros k. destruct (decide (deviceId = k)) as [<-|Hne].
    + rewrite !lookup_alter_eq, Hd0. cbn. f_equal.
      rewrite <- Hst0. destruct d0. reflexivity.
    + rewrite !lookup_alter_ne by exact Hne. reflexivity.
  - left. unfold scheduled_end. rewrite Hbox.
    destruct Hbad as [-> | (d & -> & Hd)]; [ reflexivity | ].
    cbv zeta. rewrite Hd. reflexivity.
Qed.

(** X7. When the request that inserts the session fails after the device
    was marked occupied, the page shows the error and keeps its devices
    and sessions, and no session is stored; the device is released again
    when the compensating request is answered, and is left occupied in
    storage when it is not. *)
Theorem failed_insert_is_compensated trig deviceId db v e device :
  in_sync db v ->
  View.isStartingSession v = false ->
  find_device deviceId (View.devices v) = Some device ->
  Device.status device = available ->
  Start.device_ok e = true ->
  Start.insert_ok e = false ->
  DB.sessions (startSession trig e deviceId (db, v)).1 = DB.sessions db
  /\ View.devices (startSession trig e deviceId (db, v)).2 = View.devices v
  /\ View.activeSessions (startSession trig e deviceId (db, v)).2
     = View.activeSessions v
  /\ View.error (startSession trig e deviceId (db, v)).2 = Some err_start
  /\ (Start.revert_ok e = true ->
      DB.devices (startSession trig e deviceId (db, v)).1 = DB.devices db)
  /\ (Start.revert_ok e = false ->
      Device.status <$> DB.devices (startSession trig e deviceId (db, v)).1 !! deviceId
      = Some occupied).
Proof.
  intros (Hdevs & _ & _) Hg Hfind Hav Hok1 Hok2.
  destruct (find_device_Some _ _ _ Hfind) as [Hin Hid].
  destruct (Hdevs device Hin) as (d0 & Hd0 & Hst0).
  rewrite Hid in Hd0. rewrite Hav in Hst0.
  rewrite (startSession_handled trig e deviceId db v device)
    by (try assumption; right; exact Hok2).
  unfold startSession_failed.
  cbn [fst snd View.devices View.activeSessions View.error].
  split; [ destruct (Start.revert_ok e); reflexivity | ].
  split; [ reflexivity | ]. split; [ reflexivity | ]. split; [ reflexivity | ].
  split; intros ->.
  - unfold DB.set_device_status. cbn [DB.devices].
    apply map_eq. intros k. destruct (decide (deviceId = k)) as [<-|Hne].
    + rewrite !lookup_alter_eq, Hd0. cbn. f_equal.
      rewrite <- Hst0. destruct d0. reflexivity.
    + rewrite !lookup_alter_ne by exact Hne. reflexivity.
  - unfold DB.set_device_status. cbn [DB.devices].
    rewrite lookup_alter_eq, Hd0. reflexivity.
Qed.

(** A start at the idle venue whose insert fails; the compensating
    request is answered. *)
Lemma failed_insert_is_compensated_witness :
  let e := Start.mk 0 0 "session-2" 0 true false true in
  let w := startSession false e "external-1" (Scenario.idle_db, Scenario.idle_view) in
  DB.sessions w.1 = DB.sessions Scenario.idle_db
  /\ View.devices w.2 = View.devices Scenario.idle_view
  /\ View.activeSessions w.2 = View.activeSessions Scenario.idle_view
  /\ View.error w.2 = Some err_start
  /\ (true = true -> DB.devices w.1 = DB.devices Scenario.idle_db)
  /\ (true = false ->
      Device.status <$> DB.devices w.1 !! "external-1" = Some occupied).
Proof.
  apply (failed_insert_is_compensated false "external-1" Scenario.idle_db
           Scenario.idle_view (Start.mk 0 0 "session-2" 0 true false true)
           (Sample.external_device available) (proj2 idle_world_consistent));
    reflexivity.
Defined.

(** ** What the operations leave alone *)

Lemma rate_card_set_device_status deviceId st db k :
  rate_card <$> DB.devices (DB.set_device_status deviceId st db) !! k
  = rate_card <$> DB.devices db !! k.
Proof.
  unfold DB.set_device_status. cbn [DB.devices].
  destruct (decide (deviceId = k)) as [<-|Hne].
  - rewrite lookup_alter_eq. destruct (DB.devices db !! deviceId); reflexivity.
  - rewrite lookup_alter_ne by exact Hne. reflexivity.
Qed.

Lemma rate_card_fire trig inserted new db k :
  rate_card <$> DB.devices (DB.fire trig inserted new db) !! k
  = rate_card <$> DB.devices db !! k.
Proof.
  unfold DB.fire, DB.update_device_status.
  destruct trig; [ | reflexivity ].
  destruct inserted; [ apply rate_card_set_device_status | ].
  destruct (decide _); [ apply rate_card_set_device_status | reflexivity ].
Qed.

Lemma rate_card_insert_session trig row db r db' k :
  DB.insert_session trig row db = Some (r, db') ->
  rate_card <$> DB.devices db' !! k = rate_card <$> DB.devices db !! k.
Proof.
  unfold DB.insert_session.
  destruct (DB.sessions db !! Session.id row); [ discriminate | ].
  destruct (DB.devices db !! Session.device_id row); [ | discriminate ].
  intros [= _ <-]. rewrite rate_card_fire. reflexivity.
Qed.

Lemma rate_card_complete_session trig sid endTime t da f db k :
  rate_card <$> DB.devices (DB.complete_session trig sid endTime t da f db) !! k
  = rate_card <$> DB.devices db !! k.
Proof.
  unfold DB.complete_session.
  destruct (DB.sessions db !! sid); [ | reflexivity ].
  rewrite rate_card_fire. reflexivity.
Qed.

Lemma rate_card_startSession trig e deviceId db v k :
  rate_card <$> DB.devices (startSession trig e deviceId (db, v)).1 !! k
  = rate_card <$> DB.devices db !! k.
Proof.
  assert (forall db0,
            rate_card <$> DB.devices db0 !! k = rate_card <$> DB.devices db !! k ->
            rate_card <$> DB.devices (startSession_failed e deviceId db0 v).1 !! k
            = rate_card <$> DB.devices db !! k) as Hfail.
  { intros db0 H0. unfold startSession_failed. cbn [fst].
    destruct (Start.revert_ok e); [ | exact H0 ].
    rewrite rate_card_set_device_status. exact H0. }
  unfold startSession.
  destruct (View.isStartingSession v); [ reflexivity | ].
  destruct (find_device deviceId (View.devices v)) as [device|];
    [ | apply Hfail; reflexivity ].
  destruct (negb (bool_decide (Device.status device = available)));
    [ apply Hfail; reflexivity | ].
  destruct (negb (Start.device_ok e)); [ apply Hfail; reflexivity | ].
  destruct (scheduled_end e v) as [endTime|];
    [ | apply Hfail, rate_card_set_device_status ].
  destruct (Start.insert_ok e).
  - destruct (DB.insert_session _ _ _) as [[r db2]|] eqn:Hins.
    + cbn [fst]. rewrite (rate_card_insert_session _ _ _ _ _ k Hins).
      apply rate_card_set_device_status.
    + apply Hfail, rate_card_set_device_status.
  - apply Hfail, rate_card_set_device_status.
Qed.

Lemma rate_card_endSession trig e deviceId db v k :
  rate_card <$> DB.devices (endSession trig e deviceId (db, v)).1 !! k
  = rate_card <$> DB.devices db !! k.
Proof.
  unfold endSession.
  destruct (View.isEndingSession v); [ reflexivity | ].
  destruct (View.activeSessions v !! deviceId) as [session|]; [ | reflexivity ].
  destruct (find_device deviceId (View.devices v)) as [device|]; [ | reflexivity ].
  destruct (endSession_amounts e v session device) as [[t da] f].
  destruct (negb (End_.session_ok e)); [ reflexivity | ].
  destruct (negb (End_.device_ok e)); cbn [fst endSession_failed].
  - apply rate_card_complete_session.
  - rewrite rate_card_set_device_status. apply rate_card_complete_session.
Qed.

Lemma devices_updateExtraControllers clock ok deviceId increment db v :
  DB.devices (updateExtraControllers clock ok deviceId increment (db, v)).1
  = DB.devices db.
Proof.
  unfold updateExtraControllers.
  destruct (View.activeSessions v !! deviceId) as [session|]; [ | reflexivity ].
  destruct (find_device deviceId (View.devices v)) as [device|]; [ | reflexivity ].
  destruct (bool_decide _); [ reflexivity | ].
  destruct (negb ok); reflexivity.
Qed.

Lemma devices_tick_entry e deviceId session db v :
  DB.devices (tick_entry e deviceId session (db, v)).1 = DB.devices db.
Proof.
  unfold tick_entry.
  destruct (negb _); [ reflexivity | ].
  destruct (find_device deviceId (View.devices v)) as [device|]; [ | reflexivity ].
  destruct (expires_now e v session); [ reflexivity | ].
  destruct (bool_decide _); [ reflexivity | ].
  destruct (Qeq_bool _ _); [ reflexivity | ].
  cbn [fst]. destruct (Tick.update_ok e); reflexivity.
Qed.

(** X8. Whatever the page does to a session, and whichever requests
    fail, no device row is created or deleted and no device column other
    than [status] changes; the cost updates do not touch the devices at
    all. *)
Theorem devices_only_change_status trig deviceId db v k :
  (forall e,
     rate_card <$> DB.devices (startSession trig e deviceId (db, v)).1 !! k
     = rate_card <$> DB.devices db !! k)
  /\ (forall e,
        rate_card <$> DB.devices (endSession trig e deviceId (db, v)).1 !! k
        = rate_card <$> DB.devices db !! k)
  /\ (forall clock ok increment,
        DB.devices (updateExtraControllers clock ok deviceId increment (db, v)).1
        = DB.devices db)
  /\ (forall e session,
        DB.devices (tick_entry e deviceId session (db, v)).1 = DB.devices db).
Proof.
  split; [ intros e; apply rate_card_startSession | ].
  split; [ intros e; apply rate_card_endSession | ].
  split; [ intros; apply devices_updateExtraControllers | ].
  intros; apply devices_tick_entry.
Qed.

Lemma same_booking_refl s : same_booking s s.
Proof. repeat split. Qed.

Lemma same_booking_alter (f : Session.t -> Session.t) sid (m : gmap string Session.t) k s :
  (forall x, same_booking x (f x)) ->
  m !! k = Some s ->
  exists s', alter f sid m !! k = Some s' /\ same_booking s s'.
Proof.
  intros Hf Hs. destruct (decide (sid = k)) as [<-|Hne].
  - rewrite lookup_alter_eq, Hs. eexists. split; [ reflexivity | apply Hf ].
  - rewrite lookup_alter_ne by exact Hne. eauto using same_booking_refl.
Qed.

Lemma sessions_startSession_failed e deviceId db v :
  DB.sessions (startSession_failed e deviceId db v).1 = DB.sessions db.
Proof. unfold startSession_failed. destruct (Start.revert_ok e); reflexivity. Qed.

(** X9. No operation of the page deletes a stored session or changes
    who plays where and since when, whichever requests fail; a start
    leaves every stored session exactly as it was. *)
Theorem sessions_are_never_deleted trig deviceId db v sid s :
  DB.sessions db !! sid = Some s ->
  (forall e, DB.sessions (startSession trig e deviceId (db, v)).1 !! sid = Some s)
  /\ (forall e, exists s',
        DB.sessions (endSession trig e deviceId (db, v)).1 !! sid = Some s'
        /\ same_booking s s')
  /\ (forall clock ok increment, exists s',
        DB.sessions (updateExtraControllers clock ok deviceId increment (db, v)).1 !! sid
        = Some s'
        /\ same_booking s s' /\ Session.status s' = Session.status s)
  /\ (forall e session, exists s',
        DB.sessions (tick_entry e deviceId session (db, v)).1 !! sid = Some s'
        /\ same_booking s s' /\ Session.status s' = Session.status s
        /\ Session.extra_controllers s' = Session.extra_controllers s).
Proof.
  intros Hs. split; [ | split; [ | split ] ].
  - intros e. unfold startSession.
    destruct (View.isStartingSession v); [ exact Hs | ].
    destruct (find_device deviceId (View.devices v)) as [device|];
      [ | rewrite sessions_startSession_failed; exact Hs ].
    destruct (negb (bool_decide (Device.status device = available)));
      [ rewrite sessions_startSession_failed; exact Hs | ].
    destruct (negb (Start.device_ok e));
      [ rewrite sessions_startSession_failed; exact Hs | ].
    destruct (scheduled_end e v) as [endTime|];
      [ | rewrite sessions_startSession_failed; exact Hs ].
    destruct (Start.insert_ok e);
      [ | rewrite sessions_startSession_failed; exact Hs ].
    unfold DB.insert_session. cbn [DB.set_device_status DB.sessions DB.devices].
    destruct (DB.sessions db !! Session.id _) eqn:Hid;
      [ rewrite sessions_startSession_failed; exact Hs | ].
    destruct (alter _ _ _ !! _);
      [ | rewrite sessions_startSession_failed; exact Hs ].
    cbn [fst]. rewrite sessions_fire. cbn [DB.sessions].
    rewrite lookup_insert_ne; [ exact Hs | ]. intros Heq.
    rewrite Heq, Hs in Hid. discriminate.
  - intros e. unfold endSession.
    destruct (View.isEndingSession v); [ eauto using same_booking_refl | ].
    destruct (View.activeSessions v !! deviceId) as [session|];
      [ | eauto using same_booking_refl ].
    destruct (find_device deviceId (View.devices v)) as [device|];
      [ | eauto using same_booking_refl ].
    destruct (endSession_amounts e v session device) as [[t da] f].
    destruct (negb (End_.session_ok e)); [ eauto using same_booking_refl | ].
    destruct (negb (End_.device_ok e));
      cbn [fst endSession_failed DB.set_device_status DB.sessions];
      rewrite sessions_complete_session;
      (apply same_booking_alter; [ intros x; repeat split | exact Hs ]).
  - intros clock ok increment. unfold updateExtraControllers.
    destruct (View.activeSessions v !! deviceId) as [session|];
      [ | eauto using same_booking_refl ].
    destruct (find_device deviceId (View.devices v)) as [device|];
      [ | eauto using same_booking_refl ].
    destruct (bool_decide _); [ eauto using same_booking_refl | ].
    destruct (negb ok); [ eauto using same_booking_refl | ].
    cbn [fst DB.set_session_controllers DB.sessions].
    destruct (decide (Session.id session = sid)) as [<-|Hne].
    + rewrite lookup_alter_eq, Hs. eexists. split; [ reflexivity | ].
      repeat split.
    + rewrite lookup_alter_ne by exact Hne. eauto using same_booking_refl.
  - intros e session. unfold tick_entry.
    destruct (negb _); [ eauto using same_booking_refl | ].
    destruct (find_device deviceId (View.devices v)) as [device|];
      [ | eauto using same_booking_refl ].
    destruct (expires_now e v session); [ eauto using same_booking_refl | ].
    destruct (bool_decide _); [ eauto using same_booking_refl | ].
    destruct (Qeq_bool _ _); [ eauto using same_booking_refl | ].
    cbn [fst]. destruct (Tick.update_ok e); [ | eauto using same_booking_refl ].
    cbn [DB.set_session_cost DB.sessions].
    destruct (decide (Session.id session = sid)) as [<-|Hne].
    + rewrite lookup_alter_eq, Hs. eexists. split; [ reflexivity | ].
      repeat split.
    + rewrite lookup_alter_ne by exact Hne. eauto 6 using same_booking_refl.
Qed.

(** The busy venue: its stored session survives a start. *)
Lemma sessions_are_never_deleted_witness :
  DB.sessions (startSession false Scenario.start_env "external-1"
                 (Scenario.busy_db, Scenario.busy_view 0)).1 !! "session-1"
  = Some Scenario.running.
Proof.
  apply (proj1 (sessions_are_never_deleted false "external-1" Scenario.busy_db
                  (Scenario.busy_view 0) "session-1" Scenario.running eq_refl)).
Defined.

(** ** Extra controllers and the cost-update interval *)

(** The calculator reads the id, the times and the controller count of
    the session, not the amounts stored in it. *)
Lemma calculateSessionCost_with_cost isOpenSession expired now c f s d :
  calculateSessionCost isOpenSession expired now (Session.with_cost c f s) d
  = calculateSessionCost isOpenSession expired now s d.
Proof. reflexivity. Qed.

(** X10. An answered change of the extra controllers stores what it
    shows: the count goes up by one or down by one but not below 0, and
    the page and storage hold the same count, cost and final amount, the
    cost being the calculator's value for the session as shown.  A
    failed request changes neither, and shows an error. *)
Theorem controllers_update_stored_and_shown clock deviceId increment db v
    session device row :
  View.activeSessions v !! deviceId = Some session ->
  find_device deviceId (View.devices v) = Some device ->
  Session.id session ∉ View.expiredSessions v ->
  DB.sessions db !! Session.id session = Some row ->
  (exists s' row',
     View.activeSessions
       (updateExtraControllers clock true deviceId increment (db, v)).2 !! deviceId
     = Some s'
     /\ DB.sessions (updateExtraControllers clock true deviceId increment (db, v)).1
          !! Session.id session = Some row'
     /\ Session.extra_controllers s'
        = (if increment then Session.extra_controllers session + 1
           else Z.max 0 (Session.extra_controllers session - 1))%Z
     /\ ((0 <= Session.extra_controllers session)%Z ->
         (0 <= Session.extra_controllers s')%Z)
     /\ Session.extra_controllers row' = Session.extra_controllers s'
     /\ Session.total_cost row' = Session.total_cost s'
     /\ Session.final_amount row' = Session.final_amount s'
     /\ Session.total_cost s'
        = calculateSessionCost (View.isOpenSession v) (View.expiredSessions v)
            clock s' device)
  /\ (let w := updateExtraControllers clock false deviceId increment (db, v) in
      w.1 = db /\ View.activeSessions w.2 = View.activeSessions v
      /\ View.error w.2 = Some err_controllers).
Proof.
  intros Hs Hfind Hexp Hrow. unfold updateExtraControllers.
  rewrite Hs, Hfind, (bool_decide_eq_false_2 _ Hexp).
  cbn [negb fst snd with_activeSessions View.activeSessions View.error
       DB.set_session_controllers DB.sessions].
  split; [ | repeat split ].
  rewrite lookup_insert_eq, lookup_alter_eq, Hrow.
  eexists. eexists. split; [ reflexivity | ]. split; [ reflexivity | ].
  cbn [Session.with_cost Session.with_extra_controllers Session.extra_controllers
       Session.total_cost Session.final_amount].
  split; [ reflexivity | ]. split; [ destruct increment; lia | ].
  repeat split.
Qed.

(** One more controller for the running session of the busy venue. *)
Lemma controllers_update_stored_and_shown_witness :
  (exists s' row',
     View.activeSessions
       (updateExtraControllers (Sample.minutes 60) true "external-1" true
          (Scenario.busy_db, Scenario.busy_view 0)).2 !! "external-1"
     = Some s'
     /\ DB.sessions
          (updateExtraControllers (Sample.minutes 60) true "external-1" true
             (Scenario.busy_db, Scenario.busy_view 0)).1 !! "session-1"
        = Some row'
     /\ Session.extra_controllers s' = 2%Z
     /\ ((0 <= 1)%Z -> (0 <= Session.extra_controllers s')%Z)
     /\ Session.extra_controllers row' = Session.extra_controllers s'
     /\ Session.total_cost row' = Session.total_cost s'
     /\ Session.final_amount row' = Session.final_amount s'
     /\ Session.total_cost s'
        = calculateSessionCost true ∅ (Sample.minutes 60) s'
            (Sample.external_device occupied))
  /\ (let w := updateExtraControllers (Sample.minutes 60) false "external-1" true
                 (Scenario.busy_db, Scenario.busy_view 0) in
      w.1 = Scenario.busy_db
      /\ View.activeSessions w.2 = View.activeSessions (Scenario.busy_view 0)
      /\ View.error w.2 = Some err_controllers).
Proof.
  apply (controllers_update_stored_and_shown (Sample.minutes 60) "external-1" true
           Scenario.busy_db (Scenario.busy_view 0) Scenario.running
           (Sample.external_device occupied) Scenario.running);
    [ reflexivity | reflexivity | | reflexivity ].
  cbn. apply not_elem_of_empty.
Defined.

(** X11. One controller more and then one less, both answered, gives
    back the count, and the cost stored last is the one the unchanged
    session has at that moment.  One less and then one more does so only
    from a count of at least 1: from 0 it ends at 1. *)
Theorem increment_then_decrement clock1 clock2 deviceId db v session device :
  View.activeSessions v !! deviceId = Some session ->
  find_device deviceId (View.devices v) = Some device ->
  Session.id session ∉ View.expiredSessions v ->
  (0 <= Session.extra_controllers session)%Z ->
  (exists s',
     View.activeSessions
       (updateExtraControllers clock2 true deviceId false
          (updateExtraControllers clock1 true deviceId true (db, v))).2 !! deviceId
     = Some s'
     /\ Session.extra_controllers s' = Session.extra_controllers session
     /\ Session.total_cost s'
        = calculateSessionCost (View.isOpenSession v) (View.expiredSessions v)
            clock2 session device)
  /\ (exists s',
        View.activeSessions
          (updateExtraControllers clock2 true deviceId true
             (updateExtraControllers clock1 true deviceId false (db, v))).2 !! deviceId
        = Some s'
        /\ Session.extra_controllers s'
           = Z.max 1 (Session.extra_controllers session)).
Proof.
  intros Hs Hfind Hexp Hn.
  assert (forall inc1 inc2,
    exists s',
      View.activeSessions
        (updateExtraControllers clock2 true deviceId inc2
           (updateExtraControllers clock1 true deviceId inc1 (db, v))).2 !! deviceId
      = Some s'
      /\ s' = (let n1 := (if inc1 then Session.extra_controllers session + 1
                          else Z.max 0 (Session.extra_controllers session - 1))%Z in
               let n2 := (if inc2 then n1 + 1 else Z.max 0 (n1 - 1))%Z in
               let c := calculateSessionCost (View.isOpenSession v)
                          (View.expiredSessions v) clock2
                          (Session.with_extra_controllers n2 session) device in
               Session.with_cost c (c * (1 - Session.discount_amount session / 100))
                 (Session.with_extra_controllers n2 session))) as Hrun.
  { intros inc1 inc2. unfold updateExtraControllers at 2.
    rewrite Hs, Hfind, (bool_decide_eq_false_2 _ Hexp). cbn [negb].
    unfold updateExtraControllers.
    cbn [with_activeSessions View.activeSessions View.devices View.expiredSessions
         View.isOpenSession].
    rewrite lookup_insert_eq, Hfind.
    cbn [Session.with_cost Session.with_extra_controllers Session.id].
    rewrite (bool_decide_eq_false_2 _ Hexp). cbn [negb snd with_activeSessions
      View.activeSessions].
    rewrite lookup_insert_eq. eexists. split; reflexivity. }
  split.
  - destruct (Hrun true false) as (s' & Hs' & ->). eexists. split; [ exact Hs' | ].
    cbv zeta.
    replace (Z.max 0 (Session.extra_controllers session + 1 - 1))
      with (Session.extra_controllers session) by lia.
    split; [ reflexivity | ]. destruct session; reflexivity.
  - destruct (Hrun false true) as (s' & Hs' & ->). eexists. split; [ exact Hs' | ].
    cbn. lia.
Qed.

(** The running session of the busy venue has one extra controller. *)
Lemma increment_then_decrement_witness :
  (exists s',
     View.activeSessions
       (updateExtraControllers (Sample.minutes 60) true "external-1" false
          (updateExtraControllers (Sample.minutes 30) true "external-1" true
             (Scenario.busy_db, Scenario.busy_view 0))).2 !! "external-1"
     = Some s'
     /\ Session.extra_controllers s' = 1%Z
     /\ Session.total_cost s'
        = calculateSessionCost true ∅ (Sample.minutes 60) Scenario.running
            (Sample.external_device occupied))
  /\ (exists s',
        View.activeSessions
          (updateExtraControllers (Sample.minutes 60) true "external-1" true
             (updateExtraControllers (Sample.minutes 30) true "external-1" false
                (Scenario.busy_db, Scenario.busy_view 0))).2 !! "external-1"
        = Some s'
        /\ Session.extra_controllers s' = Z.max 1 1).
Proof.
  apply (increment_then_decrement (Sample.minutes 30) (Sample.minutes 60)
           "external-1" Scenario.busy_db (Scenario.busy_view 0) Scenario.running
           (Sample.external_device occupied));
    [ reflexivity | reflexivity | | cbn; lia ].
  cbn. apply not_elem_of_empty.
Defined.

(** Replacing the costs of a stored session and showing a session with
    the same id in its place keeps the page in agreement with storage. *)
Lemma in_sync_alter db v (f : Session.t -> Session.t) deviceId session shown :
  (forall s, Session.device_id (f s) = Session.device_id s
             /\ Session.status (f s) = Session.status s) ->
  in_sync db v ->
  View.activeSessions v !! deviceId = Some session ->
  Session.id shown = Session.id session ->
  (in_sync (DB.mk (DB.devices db) (alter f (Session.id session) (DB.sessions db)))
           (with_activeSessions (<[deviceId := shown]> (View.activeSessions v)) v))
  /\ in_sync db
       (with_activeSessions (<[deviceId := shown]> (View.activeSessions v)) v).
Proof.
  intros Hf (Hdevs & Hview & Hstored) Hs Hid.
  assert (forall k s, <[deviceId := shown]> (View.activeSessions v) !! k = Some s ->
            exists s0, View.activeSessions v !! k = Some s0
                       /\ Session.id s = Session.id s0) as Hold.
  { intros k s. destruct (decide (deviceId = k)) as [<-|Hne].
    - rewrite lookup_insert_eq. intros [= <-]. eauto.
    - rewrite lookup_insert_ne by exact Hne. eauto. }
  assert (forall k s0, View.activeSessions v !! k = Some s0 ->
            exists s, <[deviceId := shown]> (View.activeSessions v) !! k = Some s
                      /\ Session.id s = Session.id s0) as Hnew.
  { intros k s0 Hk. destruct (decide (deviceId = k)) as [<-|Hne].
    - rewrite lookup_insert_eq. exists shown. split; [ reflexivity | congruence ].
    - rewrite lookup_insert_ne by exact Hne. eauto. }
  split; (split; [ exact Hdevs | split ]);
    cbn [with_activeSessions View.activeSessions DB.sessions DB.devices].
  - intros k s Hk. destruct (Hold k s Hk) as (s0 & Hk0 & ->).
    destruct (Hview k s0 Hk0) as (s' & Hs' & Hk' & Hact).
    destruct (decide (Session.id session = Session.id s0)) as [Heq|Hne].
    + rewrite <- Heq, lookup_alter_eq. rewrite <- Heq in Hs'. rewrite Hs'.
      eexists. split; [ reflexivity | ]. destruct (Hf s') as [Hd Hst].
      unfold active_on. rewrite Hd, Hst. split; assumption.
    + rewrite lookup_alter_ne by exact Hne. exists s'. repeat split; assumption.
  - intros sid s' Hs' Hact.
    assert (exists s0, DB.sessions db !! sid = Some s0
                       /\ Session.device_id s' = Session.device_id s0
                       /\ Session.status s0 = active) as (s0 & Hs0 & Hdev & Hact0).
    { destruct (decide (Session.id session = sid)) as [<-|Hne].
      - rewrite lookup_alter_eq in Hs'.
        destruct (DB.sessions db !! Session.id session) as [s0|]; [ | discriminate ].
        injection Hs' as <-. exists s0. destruct (Hf s0) as [-> Hst].
        rewrite Hst in Hact. auto.
      - rewrite lookup_alter_ne in Hs' by exact Hne. eauto. }
    destruct (Hstored sid s0 Hs0 Hact0) as (s & Hk & <-).
    rewrite Hdev. destruct (Hnew _ _ Hk) as (s1 & Hk1 & Hid1). eauto.
  - intros k s Hk. destruct (Hold k s Hk) as (s0 & Hk0 & ->). eauto.
  - intros sid s' Hs' Hact.
    destruct (Hstored sid s' Hs' Hact) as (s & Hk & <-).
    destruct (Hnew _ _ Hk) as (s1 & Hk1 & Hid1). eauto.
Qed.

(** X12. The cost updates keep the page in agreement with storage: a
    pass of the interval over an entry of the page (answered or not) and
    a change of the extra controllers. *)
Theorem cost_updates_keep_in_sync db v deviceId session :
  in_sync db v ->
  View.activeSessions v !! deviceId = Some session ->
  (forall e,
     in_sync (tick_entry e deviceId session (db, v)).1
             (tick_entry e deviceId session (db, v)).2)
  /\ (forall clock ok increment,
        in_sync (updateExtraControllers clock ok deviceId increment (db, v)).1
                (updateExtraControllers clock ok deviceId increment (db, v)).2).
Proof.
  intros Hsync Hs. split.
  - intros e. unfold tick_entry.
    destruct (negb _); [ exact Hsync | ].
    destruct (find_device deviceId (View.devices v)) as [device|]; [ | exact Hsync ].
    destruct (expires_now e v session); [ exact Hsync | ].
    destruct (bool_decide _); [ exact Hsync | ].
    destruct (Qeq_bool _ _); [ exact Hsync | ].
    cbn [fst snd]. destruct (Tick.update_ok e).
    + unfold DB.set_session_cost.
      apply (in_sync_alter db v _ deviceId session); try assumption; try reflexivity.
      intros s. split; reflexivity.
    + apply (in_sync_alter db v (fun s => s) deviceId session);
        try assumption; try reflexivity.
      intros s. split; reflexivity.
  - intros clock ok increment. unfold updateExtraControllers. rewrite Hs.
    destruct (find_device deviceId (View.devices v)) as [device|]; [ | exact Hsync ].
    destruct (bool_decide _); [ exact Hsync | ].
    destruct ok; cbn [negb fst snd]; [ | exact Hsync ].
    unfold DB.set_session_controllers.
    apply (in_sync_alter db v _ deviceId session); try assumption; try reflexivity.
    intros s. split; reflexivity.
Qed.

(** A pass of the interval and one more controller at the busy venue. *)
Lemma cost_updates_keep_in_sync_witness :
  (forall e,
     in_sync (tick_entry e "external-1" Scenario.running
                (Scenario.busy_db, Scenario.busy_view 0)).1
             (tick_entry e "external-1" Scenario.running
                (Scenario.busy_db, Scenario.busy_view 0)).2)
  /\ (forall clock ok increment,
        in_sync (updateExtraControllers clock ok "external-1" increment
                   (Scenario.busy_db, Scenario.busy_view 0)).1
                (updateExtraControllers clock ok "external-1" increment
                   (Scenario.busy_db, Scenario.busy_view 0)).2).
Proof.
  apply (cost_updates_keep_in_sync Scenario.busy_db (Scenario.busy_view 0)
           "external-1" Scenario.running (proj2 (busy_world_consistent 0))).
  reflexivity.
Defined.

(** X13. A pass of the interval settles: a second pass over the entry
    it left on the page, at the same clock readings, changes nothing more
    on the page or in storage. *)
Theorem tick_entry_settles e deviceId session db v s' :
  View.activeSessions v !! deviceId = Some session ->
  View.activeSessions (tick_entry e deviceId session (db, v)).2 !! deviceId = Some s' ->
  tick_entry e deviceId s' (tick_entry e deviceId session (db, v))
  = tick_entry e deviceId session (db, v).
Proof.
  intros Hs. unfold tick_entry at 1 3 4.
  destruct (negb (bool_decide (Session.status session = active))) eqn:Hact.
  { cbn [snd]. rewrite Hs. intros [= <-]. unfold tick_entry. rewrite Hact. reflexivity. }
  destruct (find_device deviceId (View.devices v)) as [device|] eqn:Hfind.
  2: { cbn [snd]. rewrite Hs. intros [= <-]. unfold tick_entry.
       rewrite Hact, Hfind. reflexivity. }
  destruct (expires_now e v session) as [endTime|] eqn:Hnow.
  { cbn [snd View.activeSessions]. rewrite Hs. intros [= <-].
    apply tick_entry_expired. cbn [View.expiredSessions].
    apply elem_of_union_l, elem_of_singleton. reflexivity. }
  destruct (bool_decide (Session.id session ∈ View.expiredSessions v)) eqn:Hexp.
  { cbn [snd]. rewrite Hs. intros [= <-]. unfold tick_entry.
    rewrite Hact, Hfind, Hnow, Hexp. reflexivity. }
  destruct (Qeq_bool _ (Session.total_cost session)) eqn:Hcost.
  { cbn [snd]. rewrite Hs. intros [= <-]. unfold tick_entry.
    rewrite Hact, Hfind, Hnow, Hexp, Hcost. reflexivity. }
  cbn [snd with_activeSessions View.activeSessions]. rewrite lookup_insert_eq.
  intros [= <-]. unfold tick_entry.
  cbn [Session.with_cost Session.status with_activeSessions View.devices
       View.expiredSessions View.isOpenSession Session.id Session.total_cost].
  rewrite Hact, Hfind.
  replace (expires_now e _ _) with (expires_now e v session) by reflexivity.
  rewrite Hnow, Hexp.
  replace (calculateSessionCost _ _ _ _ device)
    with (calculateSessionCost (View.isOpenSession v) (View.expiredSessions v)
            (Tick.clock e) session device) by reflexivity.
  rewrite Qeq_bool_refl. reflexivity.
Qed.

(** After 60 minutes the running session of the busy venue is repriced
    once. *)
Lemma tick_entry_settles_witness :
  let e := Tick.mk (Sample.minutes 60) (Sample.minutes 60) (Sample.minutes 60) true in
  let w := tick_entry e "external-1" Scenario.running
             (Scenario.busy_db, Scenario.busy_view 0) in
  tick_entry e "external-1"
    (Session.with_cost (175 # 100) ((175 # 100) * (1 - 0 / 100)) Scenario.running) w
  = w.
Proof.
  apply (tick_entry_settles
           (Tick.mk (Sample.minutes 60) (Sample.minutes 60) (Sample.minutes 60) true)
           "external-1" Scenario.running Scenario.busy_db (Scenario.busy_view 0)).
  - reflexivity.
  - vm_compute. reflexivity.
Defined.

(** X14. The pass of the interval that finds a fixed session past its
    end marks it expired and starts the display of the extra time, and
    touches neither storage nor the costs on the page; from then on
    every pass and every change of the extra controllers leaves page and
    storage as they are. *)
Theorem expiry_is_detected_once e deviceId session db v device endTime :
  Session.status session = active ->
  View.activeSessions v !! deviceId = Some session ->
  find_device deviceId (View.devices v) = Some device ->
  View.isOpenSession v = false ->
  Session.end_time session = Some endTime ->
  (endTime <= Tick.now e)%Z ->
  Session.id session ∉ View.expiredSessions v ->
  (tick_entry e deviceId session (db, v)).1 = db
  /\ View.activeSessions (tick_entry e deviceId session (db, v)).2
     = View.activeSessions v
  /\ Session.id session ∈ View.expiredSessions (tick_entry e deviceId session (db, v)).2
  /\ View.extraTime (tick_entry e deviceId session (db, v)).2 !! Session.id session
     = Some (Tick.shown e - endTime)%Z
  /\ (forall e',
        tick_entry e' deviceId session (tick_entry e deviceId session (db, v))
        = tick_entry e deviceId session (db, v))
  /\ (forall clock ok increment,
        updateExtraControllers clock ok deviceId increment
          (tick_entry e deviceId session (db, v))
        = tick_entry e deviceId session (db, v)).
Proof.
  intros Hact Hs Hfind Hbox Hend Hlate Hexp.
  assert (tick_entry e deviceId session (db, v)
          = (db,
             View.mk (View.devices v) (View.activeSessions v)
               (View.showEndSessionModal v) (View.showStartSessionModal v)
               (View.discount v) (View.sessionDuration v) (View.isOpenSession v)
               (View.customerName v) (View.error v)
               (View.isStartingSession v) (View.isEndingSession v)
               ({[Session.id session]} ∪ View.expiredSessions v)
               (<[Session.id session := (Tick.shown e - endTime)%Z]>
                  (View.extraTime v)))) as ->.
  { unfold tick_entry, expires_now.
    rewrite Hact, Hfind, Hbox, Hend, (bool_decide_eq_false_2 _ Hexp).
    rewrite bool_decide_eq_true_2 by reflexivity. cbn [negb].
    replace (Tick.now e >=? endTime)%Z with true by (symmetry; lia).
    reflexivity. }
  cbn [fst snd View.activeSessions View.expiredSessions View.extraTime].
  assert (Session.id session ∈ {[Session.id session]} ∪ View.expiredSessions v)
    as Hin by (apply elem_of_union_l, elem_of_singleton; reflexivity).
  split; [ reflexivity | ]. split; [ reflexivity | ]. split; [ exact Hin | ].
  split; [ apply lookup_insert_eq | ].
  split.
  - intros e'. apply tick_entry_expired. exact Hin.
  - intros clock ok increment. unfold updateExtraControllers.
    cbn [View.activeSessions View.devices View.expiredSessions].
    rewrite Hs, Hfind, (bool_decide_eq_true_2 _ Hin). reflexivity.
Qed.

(** The session of 60 minutes, seen 61 minutes after its start. *)
Lemma expiry_is_detected_once_witness :
  let w := tick_entry Timed.late "external-1" Timed.booked (Timed.db, Timed.page) in
  w.1 = Timed.db
  /\ View.activeSessions w.2 = View.activeSessions Timed.page
  /\ "session-1" ∈ View.expiredSessions w.2
  /\ View.extraTime w.2 !! "session-1" = Some (Sample.minutes 61 - Sample.minutes 60)%Z
  /\ (forall e', tick_entry e' "external-1" Timed.booked w = w)
  /\ (forall clock ok increment,
        updateExtraControllers clock ok "external-1" increment w = w).
Proof.
  apply (expiry_is_detected_once Timed.late "external-1" Timed.booked Timed.db
           Timed.page (Sample.external_device occupied) (Sample.minutes 60));
    [ reflexivity | reflexivity | reflexivity | reflexivity | reflexivity
    | vm_compute; discriminate | ].
  cbn. apply not_elem_of_empty.
Defined.

(** ** Durations as text *)

(** X15. The hours, minutes and seconds shown for a duration that is
    not negative are the duration cut to whole seconds: minutes and
    seconds lie below 60 and nothing is negative.  This is what
    [formatCountdown] prints for a session that has time left, and
    [formatDuration] for a start that is not in the future. *)
Theorem shown_time_is_elapsed_seconds (diff : Z) :
  (0 <= diff)%Z ->
  (let '(hours, minutes, seconds) := hms diff in
   (0 <= hours)%Z /\ (0 <= minutes < 60)%Z /\ (0 <= seconds < 60)%Z
   /\ ((hours * 3600 + minutes * 60 + seconds) = diff / 1000)%Z)
  /\ (forall now, (0 < diff)%Z ->
        formatCountdown now (now + diff) = hms_string diff)
  /\ (forall now, formatDuration now (now - diff) = hms_string diff).
Proof.
  intros Hd. split; [ | split ].
  - unfold hms. rewrite !Z.rem_mod_nonneg by lia.
    change (1000 * 60 * 60)%Z with 3600000%Z. change (1000 * 60)%Z with 60000%Z.
    pose proof (Z.div_mod diff 3600000 ltac:(lia)) as H1.
    pose proof (Z.mod_pos_bound diff 3600000 ltac:(lia)) as B1.
    pose proof (Z.div_mod diff 60000 ltac:(lia)) as H2.
    pose proof (Z.mod_pos_bound diff 60000 ltac:(lia)) as B2.
    pose proof (Z.div_mod diff 1000 ltac:(lia)) as H3.
    pose proof (Z.mod_pos_bound diff 1000 ltac:(lia)) as B3.
    pose proof (Z.div_mod (diff mod 3600000) 60000 ltac:(lia)) as H4.
    pose proof (Z.mod_pos_bound (diff mod 3600000) 60000 ltac:(lia)) as B4.
    pose proof (Z.div_mod (diff mod 60000) 1000 ltac:(lia)) as H5.
    pose proof (Z.mod_pos_bound (diff mod 60000) 1000 ltac:(lia)) as B5.
    assert (0 <= diff / 3600000)%Z by (apply Z.div_pos; lia).
    assert (0 <= diff mod 3600000 / 60000 < 60)%Z
      by (split; [ apply Z.div_pos; lia | apply Z.div_lt_upper_bound; lia ]).
    assert (0 <= diff mod 60000 / 1000 < 60)%Z
      by (split; [ apply Z.div_pos; lia | apply Z.div_lt_upper_bound; lia ]).
    repeat split; try lia.
  - intros now Hpos. unfold formatCountdown.
    replace (now + diff - now)%Z with diff by lia.
    replace (diff <=? 0)%Z with false by (symmetry; lia). reflexivity.
  - intros now. unfold formatDuration.
    replace (now - (now - diff))%Z with diff by lia. reflexivity.
Qed.

(** One hour, two minutes and 5.999 seconds. *)
Lemma shown_time_is_elapsed_seconds_witness :
  hms 3725999 = (1, 2, 5)%Z
  /\ formatCountdown 0 3725999 = "01:02:05"
  /\ formatDuration 3725999 0 = "01:02:05".
Proof.
  destruct (shown_time_is_elapsed_seconds 3725999 ltac:(lia)) as (_ & H1 & H2).
  split; [ reflexivity | ].
  split; [ exact (H1 0%Z ltac:(lia)) | exact (H2 3725999%Z) ].
Defined.

(** ** Discounts are given at the end *)

Lemma undiscounted_with_cost c d s :
  Session.discount_amount s == 0 ->
  d == 0 ->
  undiscounted (Session.with_cost c (c * (1 - d / 100)) s).
Proof.
  intros Hs Hd. split; cbn [Session.with_cost Session.discount_amount
    Session.final_amount Session.total_cost]; [ exact Hs | ].
  rewrite Hd. field.
Qed.

Lemma no_discount_alter db v (f : Session.t -> Session.t) sid deviceId shown :
  no_discount_while_active (db, v) ->
  (forall s, undiscounted s -> undiscounted (f s)) ->
  (forall s, Session.status (f s) = Session.status s) ->
  undiscounted shown ->
  no_discount_while_active
    (DB.mk (DB.devices db) (alter f sid (DB.sessions db)),
     with_activeSessions (<[deviceId := shown]> (View.activeSessions v)) v)
  /\ no_discount_while_active
       (db, with_activeSessions (<[deviceId := shown]> (View.activeSessions v)) v).
Proof.
  intros [Hdb Hv] Hf Hst Hshown.
  assert (forall k s, <[deviceId := shown]> (View.activeSessions v) !! k = Some s ->
            undiscounted s) as Hv'.
  { intros k s. destruct (decide (deviceId = k)) as [<-|Hne].
    - rewrite lookup_insert_eq. intros [= <-]. exact Hshown.
    - rewrite lookup_insert_ne by exact Hne. apply Hv. }
  split; (split; [ | exact Hv' ]); cbn [fst DB.sessions]; [ | exact Hdb ].
  intros k s. destruct (decide (sid = k)) as [<-|Hne].
  - rewrite lookup_alter_eq.
    destruct (DB.sessions db !! sid) as [s0|] eqn:Hs0; [ | discriminate ].
    intros [= <-]. rewrite Hst. intros Hact. apply Hf. exact (Hdb sid s0 Hs0 Hact).
  - rewrite lookup_alter_ne by exact Hne. apply Hdb.
Qed.

(** X30. Discounts are given at the end only: when no active session
    carries a discount, in storage or on the page, none does after a
    start, an end, a change of the extra controllers or a pass of the
    cost-update interval, whichever requests fail; until it is ended the
    final amount of a session is its total cost. *)
Theorem discount_is_given_at_the_end trig deviceId db v :
  no_discount_while_active (db, v) ->
  (forall e, no_discount_while_active (startSession trig e deviceId (db, v)))
  /\ (forall e, no_discount_while_active (endSession trig e deviceId (db, v)))
  /\ (forall clock ok increment,
        no_discount_while_active
          (updateExtraControllers clock ok deviceId increment (db, v)))
  /\ (forall e session,
        View.activeSessions v !! deviceId = Some session ->
        no_discount_while_active (tick_entry e deviceId session (db, v))).
Proof.
  intros Hw. pose proof Hw as [Hdb Hv].
  split; [ | split; [ | split ] ].
  - intros e.
    assert (forall db0, DB.sessions db0 = DB.sessions db ->
              no_discount_while_active (startSession_failed e deviceId db0 v)) as Hfail.
    { intros db0 H0. split; [ | exact Hv ].
      cbn [fst]. unfold startSession_failed. cbn [fst].
      replace (DB.sessions (if Start.revert_ok e
                            then DB.set_device_status deviceId available db0 else db0))
        with (DB.sessions db) by (destruct (Start.revert_ok e); rewrite <- H0; reflexivity).
      exact Hdb. }
    unfold startSession.
    destruct (View.isStartingSession v); [ exact Hw | ].
    destruct (find_device deviceId (View.devices v)) as [device|];
      [ | apply Hfail; reflexivity ].
    destruct (negb (bool_decide (Device.status device = available)));
      [ apply Hfail; reflexivity | ].
    destruct (negb (Start.device_ok e)); [ apply Hfail; reflexivity | ].
    destruct (scheduled_end e v) as [endTime|]; [ | apply Hfail; reflexivity ].
    destruct (Start.insert_ok e); [ | apply Hfail; reflexivity ].
    unfold DB.insert_session. cbn [DB.set_device_status DB.sessions DB.devices].
    destruct (DB.sessions db !! Session.id _); [ apply Hfail; reflexivity | ].
    destruct (alter _ _ _ !! _); [ | apply Hfail; reflexivity ].
    assert (undiscounted (new_session e v deviceId device endTime)) as Hnew
      by (split; reflexivity).
    split; cbn [fst snd View.activeSessions].
    + rewrite sessions_fire. cbn [DB.sessions]. intros sid s.
      destruct (decide (Session.id (new_session e v deviceId device endTime) = sid))
        as [<-|Hne].
      * rewrite lookup_insert_eq. intros [= <-] _. exact Hnew.
      * rewrite lookup_insert_ne by exact Hne. apply Hdb.
    + intros k s. destruct (decide (deviceId = k)) as [<-|Hne].
      * rewrite lookup_insert_eq. intros [= <-]. exact Hnew.
      * rewrite lookup_insert_ne by exact Hne. apply Hv.
  - intros e. unfold endSession.
    destruct (View.isEndingSession v); [ exact Hw | ].
    destruct (View.activeSessions v !! deviceId) as [session|]; [ | exact Hw ].
    destruct (find_device deviceId (View.devices v)) as [device|]; [ | exact Hw ].
    destruct (endSession_amounts e v session device) as [[t da] f].
    destruct (negb (End_.session_ok e)); [ split; [ exact Hdb | exact Hv ] | ].
    assert (forall sid s,
              DB.sessions (DB.complete_session trig (Session.id session)
                             (End_.endTime e) t da f db) !! sid = Some s ->
              Session.status s = active -> undiscounted s) as Hdb'.
    { intros sid s. rewrite sessions_complete_session.
      destruct (decide (Session.id session = sid)) as [<-|Hne].
      - rewrite lookup_alter_eq.
        destruct (DB.sessions db !! Session.id session); [ | discriminate ].
        intros [= <-]. discriminate.
      - rewrite lookup_alter_ne by exact Hne. apply Hdb. }
    destruct (negb (End_.device_ok e)); (split; [ exact Hdb' | ]);
      cbn [snd endSession_failed View.activeSessions]; [ exact Hv | ].
    intros k s Hk. apply lookup_delete_Some in Hk. apply (Hv k s), Hk.
  - intros clock ok increment. unfold updateExtraControllers.
    destruct (View.activeSessions v !! deviceId) as [session|] eqn:Hs; [ | exact Hw ].
    destruct (find_device deviceId (View.devices v)) as [device|]; [ | exact Hw ].
    destruct (bool_decide _); [ exact Hw | ].
    destruct ok; cbn [negb]; [ | split; [ exact Hdb | exact Hv ] ].
    destruct (Hv deviceId session Hs) as [Hd _].
    unfold DB.set_session_controllers.
    apply (no_discount_alter db v _ (Session.id session) deviceId); try exact Hw.
    + intros s [Hs0 _]. apply (undiscounted_with_cost _ _ (Session.with_extra_controllers _ s));
        assumption.
    + reflexivity.
    + apply (undiscounted_with_cost _ _ (Session.with_extra_controllers _ session));
        assumption.
  - intros e session Hs. unfold tick_entry.
    destruct (negb _); [ exact Hw | ].
    destruct (find_device deviceId (View.devices v)) as [device|]; [ | exact Hw ].
    destruct (expires_now e v session); [ split; [ exact Hdb | exact Hv ] | ].
    destruct (bool_decide _); [ exact Hw | ].
    destruct (Qeq_bool _ _); [ exact Hw | ].
    destruct (Hv deviceId session Hs) as [Hd _].
    destruct (Tick.update_ok e).
    + unfold DB.set_session_cost.
      apply (no_discount_alter db v _ (Session.id session) deviceId); try exact Hw.
      * intros s [Hs0 _]. apply undiscounted_with_cost; assumption.
      * reflexivity.
      * apply undiscounted_with_cost; assumption.
    + apply (no_discount_alter db v (fun s => s) (Session.id session) deviceId);
        try exact Hw; try tauto.
      apply undiscounted_with_cost; assumption.
Qed.

Lemma busy_world_no_discount :
  no_discount_while_active (Scenario.busy_db, Scenario.busy_view 10).
Proof.
  unfold no_discount_while_active, Scenario.busy_db, Scenario.busy_view, Scenario.view.
  cbn [fst snd DB.sessions View.activeSessions]. split.
  - intros sid s Hs _. apply lookup_singleton_Some in Hs. destruct Hs as [_ <-].
    split; reflexivity.
  - intros k s Hs. apply lookup_singleton_Some in Hs. destruct Hs as [_ <-].
    split; reflexivity.
Qed.

(** The busy venue with a discount of 10% entered for the end. *)
Lemma discount_is_given_at_the_end_witness :
  (forall e,
     no_discount_while_active
       (startSession false e "external-1" (Scenario.busy_db, Scenario.busy_view 10)))
  /\ (forall e,
        no_discount_while_active
          (endSession false e "external-1" (Scenario.busy_db, Scenario.busy_view 10)))
  /\ (forall clock ok increment,
        no_discount_while_active
          (updateExtraControllers clock ok "external-1" increment
             (Scenario.busy_db, Scenario.busy_view 10)))
  /\ (forall e session,
        View.activeSessions (Scenario.busy_view 10) !! "external-1" = Some session ->
        no_discount_while_active
          (tick_entry e "external-1" session (Scenario.busy_db, Scenario.busy_view 10))).
Proof.
  apply (discount_is_given_at_the_end false "external-1" Scenario.busy_db
           (Scenario.busy_view 10) busy_world_no_discount).
Defined.

(** ** The cart *)

Lemma total_nil : total [] = 0.
Proof. reflexivity. Qed.

Lemma total_cons (x : Q) (xs : list Q) : total (x :: xs) = x + total xs.
Proof. reflexivity. Qed.

Lemma total_nonneg (xs : list Q) : Forall (fun x => 0 <= x) xs -> 0 <= total xs.
Proof.
  induction 1 as [|x l Hx Hl IH].
  - rewrite total_nil. lra.
  - rewrite total_cons. lra.
Qed.

Lemma fold_left_sum {A} (f : A -> Q) (l : list A) (a : Q) :
  fold_left (fun sum x => sum + f x) l a == a + total (f <$> l).
Proof.
  revert a. induction l as [|x l IH]; intros a; cbn [fold_left].
  - rewrite fmap_nil, total_nil. ring.
  - rewrite IH, fmap_cons, total_cons. ring.
Qed.

Lemma subtotal_total cart : subtotal cart == total (line_total <$> cart).
Proof.
  unfold subtotal, calculateTotal. cbn [fst]. rewrite fold_left_sum. ring.
Qed.

Lemma same_product_true productId item :
  same_product productId item = true <-> Product.id (CartItem.product item) = productId.
Proof. unfold same_product. apply bool_decide_eq_true. Qed.

Lemma find_same_product_None productId cart :
  List.find (same_product productId) cart = None <-> productId ∉ product_ids cart.
Proof.
  unfold product_ids. induction cart as [|x l IH]; cbn [List.find fmap list_fmap].
  - split; [ intros _ H; inversion H | reflexivity ].
  - rewrite not_elem_of_cons. destruct (same_product productId x) eqn:Hx.
    + apply same_product_true in Hx. split; [ discriminate | ].
      intros [Hne _]. congruence.
    + rewrite IH. split; [ | tauto ]. intros H. split; [ | exact H ].
      intros ->. rewrite (proj2 (same_product_true _ _) eq_refl) in Hx. discriminate.
Qed.

Lemma product_ids_updateQuantity productId increment cart :
  product_ids (updateQuantity productId increment cart) = product_ids cart.
Proof.
  unfold product_ids, updateQuantity.
  induction cart as [|x l IH]; [ reflexivity | ].
  cbn [List.map fmap list_fmap]. f_equal; [ | exact IH ].
  destruct (same_product productId x); reflexivity.
Qed.

(** Adding a product that is in the cart is the plus button. *)
Lemma addToCart_present product cart existingItem :
  List.find (same_product (Product.id product)) cart = Some existingItem ->
  addToCart product cart = updateQuantity (Product.id product) true cart.
Proof. intros H. unfold addToCart. rewrite H. reflexivity. Qed.

Lemma addToCart_absent product cart :
  List.find (same_product (Product.id product)) cart = None ->
  addToCart product cart = cart ++ [CartItem.mk product 1].
Proof. intros H. unfold addToCart. rewrite H. reflexivity. Qed.

Lemma cart_ok_updateQuantity productId increment cart :
  cart_ok cart -> cart_ok (updateQuantity productId increment cart).
Proof.
  intros [Hnd Hq]. split; [ rewrite product_ids_updateQuantity; exact Hnd | ].
  unfold updateQuantity. induction Hq as [|x l Hx Hl IH]; cbn [List.map].
  - constructor.
  - constructor.
    + destruct (same_product productId x); [ | exact Hx ].
      cbn [CartItem.quantity]. destruct increment; lia.
    + apply IH. apply NoDup_cons_1_2 in Hnd. exact Hnd.
Qed.

(** X16. The cart stays well formed: starting from the empty cart,
    adding a product, removing one and the plus and minus buttons keep
    every product in the cart once and with at least one unit. *)
Theorem cart_stays_well_formed cart :
  cart_ok [] /\
  (cart_ok cart ->
   (forall product, cart_ok (addToCart product cart))
   /\ (forall productId, cart_ok (removeFromCart productId cart))
   /\ (forall productId increment, cart_ok (updateQuantity productId increment cart))).
Proof.
  split; [ split; constructor | ].
  intros Hok. split; [ | split ].
  - intros product.
    destruct (List.find (same_product (Product.id product)) cart) as [x|] eqn:Hfind.
    + rewrite (addToCart_present _ _ _ Hfind). apply cart_ok_updateQuantity, Hok.
    + rewrite (addToCart_absent _ _ Hfind). destruct Hok as [Hnd Hq]. split.
      * unfold product_ids. rewrite fmap_app. apply NoDup_app.
        split; [ exact Hnd | ]. split; [ | apply NoDup_singleton ].
        intros k Hk Hk'. apply list_elem_of_singleton in Hk'. subst k.
        apply find_same_product_None in Hfind. contradiction.
      * apply Forall_app. split; [ exact Hq | ].
        constructor; [ cbn; lia | constructor ].
  - intros productId. destruct Hok as [Hnd Hq]. unfold removeFromCart. split.
    + unfold product_ids in *. clear Hq.
      induction cart as [|x l IH]; cbn [List.filter]; [ constructor | ].
      apply NoDup_cons in Hnd. destruct Hnd as [Hx Hl].
      destruct (negb (same_product productId x)); [ | apply IH, Hl ].
      cbn [fmap list_fmap]. apply NoDup_cons. split; [ | apply IH, Hl ].
      intros Hin. apply Hx. apply list_elem_of_fmap in Hin.
      destruct Hin as (y & Hy & Hin). apply list_elem_of_fmap. exists y.
      split; [ exact Hy | ]. apply list_elem_of_In. apply list_elem_of_In in Hin.
      apply filter_In in Hin. apply Hin.
    + apply Forall_forall. intros x Hx. apply list_elem_of_In, filter_In in Hx.
      rewrite Forall_forall in Hq. apply Hq. apply list_elem_of_In, Hx.
  - intros productId increment. apply cart_ok_updateQuantity, Hok.
Qed.

(** The cart with one bag of chips. *)
Lemma scenario_cart_ok : cart_ok Scenario.cart.
Proof.
  split.
  - apply NoDup_singleton.
  - constructor; [ cbn; lia | constructor ].
Qed.

Lemma cart_stays_well_formed_witness :
  cart_ok (addToCart (Product.mk "cola" "cola" (5 # 10) 20 market) Scenario.cart)
  /\ cart_ok (removeFromCart "chips" Scenario.cart)
  /\ cart_ok (updateQuantity "chips" false Scenario.cart).
Proof.
  destruct (proj2 (cart_stays_well_formed Scenario.cart) scenario_cart_ok)
    as (Hadd & Hremove & Hupdate).
  split; [ apply Hadd | ]. split; [ apply Hremove | apply Hupdate ].
Defined.

Lemma total_line_total_increment productId cart :
  total (line_total <$> updateQuantity productId true cart)
  == total (line_total <$> cart)
     + total ((fun item => Product.price (CartItem.product item))
                <$> List.filter (same_product productId) cart).
Proof.
  unfold updateQuantity.
  induction cart as [|x l IH]; cbn [List.map List.filter].
  - rewrite !fmap_nil, total_nil. ring.
  - rewrite !fmap_cons, !total_cons, IH.
    destruct (same_product productId x).
    + rewrite fmap_cons, total_cons. unfold line_total.
      cbn [CartItem.product CartItem.quantity]. rewrite inject_Z_plus. ring.
    + ring.
Qed.

(** X17. Adding a product never lowers the subtotal when no price is
    negative, whether the product is new to the cart or already in it. *)
Theorem addToCart_raises_subtotal product cart :
  0 <= Product.price product ->
  (forall item, item ∈ cart -> 0 <= Product.price (CartItem.product item)) ->
  subtotal cart <= subtotal (addToCart product cart).
Proof.
  intros Hp Hprices. rewrite !subtotal_total.
  destruct (List.find (same_product (Product.id product)) cart) as [x|] eqn:Hfind.
  - rewrite (addToCart_present _ _ _ Hfind), total_line_total_increment.
    assert (0 <= total ((fun item => Product.price (CartItem.product item))
                          <$> List.filter (same_product (Product.id product)) cart))
      as Hraise; [ | lra ].
    apply total_nonneg, Forall_fmap, Forall_forall. intros item Hin.
    apply list_elem_of_In, filter_In in Hin. unfold compose.
    apply Hprices, list_elem_of_In, Hin.
  - rewrite (addToCart_absent _ _ Hfind), fmap_app, total_app.
    rewrite fmap_cons, fmap_nil, total_cons, total_nil.
    unfold line_total. cbn [CartItem.product CartItem.quantity].
    change (inject_Z 1) with 1. lra.
Qed.

(** A second bag of chips. *)
Lemma addToCart_raises_subtotal_witness :
  subtotal Scenario.cart
  <= subtotal (addToCart (Product.mk "chips" "chips" (25 # 100) 50 market)
                 Scenario.cart).
Proof.
  apply (addToCart_raises_subtotal (Product.mk "chips" "chips" (25 # 100) 50 market)
           Scenario.cart).
  - vm_compute. discriminate.
  - intros item Hin. apply list_elem_of_singleton in Hin. subst item.
    vm_compute. discriminate.
Defined.

(** X18. The plus button followed by the minus button gives back the
    cart, and the minus button leaves a product of which the cart holds
    one unit as it is. *)
Theorem plus_then_minus_restores productId cart :
  Forall (fun item => (1 <= CartItem.quantity item)%Z) cart ->
  updateQuantity productId false (updateQuantity productId true cart) = cart
  /\ ((forall item, item ∈ cart -> Product.id (CartItem.product item) = productId ->
         CartItem.quantity item = 1%Z) ->
      updateQuantity productId false cart = cart).
Proof.
  intros Hq. unfold updateQuantity. split.
  - induction Hq as [|x l Hx Hl IH]; [ reflexivity | ].
    cbn [List.map]. f_equal; [ | exact IH ].
    destruct (same_product productId x) eqn:Hs.
    + unfold same_product in *. cbn [CartItem.product CartItem.quantity].
      rewrite Hs. destruct x as [p q]. cbn in *. f_equal. lia.
    + rewrite Hs. reflexivity.
  - intros Hone. clear Hq. induction cart as [|x l IH]; [ reflexivity | ].
    cbn [List.map]. f_equal.
    + destruct (same_product productId x) eqn:Hs; [ | reflexivity ].
      apply same_product_true in Hs.
      rewrite (Hone x) by (try exact Hs; left). destruct x as [p q].
      cbn in *. f_equal. symmetry. apply (Hone (CartItem.mk p q)); [ left | exact Hs ].
    + apply IH. intros item Hin. apply Hone. right. exact Hin.
Qed.

Lemma plus_then_minus_restores_witness :
  updateQuantity "chips" false (updateQuantity "chips" true Scenario.cart)
  = Scenario.cart
  /\ updateQuantity "chips" false Scenario.cart = Scenario.cart.
Proof.
  destruct (plus_then_minus_restores "chips" Scenario.cart (proj2 scenario_cart_ok))
    as [H1 H2].
  split; [ exact H1 | ]. apply H2.
  intros item Hin _. apply list_elem_of_singleton in Hin. subst item. reflexivity.
Defined.

(** X19. Removing a product leaves no item of it in the cart, and
    removing a product right after it was added as a new one gives back
    the cart. *)
Theorem add_then_remove_restores product cart :
  (forall productId, productId ∉ product_ids (removeFromCart productId cart))
  /\ (Product.id product ∉ product_ids cart ->
      removeFromCart (Product.id product) (addToCart product cart) = cart).
Proof.
  split.
  - intros productId Hin. unfold product_ids, removeFromCart in Hin.
    apply list_elem_of_fmap in Hin. destruct Hin as (x & Hx & Hin).
    apply list_elem_of_In, filter_In in Hin. destruct Hin as [_ Hs].
    apply negb_true_iff in Hs.
    rewrite (proj2 (same_product_true _ _)) in Hs by (symmetry; exact Hx).
    discriminate.
  - intros Habs. rewrite addToCart_absent by (apply find_same_product_None, Habs).
    unfold removeFromCart. rewrite List.filter_app. cbn [List.filter].
    rewrite (proj2 (same_product_true _ (CartItem.mk product 1))) by reflexivity.
    cbn [negb]. rewrite app_nil_r.
    apply forallb_filter_id, forallb_forall. intros x Hx.
    apply negb_true_iff. destruct (same_product _ x) eqn:Hs; [ exfalso | reflexivity ].
    apply same_product_true in Hs. apply Habs. unfold product_ids.
    apply list_elem_of_fmap. exists x. split; [ symmetry; exact Hs | ].
    apply list_elem_of_In, Hx.
Qed.

(** A can of cola is put next to the chips and taken out again. *)
Lemma add_then_remove_restores_witness :
  removeFromCart "cola"
    (addToCart (Product.mk "cola" "cola" (5 # 10) 20 market) Scenario.cart)
  = Scenario.cart.
Proof.
  apply (proj2 (add_then_remove_restores (Product.mk "cola" "cola" (5 # 10) 20 market)
                  Scenario.cart)).
  intros Hin. apply list_elem_of_singleton in Hin. discriminate.
Defined.

(** ** The summary of a day *)

(** The row [calculate_daily_summary] leaves for its date. *)
Lemma calculate_daily_summary_row DATE uuid now d L :
  exists row,
    Ledger.daily_summaries (calculate_daily_summary DATE uuid now d L) !! d = Some row
    /\ DailySummary.sessions_revenue row = sessions_rev DATE d L
    /\ DailySummary.sales_revenue row = sales_rev DATE d L
    /\ DailySummary.expenses_total row = expenses_tot d L
    /\ DailySummary.discounts_total row = discounts_tot DATE d L
    /\ DailySummary.net_income row
       = sessions_rev DATE d L + sales_rev DATE d L - expenses_tot d L.
Proof.
  unfold calculate_daily_summary. cbn [Ledger.daily_summaries].
  rewrite lookup_insert_eq. eexists. split; [ reflexivity | ].
  destruct (Ledger.daily_summaries L !! d); repeat split.
Qed.

(** ** The summary trigger *)

Lemma filter_apply_change {Row} (key : Row -> string) (P : Row -> Prop)
    `{!forall r, Decision (P r)} (c : Change Row) (rows : list Row) :
  (forall r, r ∈ touched key c rows -> ~ P r) ->
  match c with Deleted _ => True | _ => ~ P (trigger_row c) end ->
  filter P (apply_change key c rows) = filter P rows.
Proof.
  destruct c as [NEW|OLD NEW|OLD]; cbn [apply_change touched trigger_row];
    intros Htouched Hnew.
  - rewrite filter_app, filter_cons, filter_nil.
    rewrite decide_False by exact Hnew. apply app_nil_r.
  - induction rows as [|r l IH]; [ reflexivity | ].
    cbn [List.map]. rewrite !filter_cons.
    assert (filter P (List.map (fun r => if bool_decide (key r = key OLD) then NEW else r) l)
            = filter P l) as ->.
    { apply IH. intros x Hx. apply Htouched. rewrite filter_cons.
      destruct (decide (key r = key OLD)); [ right | ]; exact Hx. }
    destruct (bool_decide (key r = key OLD)) eqn:Hk.
    + apply bool_decide_eq_true_1 in Hk.
      rewrite decide_False by exact Hnew.
      rewrite decide_False; [ reflexivity | ].
      apply Htouched. rewrite filter_cons, decide_True by exact Hk. left.
    + reflexivity.
  - clear Hnew. induction rows as [|r l IH]; [ reflexivity | ].
    cbn [List.filter]. rewrite filter_cons.
    assert (filter P (List.filter (fun r => negb (bool_decide (key r = key OLD))) l)
            = filter P l) as Hl.
    { apply IH. intros x Hx. apply Htouched. rewrite filter_cons.
      destruct (decide (key r = key OLD)); [ right | ]; exact Hx. }
    destruct (bool_decide (key r = key OLD)) eqn:Hk; cbn [negb].
    + apply bool_decide_eq_true_1 in Hk. rewrite Hl.
      rewrite decide_False; [ reflexivity | ].
      apply Htouched. rewrite filter_cons, decide_True by exact Hk. left.
    + rewrite filter_cons, Hl. reflexivity.
Qed.

(** The figures of a day are functions of the rows of that day. *)
Lemma aggregates_of_day DATE d L1 L2 :
  completed_sessions_on DATE d L1 = completed_sessions_on DATE d L2 ->
  sessions_on DATE d L1 = sessions_on DATE d L2 ->
  sales_on DATE d L1 = sales_on DATE d L2 ->
  expenses_on d L1 = expenses_on d L2 ->
  sessions_rev DATE d L1 == sessions_rev DATE d L2
  /\ sales_rev DATE d L1 == sales_rev DATE d L2
  /\ expenses_tot d L1 == expenses_tot d L2
  /\ discounts_tot DATE d L1 == discounts_tot DATE d L2.
Proof.
  intros H1 H2 H3 H4.
  rewrite !sessions_rev_spec, !sales_rev_spec, !expenses_tot_spec, !discounts_tot_join.
  rewrite H1, H2, H3, H4. repeat split; reflexivity.
Qed.

Lemma current_calculated DATE uuid now d L :
  current DATE d (calculate_daily_summary DATE uuid now d L).
Proof.
  intros row.
  destruct (calculate_daily_summary_row DATE uuid now d L)
    as (row' & Hrow' & H1 & H2 & H3 & H4 & H5).
  rewrite Hrow'. intros [= <-]. rewrite H1, H2, H3, H4, H5.
  repeat split; reflexivity.
Qed.

(** A change that stays on its date leaves the expenses of every other
    date. *)
Lemma other_days_untouched c L d :
  stays_on_day c L ->
  d <> Expense.date (trigger_row c) ->
  expenses_on d (row_change (on_expenses c) L) = expenses_on d L.
Proof.
  intros Hstay Hne. unfold expenses_on. cbn [row_change Ledger.expenses].
  apply filter_apply_change.
  - intros r Hr Hd. apply Hne. rewrite <- Hd. apply Hstay, Hr.
  - destruct c; cbn [trigger_row] in *; try exact I; congruence.
Qed.

(** On [sales] and [sessions] the trigger raises an error, and the row
    change is rolled back. *)
Remark summary_trigger_raises_off_expenses DATE uuid now L :
  (forall c, change_row DATE uuid now (on_sales c) L = None)
  /\ (forall c, change_row DATE uuid now (on_sessions c) L = None).
Proof. split; reflexivity. Qed.

(** X23. The trigger keeps the stored summaries up to date under changes
    of the expenses: when every stored summary holds the figures of its
    day, an insert, update or delete on [expenses] goes through and every
    stored summary still holds the figures of its day, provided the
    change stays on one date (an update does not move the expense to
    another date). *)
Theorem summaries_stay_current DATE uuid now c L :
  (forall d, current DATE d L) ->
  stays_on_day c L ->
  exists L',
    change_row DATE uuid now (on_expenses c) L = Some L'
    /\ forall d, current DATE d L'.
Proof.
  intros Hcur Hstay. eexists. split; [ reflexivity | ].
  set (d0 := Expense.date (trigger_row c)).
  set (L1 := row_change (on_expenses c) L).
  intros d row.
  destruct (decide (d = d0)) as [->|Hne].
  - apply current_calculated.
  - unfold calculate_daily_summary at 1. cbn [Ledger.daily_summaries].
    rewrite lookup_insert_ne by congruence.
    intros Hrow. destruct (Hcur d row Hrow) as (H1 & H2 & H3 & H4 & H5).
    destruct (aggregates_of_day DATE d L1 L eq_refl eq_refl eq_refl
                (other_days_untouched c L d Hstay Hne))
      as (A1 & A2 & A3 & A4).
    change (sessions_rev DATE d (calculate_daily_summary DATE uuid now d0 L1))
      with (sessions_rev DATE d L1).
    change (sales_rev DATE d (calculate_daily_summary DATE uuid now d0 L1))
      with (sales_rev DATE d L1).
    change (expenses_tot d (calculate_daily_summary DATE uuid now d0 L1))
      with (expenses_tot d L1).
    change (discounts_tot DATE d (calculate_daily_summary DATE uuid now d0 L1))
      with (discounts_tot DATE d L1).
    rewrite A1, A2, A3, A4. repeat split; assumption.
Qed.

Lemma sample_expense_ledger_current d :
  current SampleDay.DATE d SampleExpense.books.
Proof.
  unfold SampleExpense.books. destruct (decide (d = 1%Z)) as [->|Hne].
  - apply current_calculated.
  - intros row. unfold calculate_daily_summary. cbn [Ledger.daily_summaries].
    rewrite lookup_insert_ne by congruence. rewrite lookup_empty. discriminate.
Qed.

(** The rent of day 1 is corrected from 7 to 8. *)
Lemma summaries_stay_current_witness :
  exists L',
    change_row SampleDay.DATE "summary-2" 90001
      (on_expenses (Updated (SampleExpense.rent_paid 1)
                      (Expense.mk "expense-1" "rent" 8 rent 1 (Some 90000%Z))))
      SampleExpense.books = Some L'
    /\ forall d, current SampleDay.DATE d L'.
Proof.
  apply (summaries_stay_current SampleDay.DATE "summary-2" 90001
           (Updated (SampleExpense.rent_paid 1)
              (Expense.mk "expense-1" "rent" 8 rent 1 (Some 90000%Z)))
           SampleExpense.books sample_expense_ledger_current).
  intros r Hr. cbn in Hr. apply list_elem_of_singleton in Hr. subst r. reflexivity.
Defined.

Lemma moved_row_total (OLD NEW : Expense.t) (d : Z) (rows : list Expense.t) :
  NoDup (Expense.id <$> rows) ->
  OLD ∈ rows ->
  Expense.date OLD = d ->
  Expense.date NEW <> d ->
  total (Expense.amount <$>
           filter (fun x => Expense.date x = d) rows)
  == total (Expense.amount <$>
              filter (fun x => Expense.date x = d)
                (apply_change Expense.id (Updated OLD NEW) rows))
     + Expense.amount OLD.
Proof.
  intros Hnd Hin Hold Hnew. cbn [apply_change].
  induction rows as [|r l IH]; [ inversion Hin | ].
  rewrite fmap_cons in Hnd. apply NoDup_cons in Hnd. destruct Hnd as [Hr Hl].
  cbn [List.map]. rewrite !filter_cons.
  destruct (bool_decide (Expense.id r = Expense.id OLD)) eqn:Hk.
  - apply bool_decide_eq_true_1 in Hk.
    assert (r = OLD) as ->.
    { apply elem_of_cons in Hin. destruct Hin as [->|Hin]; [ reflexivity | ].
      exfalso. apply Hr. rewrite Hk. apply list_elem_of_fmap. eauto. }
    rewrite decide_True by exact Hold. rewrite decide_False by exact Hnew.
    rewrite fmap_cons, total_cons.
    assert (List.map (fun r => if bool_decide (Expense.id r = Expense.id OLD)
                               then NEW else r) l = l) as ->.
    { rewrite <- (map_id l) at 2. apply map_ext_in. intros x Hx.
      rewrite bool_decide_eq_false_2; [ reflexivity | ].
      intros Hid. apply Hr. rewrite <- Hid. apply list_elem_of_fmap.
      exists x. split; [ reflexivity | apply list_elem_of_In, Hx ]. }
    ring.
  - apply bool_decide_eq_false_1 in Hk.
    apply elem_of_cons in Hin. destruct Hin as [->|Hin]; [ contradiction | ].
    specialize (IH Hl Hin).
    destruct (decide (Expense.date r = d)).
    + rewrite !fmap_cons, !total_cons, IH. ring.
    + exact IH.
Qed.

(** X24. An update that moves an expense to another date refreshes the
    summary of the new date only: the summary of the old date is left as
    it was and still counts the expense, so that it overstates the
    expenses of that day by the amount moved. *)
Theorem moved_expense_leaves_old_day_stale DATE uuid now OLD NEW L summary :
  NoDup (Expense.id <$> Ledger.expenses L) ->
  OLD ∈ Ledger.expenses L ->
  Expense.date NEW <> Expense.date OLD ->
  Ledger.daily_summaries L !! Expense.date OLD = Some summary ->
  current DATE (Expense.date OLD) L ->
  exists L',
    change_row DATE uuid now (on_expenses (Updated OLD NEW)) L = Some L'
    /\ Ledger.daily_summaries L' !! Expense.date OLD = Some summary
    /\ DailySummary.expenses_total summary
       == expenses_tot (Expense.date OLD) L' + Expense.amount OLD
    /\ (~ Expense.amount OLD == 0 -> ~ current DATE (Expense.date OLD) L').
Proof.
  intros Hnd Hin Hne Hrow Hcur.
  unfold change_row, update_daily_summary, summary_date, trigger_row.
  eexists. split; [ reflexivity | ].
  assert (DailySummary.expenses_total summary
          == expenses_tot (Expense.date OLD)
               (row_change (on_expenses (Updated OLD NEW)) L) + Expense.amount OLD)
    as Hstale.
  { destruct (Hcur summary Hrow) as (_ & _ & -> & _).
    rewrite !expenses_tot_spec. unfold expenses_on.
    cbn [row_change Ledger.expenses].
    apply moved_row_total; [ exact Hnd | exact Hin | reflexivity | exact Hne ]. }
  assert (Ledger.daily_summaries
            (calculate_daily_summary DATE uuid now (Expense.date NEW)
               (row_change (on_expenses (Updated OLD NEW)) L)) !! Expense.date OLD
          = Some summary) as Hkept.
  { unfold calculate_daily_summary. cbn [Ledger.daily_summaries row_change].
    rewrite lookup_insert_ne by exact Hne. exact Hrow. }
  split; [ exact Hkept | ]. split; [ exact Hstale | ].
  intros Hamount Hcur'. destruct (Hcur' summary Hkept) as (_ & _ & H3 & _).
  apply Hamount. rewrite Hstale in H3.
  change (expenses_tot (Expense.date OLD)
            (calculate_daily_summary DATE uuid now (Expense.date NEW)
               (row_change (on_expenses (Updated OLD NEW)) L)))
    with (expenses_tot (Expense.date OLD)
            (row_change (on_expenses (Updated OLD NEW)) L)) in H3.
  lra.
Qed.

(** The rent of 7 is moved from day 1 to day 2: the summary of day 1
    keeps expenses of 7. *)
Lemma moved_expense_leaves_old_day_stale_witness :
  exists L' summary,
    change_row SampleDay.DATE "summary-2" 90001
      (on_expenses (Updated (SampleExpense.rent_paid 1) (SampleExpense.rent_paid 2)))
      SampleExpense.books = Some L'
    /\ Ledger.daily_summaries L' !! 1%Z = Some summary
    /\ DailySummary.expenses_total summary == 7
    /\ expenses_tot 1 L' == 0
    /\ ~ current SampleDay.DATE 1 L'.
Proof.
  destruct (calculate_daily_summary_row SampleDay.DATE "summary-1" 90000 1
              (Ledger.mk [] [] [SampleExpense.rent_paid 1] ∅))
    as (summary & Hrow & _ & _ & H3 & _).
  destruct (moved_expense_leaves_old_day_stale SampleDay.DATE "summary-2" 90001
              (SampleExpense.rent_paid 1) (SampleExpense.rent_paid 2)
              SampleExpense.books summary)
    as (L' & HL' & Hkept & Hstale & Hnot).
  - apply NoDup_singleton.
  - apply list_elem_of_singleton. reflexivity.
  - discriminate.
  - exact Hrow.
  - apply sample_expense_ledger_current.
  - exists L', summary. split; [ exact HL' | ]. split; [ exact Hkept | ].
    split; [ rewrite H3; vm_compute; reflexivity | ].
    split; [ injection HL' as <-; vm_compute; reflexivity | ].
    apply Hnot. vm_compute. discriminate.
Defined.

(** ** Recalculation *)

(** X25. Recalculating a day is idempotent: a second run for the same
    date leaves the ledger as the first one did.  A summary that exists
    keeps its id, date and time of creation, and the summaries of other
    dates and the three tables read are not touched. *)
Theorem recalculation_is_idempotent DATE uuid now uuid' now' d L :
  calculate_daily_summary DATE uuid' now' d (calculate_daily_summary DATE uuid now d L)
  = calculate_daily_summary DATE uuid now d L
  /\ (forall old, Ledger.daily_summaries L !! d = Some old ->
        exists row,
          Ledger.daily_summaries (calculate_daily_summary DATE uuid now d L) !! d
          = Some row
          /\ DailySummary.id row = DailySummary.id old
          /\ DailySummary.date row = DailySummary.date old
          /\ DailySummary.created_at row = DailySummary.created_at old)
  /\ (forall d', d' <> d ->
        Ledger.daily_summaries (calculate_daily_summary DATE uuid now d L) !! d'
        = Ledger.daily_summaries L !! d')
  /\ Ledger.sessions (calculate_daily_summary DATE uuid now d L) = Ledger.sessions L
  /\ Ledger.sales (calculate_daily_summary DATE uuid now d L) = Ledger.sales L
  /\ Ledger.expenses (calculate_daily_summary DATE uuid now d L) = Ledger.expenses L.
Proof.
  split; [ | split; [ | split ] ].
  - unfold calculate_daily_summary at 1.
    cbn [calculate_daily_summary Ledger.daily_summaries Ledger.sessions
         Ledger.sales Ledger.expenses].
    rewrite lookup_insert_eq, insert_insert_eq.
    unfold calculate_daily_summary. f_equal. f_equal.
    destruct (Ledger.daily_summaries L !! d); reflexivity.
  - intros old Hold. unfold calculate_daily_summary. cbn [Ledger.daily_summaries].
    rewrite lookup_insert_eq, Hold. eexists. split; [ reflexivity | ].
    repeat split.
  - intros d' Hne. unfold calculate_daily_summary. cbn [Ledger.daily_summaries].
    apply lookup_insert_ne. congruence.
  - repeat split.
Qed.

(** X26. A day without sessions, sales and expenses gets a summary of
    zeros (the sums are null and are replaced by 0): this is what is left
    when the last row of a day is deleted. *)
Theorem empty_day_summary_is_zero DATE uuid now d L :
  sessions_on DATE d L = [] ->
  sales_on DATE d L = [] ->
  expenses_on d L = [] ->
  exists row,
    Ledger.daily_summaries (calculate_daily_summary DATE uuid now d L) !! d = Some row
    /\ DailySummary.sessions_revenue row == 0
    /\ DailySummary.sales_revenue row == 0
    /\ DailySummary.expenses_total row == 0
    /\ DailySummary.discounts_total row == 0
    /\ DailySummary.net_income row == 0.
Proof.
  intros Hsessions Hsales Hexpenses.
  destruct (calculate_daily_summary_row DATE uuid now d L)
    as (row & Hrow & H1 & H2 & H3 & H4 & H5).
  exists row. split; [ exact Hrow | ].
  assert (completed_sessions_on DATE d L = []) as Hcompleted.
  { unfold completed_sessions_on, sessions_on in *.
    induction (Ledger.sessions L) as [|s l IH]; [ reflexivity | ].
    rewrite filter_cons in Hsessions. rewrite filter_cons.
    destruct (decide (created_on DATE d (Session.created_at s))) as [Hs|Hs];
      [ discriminate | ].
    rewrite decide_False by tauto. apply IH, Hsessions. }
  assert (sessions_rev DATE d L == 0) as E1
    by (rewrite sessions_rev_spec, Hcompleted; reflexivity).
  assert (sales_rev DATE d L == 0) as E2
    by (rewrite sales_rev_spec, Hsales; reflexivity).
  assert (expenses_tot d L == 0) as E3
    by (rewrite expenses_tot_spec, Hexpenses; reflexivity).
  rewrite H1, H2, H3, H4, H5, E1, E2, E3, discounts_tot_join, Hsessions, Hsales.
  rewrite !fmap_nil, total_nil.
  repeat split; try reflexivity; ring.
Qed.

(** Day 5 of the sample ledger. *)
Lemma empty_day_summary_is_zero_witness :
  exists row,
    Ledger.daily_summaries
      (calculate_daily_summary SampleDay.DATE "summary-5" 432000 5 SampleDay.ledger)
      !! 5%Z = Some row
    /\ DailySummary.sessions_revenue row == 0
    /\ DailySummary.sales_revenue row == 0
    /\ DailySummary.expenses_total row == 0
    /\ DailySummary.discounts_total row == 0
    /\ DailySummary.net_income row == 0.
Proof.
  apply (empty_day_summary_is_zero SampleDay.DATE "summary-5" 432000 5
           SampleDay.ledger); reflexivity.
Defined.

Lemma weight_ge_1 n : 1 <= weight n.
Proof.
  unfold weight. change 1 with (inject_Z 1). rewrite <- Zle_Qle. lia.
Qed.

(** X27. When no sale and no session of the day was charged more than
    its price, the stored discount total is at least the sum of the
    discounts given, each sale and session counted once: the join of the
    discount query repeats rows and drops none. *)
Theorem discounts_total_never_undercounts DATE uuid now d L :
  Forall (fun s => Sale.final_amount s <= Sale.total_price s) (sales_on DATE d L) ->
  Forall (fun s => Session.final_amount s <= Session.total_cost s)
    (sessions_on DATE d L) ->
  exists row,
    Ledger.daily_summaries (calculate_daily_summary DATE uuid now d L) !! d = Some row
    /\ spec_discounts_total DATE d L <= DailySummary.discounts_total row.
Proof.
  intros Hsales Hsessions.
  destruct (calculate_daily_summary_row DATE uuid now d L)
    as (row & Hrow & _ & _ & _ & H4 & _).
  exists row. split; [ exact Hrow | ].
  rewrite H4, discounts_tot_join. unfold spec_discounts_total.
  assert (0 <= total (sale_discount <$> sales_on DATE d L)) as Ha.
  { apply total_nonneg. apply Forall_fmap. eapply Forall_impl; [ exact Hsales | ].
    intros s Hs. cbv beta in Hs. unfold compose, sale_discount. lra. }
  assert (0 <= total (session_discount <$> sessions_on DATE d L)) as Hb.
  { apply total_nonneg. apply Forall_fmap. eapply Forall_impl; [ exact Hsessions | ].
    intros s Hs. cbv beta in Hs. unfold compose, session_discount. lra. }
  pose proof (weight_ge_1 (length (sessions_on DATE d L))) as W1.
  pose proof (weight_ge_1 (length (sales_on DATE d L))) as W2.
  nra.
Qed.

(** Day 1 of the sample ledger: discounts of 3 were given, 4 is stored. *)
Lemma discounts_total_never_undercounts_witness :
  exists row,
    Ledger.daily_summaries
      (calculate_daily_summary SampleDay.DATE "summary-1" 90000 1 SampleDay.ledger)
      !! 1%Z = Some row
    /\ spec_discounts_total SampleDay.DATE 1 SampleDay.ledger
       <= DailySummary.discounts_total row.
Proof.
  apply (discounts_total_never_undercounts SampleDay.DATE "summary-1" 90000 1
           SampleDay.ledger).
  - repeat constructor; vm_compute; discriminate.
  - repeat constructor; vm_compute; discriminate.
Defined.

(** ** The dashboard *)

(** X29. The counters of the dashboard add up: every session of the day
    is counted in exactly one of the three device types, so the three
    counts sum to the total, which is the number of sessions; of the
    devices, the occupied ones are counted as active, at most all of
    them. *)
Theorem dashboard_counters_add_up (sessions : list DeviceType)
    (devices : list DeviceStatus) :
  (SessionStats.external (fetchSessionStats sessions)
   + SessionStats.internal (fetchSessionStats sessions)
   + SessionStats.vip (fetchSessionStats sessions)
   = SessionStats.total (fetchSessionStats sessions))%Z
  /\ SessionStats.total (fetchSessionStats sessions) = Z.of_nat (length sessions)
  /\ DeviceStats.total (fetchDeviceStats devices) = Z.of_nat (length devices)
  /\ DeviceStats.active (fetchDeviceStats devices)
     = Z.of_nat (length (filter (fun st => st = occupied) devices))
  /\ (0 <= DeviceStats.active (fetchDeviceStats devices)
      <= DeviceStats.total (fetchDeviceStats devices))%Z.
Proof.
  assert (forall acc,
    let r := fold_left
      (fun acc type =>
         SessionStats.mk
           (SessionStats.external acc + (match type with external => 1 | _ => 0 end))
           (SessionStats.internal acc + (match type with internal => 1 | _ => 0 end))
           (SessionStats.vip acc + (match type with vip => 1 | _ => 0 end))
           (SessionStats.total acc + 1))
      sessions acc in
    (SessionStats.external r + SessionStats.internal r + SessionStats.vip r
     = SessionStats.external acc + SessionStats.internal acc + SessionStats.vip acc
       + Z.of_nat (length sessions)
     /\ SessionStats.total r = SessionStats.total acc + Z.of_nat (length sessions))%Z)
    as Hs.
  { induction sessions as [|x l IH]; intros acc; cbv zeta; cbn [fold_left length].
    - lia.
    - destruct (IH (SessionStats.mk
           (SessionStats.external acc + (match x with external => 1 | _ => 0 end))
           (SessionStats.internal acc + (match x with internal => 1 | _ => 0 end))
           (SessionStats.vip acc + (match x with vip => 1 | _ => 0 end))
           (SessionStats.total acc + 1))) as [H1 H2].
      rewrite H1, H2.
      cbn [SessionStats.external SessionStats.internal SessionStats.vip
           SessionStats.total].
      destruct x; lia. }
  assert (forall acc,
    let r := fold_left
      (fun acc status =>
         DeviceStats.mk
           (DeviceStats.active acc + (if decide (status = occupied) then 1 else 0))
           (DeviceStats.total acc + 1))
      devices acc in
    (DeviceStats.total r = DeviceStats.total acc + Z.of_nat (length devices)
     /\ DeviceStats.active r
        = DeviceStats.active acc
          + Z.of_nat (length (filter (fun st => st = occupied) devices)))%Z)
    as Hd.
  { induction devices as [|x l IH]; intros acc; cbv zeta; cbn [fold_left length].
    - rewrite filter_nil. cbn [length]. lia.
    - destruct (IH (DeviceStats.mk
           (DeviceStats.active acc + (if decide (x = occupied) then 1 else 0))
           (DeviceStats.total acc + 1))) as [H1 H2].
      rewrite H1, H2, filter_cons. cbn [DeviceStats.active DeviceStats.total].
      destruct (decide (x = occupied)); cbn [length]; lia. }
  destruct (Hs (SessionStats.mk 0 0 0 0)) as [H1 H2].
  destruct (Hd (DeviceStats.mk 0 0)) as [H3 H4].
  unfold fetchSessionStats, fetchDeviceStats.
  cbv zeta in H1, H2, H3, H4. rewrite H1, H2, H3, H4.
  cbn [SessionStats.external SessionStats.internal SessionStats.vip
       SessionStats.total DeviceStats.active DeviceStats.total].
  pose proof (length_filter (fun st => st = occupied) devices).
  repeat split; lia.
Qed.
